(** * Binance_ARDL: trade execution, risk gating and signal consensus

    A shallow embedding of the execution core of the trading bot
    ([src/execution], [src/strategy], [src/utils/retry.py]) together with
    the properties stated about it.

    Modelling conventions.
    - Python [float] values are exact rationals ([Q]); comparisons and
      arithmetic are those of [QArith].
    - Python [dict] objects are insertion-ordered association lists
      ([dict]): iteration order is part of the behaviour of
      [cancel_all_orders], [get_open_positions] and [_aggregate_signals].
    - A coroutine is a function from the world to a result and a new
      world ([M]); an exception leaves the mutations done so far in place,
      as in Python.
    - The venue and the state store are collaborators behind interfaces
      ([ExchangeInterface], [StateManager]); every call may raise. *)

From Stdlib Require Import List String Ascii Bool Arith ZArith QArith Qminmax Qround Lia Lqa.
Import ListNotations.
Open Scope string_scope.
Open Scope list_scope.
Open Scope Q_scope.

Set Implicit Arguments.

(** ** Python values, exceptions and results *)

Inductive pyval : Type :=
| PNone
| PStr (s : string)
| PNum (q : Q).

(** Exception classes met in the modelled code. *)
Inductive exn_class : Type :=
| Exception
| NameError
| AttributeError
| KeyError
| TypeError
| ValueError
| IndexError
| ZeroDivisionError
| OSError
| ConnectionError
| TimeoutError
| InsufficientBalanceError
| OrderError.

Record exn : Type := mkExn { exn_cls : exn_class; exn_msg : string }.

Definition exn_class_eqb (a b : exn_class) : bool :=
  match a, b with
  | Exception, Exception | NameError, NameError
  | AttributeError, AttributeError | KeyError, KeyError
  | TypeError, TypeError | ValueError, ValueError
  | IndexError, IndexError | ZeroDivisionError, ZeroDivisionError
  | OSError, OSError | ConnectionError, ConnectionError
  | TimeoutError, TimeoutError
  | InsufficientBalanceError, InsufficientBalanceError
  | OrderError, OrderError => true
  | _, _ => false
  end.

(** [isinstance(e, cls)]: every class derives from [Exception]; the
    builtin [ConnectionError] and [TimeoutError] derive from [OSError]. *)
Definition isinstance (e : exn) (cls : exn_class) : bool :=
  match cls with
  | Exception => true
  | OSError =>
      match exn_cls e with
      | OSError | ConnectionError | TimeoutError => true
      | _ => false
      end
  | _ => exn_class_eqb (exn_cls e) cls
  end.

Inductive result (A : Type) : Type :=
| Ok (a : A)
| Raise (e : exn).
Arguments Ok {A} a.
Arguments Raise {A} e.

(** ** Insertion-ordered dictionaries *)

Module PyDict.
Section Dict.
Variables K V : Type.
Variable eqb : K -> K -> bool.

Definition dict := list (K * V).

  (** [d.get(k)] *)
Fixpoint get (k : K) (d : dict) : option V :=
    match d with
    | [] => None
    | (k', v) :: d' => if eqb k k' then Some v else get k d'
    end.

  (** [d[k] = v]: an existing key keeps its place, a new one goes last. *)
Fixpoint set (k : K) (v : V) (d : dict) : dict :=
    match d with
    | [] => [(k, v)]
    | (k', v') :: d' =>
        if eqb k k' then (k', v) :: d' else (k', v') :: set k v d'
    end.

Definition keys (d : dict) : list K := map fst d.
Definition values (d : dict) : list V := map snd d.

  (** [k in d] *)
Definition mem (k : K) (d : dict) : bool :=
    match get k d with Some _ => true | None => false end.

End Dict.
End PyDict.

Abbreviation dict := (PyDict.dict string).
Abbreviation dget := (PyDict.get String.eqb).
Abbreviation dset := (PyDict.set String.eqb).

(** [d[k]] *)
Definition getitem {A : Type} (d : dict A) (k : string) : result A :=
  match dget k d with
  | Some v => Ok v
  | None => Raise (mkExn KeyError k)
  end.

(** [float(v)] for the values the venue hands over (numbers; a string
    holding a numeral is not modelled and [None] is a [TypeError]). *)
Definition py_float (v : pyval) : result Q :=
  match v with
  | PNum q => Ok q
  | PStr _ => Raise (mkExn ValueError "could not convert string to float")
  | PNone => Raise (mkExn TypeError "float() argument must be a string or a real number")
  end.

(** A value used where the code needs a [str] (a dictionary key); other
    values are not modelled there. *)
Definition py_str (v : pyval) : result string :=
  match v with
  | PStr s => Ok s
  | _ => Raise (mkExn TypeError "expected str")
  end.

Definition pyval_is_str (v : pyval) (s : string) : bool :=
  match v with PStr s' => String.eqb s' s | _ => false end.

(** [sum(xs)] and [len(xs)] on floats: Python folds from the left,
    starting at 0. *)
Definition Qsum (l : list Q) : Q := fold_left Qplus l 0.
Definition Qlt_bool (x y : Q) : bool := negb (Qle_bool y x).

Definition Qlen {A : Type} (l : list A) : Q := inject_Z (Z.of_nat (List.length l)).

(** ** Signals ([src/strategy/base.py]) *)

Inductive Signal : Type :=
| LONG_ENTRY
| LONG_EXIT
| SHORT_ENTRY
| SHORT_EXIT
| NEUTRAL.

Definition Signal_eqb (a b : Signal) : bool :=
  match a, b with
  | LONG_ENTRY, LONG_ENTRY | LONG_EXIT, LONG_EXIT
  | SHORT_ENTRY, SHORT_ENTRY | SHORT_EXIT, SHORT_EXIT
  | NEUTRAL, NEUTRAL => true
  | _, _ => false
  end.

(** The [metadata] dictionary of a signal: what a strategy supplies, or
    the record built by the aggregator. *)
#[warnings="-register-all"]
Inductive Metadata : Type :=
| Meta (fields : dict pyval)
| MetaConsensus (consensus : Q) (strategies_count : nat)
                (original_signals : list Metadata).

Record TradingSignal : Type := mkSignal {
  signal : Signal;
  symbol : string;
  price : Q;
  confidence : Q;
  timestamp : Q;
  metadata : Metadata
}.

(** ** Consensus aggregation ([src/strategy/signals.py]) *)

Module SignalAggregator.

(** The key [(signal.symbol, signal.signal)] of the grouping dict. *)
Definition key : Type := string * Signal.

Definition key_eqb (a b : key) : bool :=
  String.eqb (fst a) (fst b) && Signal_eqb (snd a) (snd b).

Definition key_of (s : TradingSignal) : key := (symbol s, signal s).

Abbreviation groups := (PyDict.dict key (list TradingSignal)).

Section Aggregator.
(** [Strategy] objects are opaque here: only [len(self.strategies)]
    is read. *)
Variable Strategy : Type.

Record t : Type := mk {
  min_consensus : Q;
  strategies : list Strategy
}.

(** [SignalAggregator(min_consensus=0.6)] *)
Definition init : t := mk (6 # 10) [].

Definition add_strategy (self : t) (strategy : Strategy) : t :=
  mk (min_consensus self) (strategies self ++ [strategy]).

(** One turn of the grouping loop:
    [if key not in signal_groups: signal_groups[key] = []] then
    [signal_groups[key].append(signal)]. *)
Definition group_add (signal_groups : groups) (s : TradingSignal) : groups :=
  let k := key_of s in
  let signal_groups :=
    if PyDict.mem key_eqb k signal_groups then signal_groups
    else PyDict.set key_eqb k [] signal_groups in
  let group :=
    match PyDict.get key_eqb k signal_groups with
    | Some g => g
    | None => []
    end in
  PyDict.set key_eqb k (group ++ [s]) signal_groups.

Definition group_signals (signals : list TradingSignal) : groups :=
  fold_left group_add signals [].

Definition aggregated_signal (self : t) (now : Q) (k : key)
    (group : list TradingSignal) (consensus : Q) : TradingSignal :=
  let avg_confidence := Qsum (map confidence group) / Qlen group in
  let avg_price := Qsum (map price group) / Qlen group in
  mkSignal (snd k) (fst k) avg_price (avg_confidence * consensus) now
    (MetaConsensus consensus (List.length group) (map metadata group)).

(** The consensus loop over [signal_groups.items()]. *)
Fixpoint check_consensus (self : t) (now : Q)
    (items : list (key * list TradingSignal))
    : result (list TradingSignal) :=
  match items with
  | [] => Ok []
  | (k, group) :: rest =>
      match strategies self with
      | [] => Raise (mkExn ZeroDivisionError "division by zero")
      | _ :: _ =>
          let consensus := Qlen group / Qlen (strategies self) in
          if Qle_bool (min_consensus self) consensus then
            match check_consensus self now rest with
            | Ok aggregated =>
                Ok (aggregated_signal self now k group consensus :: aggregated)
            | Raise e => Raise e
            end
          else check_consensus self now rest
      end
  end.

(** [_aggregate_signals]; [now] is [datetime.utcnow().timestamp()]. *)
Definition _aggregate_signals (self : t) (now : Q)
    (signals : list TradingSignal) : result (list TradingSignal) :=
  if Nat.eqb (List.length (strategies self)) 1 then Ok signals
  else check_consensus self now (group_signals signals).

(** The members of a group, read off the input. *)
Definition members (k : key) (signals : list TradingSignal)
    : list TradingSignal :=
  filter (fun s => key_eqb (key_of s) k) signals.

(** What the grouping dict holds for a key, read off the input. *)
Definition group_of (k : key) (signals : list TradingSignal)
    : option (list TradingSignal) :=
  match members k signals with
  | [] => None
  | g => Some g
  end.

(** The test of the consensus loop on one item of the dict, and the
    signal built for an item that passes it. *)
Definition reaches_consensus (self : t) (item : key * list TradingSignal) : bool :=
  Qle_bool (min_consensus self) (Qlen (snd item) / Qlen (strategies self)).

Definition consensus_signal (self : t) (now : Q)
    (item : key * list TradingSignal) : TradingSignal :=
  aggregated_signal self now (fst item) (snd item)
    (Qlen (snd item) / Qlen (strategies self)).

End Aggregator.
End SignalAggregator.

(** ** Orders, positions and order books *)

(** [src/execution/order_manager.py] *)
Inductive OrderStatus : Type :=
| PENDING
| FILLED
| CANCELLED
| FAILED.

Definition OrderStatus_eqb (a b : OrderStatus) : bool :=
  match a, b with
  | PENDING, PENDING | FILLED, FILLED
  | CANCELLED, CANCELLED | FAILED, FAILED => true
  | _, _ => false
  end.

Module Order.
Record t : Type := mk {
  id : string;
  symbol : string;
  side : string;
  order_type : string;
  amount : Q;
  price : option Q;
  status : OrderStatus;
  exchange_order_id : pyval;
  filled_amount : pyval;
  average_price : pyval
}.

Definition with_status (s : OrderStatus) (o : t) : t :=
  mk (id o) (symbol o) (side o) (order_type o) (amount o) (price o) s
     (exchange_order_id o) (filled_amount o) (average_price o).

Definition with_exchange_order_id (x : pyval) (o : t) : t :=
  mk (id o) (symbol o) (side o) (order_type o) (amount o) (price o) (status o)
     x (filled_amount o) (average_price o).

Definition with_filled_amount (x : pyval) (o : t) : t :=
  mk (id o) (symbol o) (side o) (order_type o) (amount o) (price o) (status o)
     (exchange_order_id o) x (average_price o).

Definition with_average_price (x : pyval) (o : t) : t :=
  mk (id o) (symbol o) (side o) (order_type o) (amount o) (price o) (status o)
     (exchange_order_id o) (filled_amount o) x.
End Order.

(** [src/execution/position_manager.py] *)
Module Position.
Record t : Type := mk {
  symbol : string;
  side : string;
  entry_price : Q;
  amount : Q;
  entry_time : Q;
  exit_price : option Q;
  exit_time : option Q;
  pnl : Q;
  status : string
}.

(** [Position(symbol, side, entry_price, amount, entry_time)] with the
    dataclass defaults. *)
Definition new (symbol side : string) (entry_price amount entry_time : Q) : t :=
  mk symbol side entry_price amount entry_time None None 0 "open".
End Position.

(** [src/data/order_book.py] *)
Record OrderBookLevel : Type := mkLevel { level_price : Q; quantity : Q }.

Record OrderBook : Type := mkBook {
  book_symbol : string;
  bids : list OrderBookLevel;
  asks : list OrderBookLevel;
  book_timestamp : Q
}.

(** ** The world: collaborators, owned collections and the trace *)

Inductive log_level : Type := DEBUG | INFO | WARNING | ERROR.

(** What a run leaves behind, newest first: log records (the formatted
    fields of f-strings are not rendered), timed waits, every call made to
    a collaborator and every task started or cancelled. *)
Inductive event : Type :=
| Log (level : log_level) (msg : string)
| Sleep (seconds : Q)
| CreateOrder (symbol order_type side : string) (amount : Q) (price : option Q)
| CancelOrder (exchange_order_id : pyval) (symbol : string)
| FetchOrder (exchange_order_id : pyval) (symbol : string)
| FetchPositions
| FetchBalance
| FetchTicker (symbol : string)
| SaveOrder (order : Order.t)
| SavePosition (symbol : string) (position : Position.t)
| GetAllPositions
| GetTradesSince (since : Q)
| CreateTask (order_id : string)
| CancelTask (symbol : string).

(** [src/exchanges/base.py], with [fetch_order] and [fetch_ticker] as the
    managers call them. Replies are the dictionaries the callers index. *)
Class ExchangeInterface (VS : Type) : Type := {
  fetch_balance : VS -> result (dict (dict Q)) * VS;
  create_order : string -> string -> string -> Q -> option Q -> VS
                 -> result (dict pyval) * VS;
  cancel_order : pyval -> string -> VS -> result bool * VS;
  fetch_order : pyval -> string -> VS -> result (dict pyval) * VS;
  fetch_positions : VS -> result (list (dict pyval)) * VS;
  fetch_ticker : string -> VS -> result (dict Q) * VS
}.

(** The state store as the managers call it. *)
Class StateManager (SS : Type) : Type := {
  get_all_positions : SS -> result (list (dict pyval)) * SS;
  get_trades_since : Q -> SS -> result (list (dict pyval)) * SS;
  save_order : string -> Order.t -> SS -> result unit * SS;
  save_position : string -> Position.t -> SS -> result unit * SS
}.

(** A reference to an [Order] object. *)
Definition ref : Type := nat.

Section Engine.
Context {VS SS : Type} {exchange : ExchangeInterface VS} {state_manager : StateManager SS}.

Record World : Type := mkWorld {
  venue : VS;
  store : SS;
  (** [datetime.utcnow()], [uuid.uuid4()] and [random.random()] *)
  clock : Q;
  uuid_source : nat -> string;
  uuid_count : nat;
  random_source : nat -> Q;
  random_count : nat;
  trace : list event;
  (** every [Order] object made so far; a reference is its index *)
  heap : list Order.t;
  (** [OrderManager.active_orders] *)
  active_orders : dict ref;
  (** [PositionManager.positions] *)
  positions : dict Position.t;
  (** [TradingExecutor._active_orders] *)
  executor_orders : dict ref;
  (** [OrderBookManager._order_books] and the keys of [_update_tasks] *)
  order_books : dict OrderBook;
  update_tasks : list string
}.

Definition with_venue (x : VS) (w : World) : World :=
  mkWorld x (store w) (clock w) (uuid_source w) (uuid_count w)
    (random_source w) (random_count w) (trace w) (heap w) (active_orders w)
    (positions w) (executor_orders w) (order_books w) (update_tasks w).

Definition with_store (x : SS) (w : World) : World :=
  mkWorld (venue w) x (clock w) (uuid_source w) (uuid_count w)
    (random_source w) (random_count w) (trace w) (heap w) (active_orders w)
    (positions w) (executor_orders w) (order_books w) (update_tasks w).

Definition with_clock (x : Q) (w : World) : World :=
  mkWorld (venue w) (store w) x (uuid_source w) (uuid_count w)
    (random_source w) (random_count w) (trace w) (heap w) (active_orders w)
    (positions w) (executor_orders w) (order_books w) (update_tasks w).

Definition with_uuid_count (x : nat) (w : World) : World :=
  mkWorld (venue w) (store w) (clock w) (uuid_source w) x (random_source w)
    (random_count w) (trace w) (heap w) (active_orders w) (positions w)
    (executor_orders w) (order_books w) (update_tasks w).

Definition with_random_count (x : nat) (w : World) : World :=
  mkWorld (venue w) (store w) (clock w) (uuid_source w) (uuid_count w)
    (random_source w) x (trace w) (heap w) (active_orders w) (positions w)
    (executor_orders w) (order_books w) (update_tasks w).

Definition with_trace (x : list event) (w : World) : World :=
  mkWorld (venue w) (store w) (clock w) (uuid_source w) (uuid_count w)
    (random_source w) (random_count w) x (heap w) (active_orders w)
    (positions w) (executor_orders w) (order_books w) (update_tasks w).

Definition with_heap (x : list Order.t) (w : World) : World :=
  mkWorld (venue w) (store w) (clock w) (uuid_source w) (uuid_count w)
    (random_source w) (random_count w) (trace w) x (active_orders w)
    (positions w) (executor_orders w) (order_books w) (update_tasks w).

Definition with_active_orders (x : dict ref) (w : World) : World :=
  mkWorld (venue w) (store w) (clock w) (uuid_source w) (uuid_count w)
    (random_source w) (random_count w) (trace w) (heap w) x (positions w)
    (executor_orders w) (order_books w) (update_tasks w).

Definition with_positions (x : dict Position.t) (w : World) : World :=
  mkWorld (venue w) (store w) (clock w) (uuid_source w) (uuid_count w)
    (random_source w) (random_count w) (trace w) (heap w) (active_orders w)
    x (executor_orders w) (order_books w) (update_tasks w).

Definition with_executor_orders (x : dict ref) (w : World) : World :=
  mkWorld (venue w) (store w) (clock w) (uuid_source w) (uuid_count w)
    (random_source w) (random_count w) (trace w) (heap w) (active_orders w)
    (positions w) x (order_books w) (update_tasks w).

Definition with_order_books (x : dict OrderBook) (w : World) : World :=
  mkWorld (venue w) (store w) (clock w) (uuid_source w) (uuid_count w)
    (random_source w) (random_count w) (trace w) (heap w) (active_orders w)
    (positions w) (executor_orders w) x (update_tasks w).

Definition with_update_tasks (x : list string) (w : World) : World :=
  mkWorld (venue w) (store w) (clock w) (uuid_source w) (uuid_count w)
    (random_source w) (random_count w) (trace w) (heap w) (active_orders w)
    (positions w) (executor_orders w) (order_books w) x.

(** *** Coroutines *)

Definition M (A : Type) : Type := World -> result A * World.

Definition ret {A : Type} (a : A) : M A := fun w => (Ok a, w).

Definition bind {A B : Type} (c : M A) (k : A -> M B) : M B :=
  fun w =>
    match c w with
    | (Ok a, w') => k a w'
    | (Raise e, w') => (Raise e, w')
    end.

Definition raise {A : Type} (e : exn) : M A := fun w => (Raise e, w).

(** [try: c  except Exception as e: h e] *)
Definition try_except {A : Type} (c : M A) (h : exn -> M A) : M A :=
  fun w =>
    match c w with
    | (Ok a, w') => (Ok a, w')
    | (Raise e, w') => h e w'
    end.

(** A value that is already a [result] ([d[k]], [float(x)]). *)
Definition lift {A : Type} (r : result A) : M A := fun w => (r, w).

Definition emit (e : event) : M unit :=
  fun w => (Ok tt, with_trace (e :: trace w) w).

Definition log (level : log_level) (msg : string) : M unit :=
  emit (Log level msg).

(** [await asyncio.sleep(seconds)]; a delay at or below zero returns at
    once. *)
Definition sleep (seconds : Q) : M unit :=
  fun w => (Ok tt, with_clock (clock w + Qmax 0 seconds)
                     (with_trace (Sleep seconds :: trace w) w)).

Definition utcnow : M Q := fun w => (Ok (clock w), w).

(** [str(uuid.uuid4())] *)
Definition uuid4 : M string :=
  fun w => (Ok (uuid_source w (uuid_count w)),
            with_uuid_count (S (uuid_count w)) w).

(** [random.uniform(a, b)], that is [a + (b - a) * random()] *)
Definition random_uniform (a b : Q) : M Q :=
  fun w => (Ok (a + (b - a) * random_source w (random_count w)),
            with_random_count (S (random_count w)) w).

(** A call to the venue: the call is traced, the venue moves on. *)
Definition call_venue {A : Type} (e : event) (f : VS -> result A * VS) : M A :=
  fun w =>
    let (r, v) := f (venue w) in
    (r, with_venue v (with_trace (e :: trace w) w)).

Definition call_store {A : Type} (e : event) (f : SS -> result A * SS) : M A :=
  fun w =>
    let (r, s) := f (store w) in
    (r, with_store s (with_trace (e :: trace w) w)).

End Engine.

Arguments World VS SS : clear implicits.
Arguments M VS SS A : clear implicits.

Declare Scope coroutine_scope.
Delimit Scope coroutine_scope with coroutine.
Notation "x <- c ;; k" := (bind c (fun x => k))
  (at level 61, c at next level, right associativity) : coroutine_scope.
Notation "c ;;; k" := (bind c (fun _ => k))
  (at level 61, right associativity) : coroutine_scope.
Open Scope coroutine_scope.

(** ** Retry decorator ([src/utils/retry.py]) *)

Record retry_policy : Type := mkPolicy {
  max_attempts : Z;
  delay : Q;
  backoff : Q;
  max_delay : Q;
  exceptions : list exn_class;
  should_retry : option (exn -> bool)
}.

(** The keyword defaults of [retry_async]. *)
Definition retry_defaults : retry_policy :=
  mkPolicy 3 1 2 60 [Exception] None.

(** [except exceptions as e] catches [e]. *)
Definition catches (p : retry_policy) (e : exn) : bool :=
  existsb (isinstance e) (exceptions p).

(** [should_retry and not should_retry(e)] *)
Definition refuses (p : retry_policy) (e : exn) : bool :=
  match should_retry p with
  | Some f => negb (f e)
  | None => false
  end.

Section Retry.
Context {VS SS : Type}.
Abbreviation Co := (M VS SS).

(** The tail of the [except] block: jitter, the warning, the wait. *)
Definition backoff_pause (p : retry_policy) (current_delay : Q) : Co unit :=
  jitter <- random_uniform 0 (current_delay * (1 # 10)) ;;
  let sleep_time := Qmin (current_delay + jitter) (max_delay p) in
  log WARNING "Retry attempt" ;;;
  sleep sleep_time.

(** The [while attempt < max_attempts] loop of [wrapper]. Each turn
    either leaves the loop or adds one to [attempt], so [max_attempts]
    turns are enough ([fuel]); next to the result the model returns the
    outcome of every call of [func] it made, in order. *)
Fixpoint retry_loop {A : Type} (p : retry_policy) (func : Co A) (fuel : nat)
    (attempt : Z) (current_delay : Q) (w : World VS SS)
    : result (option A) * World VS SS * list (result A) :=
  match fuel with
  | O => (Ok None, w, [])
  | S fuel =>
      if (max_attempts p <=? attempt)%Z then (Ok None, w, [])
      else
        match func w with
        | (Ok a, w) => (Ok (Some a), w, [Ok a])
        | (Raise e, w) =>
            if negb (catches p e) then (Raise e, w, [Raise e])
            else
              let attempt := (attempt + 1)%Z in
              if refuses p e then (Raise e, w, [Raise e])
              else if (max_attempts p <=? attempt)%Z then
                (Raise e, snd (log ERROR "Max retry attempts reached" w),
                 [Raise e])
              else
                let w := snd (backoff_pause p current_delay w) in
                let current_delay :=
                  Qmin (current_delay * backoff p) (max_delay p) in
                let '(r, w, outcomes) :=
                  retry_loop p func fuel attempt current_delay w in
                (r, w, Raise e :: outcomes)
        end
  end.

Definition retry_run {A : Type} (p : retry_policy) (func : Co A)
    (w : World VS SS) : result (option A) * World VS SS * list (result A) :=
  retry_loop p func (Z.to_nat (max_attempts p)) 0 (delay p) w.

(** [retry_async(...)(func)]: the wrapped coroutine; it returns [None]
    when the loop is never entered. *)
Definition retry_async {A : Type} (p : retry_policy) (func : Co A)
    : Co (option A) :=
  fun w => fst (retry_run p func w).

(** An error the policy retries: caught by [exceptions], not refused by
    [should_retry]. *)
Definition retried (p : retry_policy) (e : exn) : Prop :=
  catches p e = true /\ refuses p e = false.

(** The worlds in which the second and the third call are made, after a
    first call that left [w1] and a second that left [w2]. *)
Definition second_call_world (p : retry_policy) (w1 : World VS SS)
    : World VS SS :=
  snd (backoff_pause p (delay p) w1).

Definition third_call_world (p : retry_policy) (w2 : World VS SS)
    : World VS SS :=
  snd (backoff_pause p (Qmin (delay p * backoff p) (max_delay p)) w2).

End Retry.

(** What the wrapper hands back, read off the calls it made: the value
    or the error of the last one. *)
Fixpoint final_of {A : Type} (outcomes : list (result A)) : result (option A) :=
  match outcomes with
  | [] => Ok None
  | [Ok v] => Ok (Some v)
  | [Raise e] => Raise e
  | _ :: rest => final_of rest
  end.

(** [str.lower()] on ASCII letters. *)
Definition lower_ascii (c : ascii) : ascii :=
  let n := nat_of_ascii c in
  if (65 <=? n)%nat && (n <=? 90)%nat then ascii_of_nat (n + 32) else c.

Fixpoint lower (s : string) : string :=
  match s with
  | EmptyString => EmptyString
  | String c s => String (lower_ascii c) (lower s)
  end.

(** [sub in s] on strings *)
Definition contains (sub s : string) : bool :=
  match index 0 sub s with Some _ => true | None => false end.

(** [RetryStrategies.order_retry]: the policy that tells rejections
    apart by the text of the error. *)
Definition should_retry_order (e : exn) : bool :=
  let error_msg := lower (exn_msg e) in
  if existsb (fun msg => contains msg error_msg)
       ["insufficient"; "invalid"; "rejected"]
  then false else true.

Definition order_retry : retry_policy :=
  mkPolicy 3 1 (15 # 10) 10 [Exception] (Some should_retry_order).

(** ** Order objects on the heap *)

Fixpoint list_update {A : Type} (l : list A) (i : nat) (f : A -> A) : list A :=
  match l, i with
  | [], _ => []
  | x :: l, O => f x :: l
  | x :: l, S i => x :: list_update l i f
  end.

Section Heap.
Context {VS SS : Type}.
Abbreviation Co := (M VS SS).

(** [Order(...)]: a new object. *)
Definition alloc (o : Order.t) : Co ref :=
  fun w => (Ok (List.length (heap w)), with_heap (heap w ++ [o]) w).

(** Reading through a reference. References only come from [alloc], so
    the second case does not arise in a run. *)
Definition deref (r : ref) : Co Order.t :=
  fun w =>
    match nth_error (heap w) r with
    | Some o => (Ok o, w)
    | None => (Raise (mkExn Exception "dangling reference"), w)
    end.

(** An attribute assignment on the object. *)
Definition modify (r : ref) (f : Order.t -> Order.t) : Co unit :=
  fun w => (Ok tt, with_heap (list_update (heap w) r f) w).

End Heap.

(** ** OrderManager ([src/execution/order_manager.py]) *)

Module OrderManager.
Section Manager.
Context {VS SS : Type} {exchange : ExchangeInterface VS}
        {state_manager : StateManager SS}.
Abbreviation Co := (M VS SS).

(** The collaborator calls, traced. *)
Definition exchange_create_order (symbol order_type side : string) (amount : Q)
    (price : option Q) : Co (dict pyval) :=
  call_venue (CreateOrder symbol order_type side amount price)
             (create_order symbol order_type side amount price).

Definition exchange_cancel_order (exchange_order_id : pyval) (symbol : string)
    : Co bool :=
  call_venue (CancelOrder exchange_order_id symbol)
             (cancel_order exchange_order_id symbol).

Definition exchange_fetch_order (exchange_order_id : pyval) (symbol : string)
    : Co (dict pyval) :=
  call_venue (FetchOrder exchange_order_id symbol)
             (fetch_order exchange_order_id symbol).

(** [self.state_manager.save_order(order.id, order.__dict__)] *)
Definition state_save_order (r : ref) : Co unit :=
  order <- deref r ;;
  call_store (SaveOrder order) (save_order (Order.id order) order).

(** [self.active_orders[order.id] = order] *)
Definition register (order_id : string) (r : ref) : Co unit :=
  fun w => (Ok tt, with_active_orders (dset order_id r (active_orders w)) w).

(** The body of [place_order], under the decorator. *)
Definition place_order_body (symbol side order_type : string) (amount : Q)
    (price : option Q) : Co ref :=
  order_id <- uuid4 ;;
  order <- alloc (Order.mk order_id symbol side order_type amount price
                    PENDING PNone (PNum 0) (PNum 0)) ;;
  try_except
    (response <- exchange_create_order symbol order_type side amount price ;;
     response_id <- lift (getitem response "id") ;;
     modify order (Order.with_exchange_order_id response_id) ;;;
     register order_id order ;;;
     state_save_order order ;;;
     emit (CreateTask order_id) ;;;
     log INFO "Order placed" ;;;
     ret order)
    (fun e =>
       modify order (Order.with_status FAILED) ;;;
       log ERROR "Failed to place order" ;;;
       raise e).

(** [@retry_async(max_attempts=3, delay=1)] *)
Definition place_order_policy : retry_policy :=
  mkPolicy 3 1 (backoff retry_defaults) (max_delay retry_defaults)
    (exceptions retry_defaults) (should_retry retry_defaults).

Definition place_order (symbol side order_type : string) (amount : Q)
    (price : option Q) : Co (option ref) :=
  retry_async place_order_policy
    (place_order_body symbol side order_type amount price).

(** [cancel_order] *)
Definition cancel_order (order_id : string) : Co bool :=
  fun w =>
    match dget order_id (active_orders w) with
    | None => (Ok false, w)
    | Some r =>
        try_except
          (order <- deref r ;;
           exchange_cancel_order (Order.exchange_order_id order)
                                 (Order.symbol order) ;;;
           modify r (Order.with_status CANCELLED) ;;;
           state_save_order r ;;;
           ret true)
          (fun e => log ERROR "Failed to cancel order" ;;; ret false)
          w
    end.

(** One turn of the polling loop of [_monitor_order]: the [try] block
    and its handler. The value says whether the loop was left by
    [break]. *)
Definition monitor_poll (r : ref) : Co bool :=
  try_except
    (order <- deref r ;;
     exchange_orders <- exchange_fetch_order (Order.exchange_order_id order)
                                             (Order.symbol order) ;;
     status <- lift (getitem exchange_orders "status") ;;
     if pyval_is_str status "closed" then
       modify r (Order.with_status FILLED) ;;;
       filled <- lift (getitem exchange_orders "filled") ;;
       modify r (Order.with_filled_amount filled) ;;;
       average <- lift (getitem exchange_orders "average") ;;
       modify r (Order.with_average_price average) ;;;
       ret true
     else
       status <- lift (getitem exchange_orders "status") ;;
       if pyval_is_str status "cancelled" then
         modify r (Order.with_status CANCELLED) ;;;
         ret true
       else ret false)
    (fun e => log ERROR "Error monitoring order" ;;; ret false).

Definition monitor_max_attempts : nat := 10.

(** [while attempt < max_attempts and order.status == PENDING]; the
    value is [attempt] when the loop is left. *)
Fixpoint monitor_loop (fuel : nat) (attempt : nat) (r : ref) : Co nat :=
  match fuel with
  | O => ret attempt
  | S fuel =>
      order <- deref r ;;
      if (attempt <? monitor_max_attempts)%nat
         && OrderStatus_eqb (Order.status order) PENDING
      then
        left_by_break <- monitor_poll r ;;
        if left_by_break then ret attempt
        else
          sleep 2 ;;;
          monitor_loop fuel (attempt + 1) r
      else ret attempt
  end.

(** [_monitor_order] *)
Definition _monitor_order (r : ref) : Co unit :=
  attempt <- monitor_loop (S monitor_max_attempts) 0 r ;;
  state_save_order r ;;;
  order <- deref r ;;
  if OrderStatus_eqb (Order.status order) PENDING
     && (monitor_max_attempts <=? attempt)%nat
  then cancel_order (Order.id order) ;;; ret tt
  else ret tt.

End Manager.
End OrderManager.

(** ** Scripted collaborators

    A venue and a store whose replies are fixed in advance, call by call;
    they stand in for [MockExchange] and the Redis store in the concrete
    runs below. *)

Module Scripted.

Record venue_script : Type := mkVenue {
  create_reply : nat -> result (dict pyval);
  create_calls : nat;
  cancel_reply : nat -> result bool;
  cancel_calls : nat;
  order_reply : nat -> result (dict pyval);
  order_calls : nat;
  positions_reply : result (list (dict pyval));
  balance_reply : result (dict (dict Q));
  ticker_reply : result (dict Q)
}.

Record store_script : Type := mkStore {
  save_order_reply : nat -> result unit;
  save_order_calls : nat;
  save_position_reply : result unit;
  all_positions_reply : result (list (dict pyval));
  trades_reply : result (list (dict pyval))
}.

#[export] Instance exchange : ExchangeInterface venue_script := {
  fetch_balance v := (balance_reply v, v);
  create_order _ _ _ _ _ v :=
    (create_reply v (create_calls v),
     mkVenue (create_reply v) (S (create_calls v)) (cancel_reply v)
       (cancel_calls v) (order_reply v) (order_calls v) (positions_reply v)
       (balance_reply v) (ticker_reply v));
  cancel_order _ _ v :=
    (cancel_reply v (cancel_calls v),
     mkVenue (create_reply v) (create_calls v) (cancel_reply v)
       (S (cancel_calls v)) (order_reply v) (order_calls v) (positions_reply v)
       (balance_reply v) (ticker_reply v));
  fetch_order _ _ v :=
    (order_reply v (order_calls v),
     mkVenue (create_reply v) (create_calls v) (cancel_reply v)
       (cancel_calls v) (order_reply v) (S (order_calls v)) (positions_reply v)
       (balance_reply v) (ticker_reply v));
  fetch_positions v := (positions_reply v, v);
  fetch_ticker _ v := (ticker_reply v, v)
}.

#[export] Instance state_manager : StateManager store_script := {
  get_all_positions s := (all_positions_reply s, s);
  get_trades_since _ s := (trades_reply s, s);
  save_order _ _ s :=
    (save_order_reply s (save_order_calls s),
     mkStore (save_order_reply s) (S (save_order_calls s))
       (save_position_reply s) (all_positions_reply s) (trades_reply s));
  save_position _ _ s := (save_position_reply s, s)
}.

(** A venue that accepts every order under the id ["V1"], confirms every
    cancellation and reports every order as still open; a store that
    accepts every write. *)
Definition quiet_venue : venue_script :=
  mkVenue (fun _ => Ok [("id", PStr "V1")]) 0
          (fun _ => Ok true) 0
          (fun _ => Ok [("status", PStr "open")]) 0
          (Ok []) (Ok [("free", [("USDT", 10000)])]) (Ok [("last", 2500)]).

Definition quiet_store : store_script :=
  mkStore (fun _ => Ok tt) 0 (Ok tt) (Ok []) (Ok []).

Definition world (v : venue_script) (s : store_script)
    : World venue_script store_script :=
  mkWorld v s 0 (fun n => String (ascii_of_nat (97 + n) ) "") 0
    (fun _ => 0) 0
          [] [] [] [] [] [] [].

End Scripted.

(** ** RiskManager ([src/strategy/risk_manager.py]) *)

Module RiskManager.

Record RiskLimits : Type := mkLimits {
  max_position_size : Q;
  max_positions : Z;
  max_daily_loss : Q;
  max_drawdown : Q;
  position_size_pct : Q
}.

(** The names bound at module level in [risk_manager.py]: its three
    import lines and its two classes. *)
Definition module_globals : list string :=
  ["dataclass"; "Dict"; "List"; "get_logger"; "RiskLimits"; "RiskManager"].

(** [datetime.utcnow().replace(hour=0, minute=0, second=0)] on a clock in
    seconds: the start of the day, plus the microseconds left in place. *)
Definition start_of_day (now : Q) : Q :=
  inject_Z (86400 * (Qfloor now / 86400)) + (now - inject_Z (Qfloor now)).

(** [sum(trade.get('pnl', 0) for trade in trades)] *)
Fixpoint sum_pnl (acc : Q) (trades : list (dict pyval)) : result Q :=
  match trades with
  | [] => Ok acc
  | trade :: rest =>
      match dget "pnl" trade with
      | None => sum_pnl (acc + 0) rest
      | Some (PNum q) => sum_pnl (acc + q) rest
      | Some _ => Raise (mkExn TypeError "unsupported operand type(s) for +")
      end
  end.

(** [[p for p in positions if p['status'] == 'open']] *)
Fixpoint open_only (positions : list (dict pyval)) : result (list (dict pyval)) :=
  match positions with
  | [] => Ok []
  | p :: rest =>
      match getitem p "status" with
      | Raise e => Raise e
      | Ok status =>
          match open_only rest with
          | Raise e => Raise e
          | Ok l => Ok (if pyval_is_str status "open" then p :: l else l)
          end
      end
  end.

Section Manager.
Context {VS SS : Type} {exchange : ExchangeInterface VS}
        {state_manager : StateManager SS}.
Abbreviation Co := (M VS SS).

(** Reading a global name of the module. *)
Definition load_global (globals : list string) (name : string) : Co unit :=
  if existsb (String.eqb name) globals then ret tt
  else raise (mkExn NameError name).

Definition _calculate_daily_pnl (globals : list string) : Co Q :=
  load_global globals "datetime" ;;;
  now <- utcnow ;;
  let since := start_of_day now in
  trades <- call_store (GetTradesSince since) (get_trades_since since) ;;
  lift (sum_pnl 0 trades).

Definition _calculate_required_margin (symbol : string) (amount : Q) : Co Q :=
  ticker <- call_venue (FetchTicker symbol) (fetch_ticker symbol) ;;
  last <- lift (getitem ticker "last") ;;
  let position_value := last * amount in
  ret (position_value / 10).

(** [can_open_position], run in a module whose global names are
    [globals]. *)
Definition can_open_position_in (globals : list string) (limits : RiskLimits)
    (symbol : string) (amount : Q) : Co bool :=
  positions <- call_store GetAllPositions get_all_positions ;;
  open_positions <- lift (open_only positions) ;;
  if (max_positions limits <=? Z.of_nat (List.length open_positions))%Z then
    log WARNING "Max positions limit reached" ;;; ret false
  else if Qlt_bool (max_position_size limits) amount then
    log WARNING "Position size exceeds limit" ;;; ret false
  else
    daily_pnl <- _calculate_daily_pnl globals ;;
    if Qlt_bool daily_pnl (- max_daily_loss limits) then
      log WARNING "Daily loss limit reached" ;;; ret false
    else
      balance <- call_venue FetchBalance fetch_balance ;;
      free <- lift (getitem balance "free") ;;
      usdt_balance <- lift (getitem free "USDT") ;;
      required_margin <- _calculate_required_margin symbol amount ;;
      if Qlt_bool (usdt_balance * (9 # 10)) required_margin then
        log WARNING "Insufficient balance for position" ;;; ret false
      else ret true.

(** [RiskManager.can_open_position] as the module stands. *)
Definition can_open_position : RiskLimits -> string -> Q -> Co bool :=
  can_open_position_in module_globals.

End Manager.
End RiskManager.

(** ** PositionManager ([src/execution/position_manager.py]) *)

Module PositionManager.
Section Manager.
Context {VS SS : Type} {exchange : ExchangeInterface VS}
        {state_manager : StateManager SS}.
Abbreviation Co := (M VS SS).

(** [self.state_manager.save_position(symbol, position.__dict__)] *)
Definition state_save_position (symbol : string) (position : Position.t)
    : Co unit :=
  call_store (SavePosition symbol position) (save_position symbol position).

(** [self.positions[symbol] = position], and the in-place update of the
    object held there. *)
Definition set_position (symbol : string) (position : Position.t) : Co unit :=
  fun w => (Ok tt, with_positions (dset symbol position (positions w)) w).

Definition open_position (limits : RiskManager.RiskLimits)
    (symbol side : string) (amount entry_price : Q) : Co Position.t :=
  allowed <- RiskManager.can_open_position limits symbol amount ;;
  if negb allowed then raise (mkExn Exception "Risk limit exceeded")
  else
    now <- utcnow ;;
    let position := Position.new symbol side entry_price amount now in
    set_position symbol position ;;;
    state_save_position symbol position ;;;
    log INFO "Position opened" ;;;
    ret position.

(** The assignments of [close_position] on the object. *)
Definition closed (position : Position.t) (exit_price now : Q) : Position.t :=
  let pnl :=
    if String.eqb (Position.side position) "long"
    then (exit_price - Position.entry_price position) * Position.amount position
    else (Position.entry_price position - exit_price) * Position.amount position in
  Position.mk (Position.symbol position) (Position.side position)
    (Position.entry_price position) (Position.amount position)
    (Position.entry_time position) (Some exit_price) (Some now) pnl "closed".

Definition close_position (symbol : string) (exit_price : Q) : Co Position.t :=
  fun w =>
    match dget symbol (positions w) with
    | None => raise (mkExn Exception ("No open position for " ++ symbol)) w
    | Some position =>
        if String.eqb (Position.status position) "closed" then
          raise (mkExn Exception ("No open position for " ++ symbol)) w
        else
          (now <- utcnow ;;
           let position := closed position exit_price now in
           set_position symbol position ;;;
           state_save_position symbol position ;;;
           log INFO "Position closed" ;;;
           ret position) w
    end.

Definition get_open_positions : Co (list Position.t) :=
  fun w =>
    (Ok (filter (fun p => String.eqb (Position.status p) "open")
                (PyDict.values (positions w))), w).

(** The body of the [for ex_pos in exchange_positions] loop. *)
Definition sync_one (ex_pos : dict pyval) : Co unit :=
  symbol <- lift (getitem ex_pos "symbol") ;;
  symbol <- lift (py_str symbol) ;;
  fun w =>
    if PyDict.mem String.eqb symbol (positions w) then (Ok tt, w)
    else
      (contracts <- lift (getitem ex_pos "contracts") ;;
       contracts <- lift (py_float contracts) ;;
       if Qlt_bool 0 contracts then
         log WARNING ("Found untracked position: " ++ symbol) ;;;
         side <- lift (getitem ex_pos "side") ;;
         mark_price <- lift (getitem ex_pos "markPrice") ;;
         entry_price <- lift (py_float mark_price) ;;
         contracts <- lift (getitem ex_pos "contracts") ;;
         amount <- lift (py_float contracts) ;;
         now <- utcnow ;;
         set_position symbol
           (Position.new symbol
              (if pyval_is_str side "long" then "long" else "short")
              entry_price amount now)
       else ret tt) w.

Fixpoint sync_loop (exchange_positions : list (dict pyval)) : Co unit :=
  match exchange_positions with
  | [] => ret tt
  | ex_pos :: rest => sync_one ex_pos ;;; sync_loop rest
  end.

Definition sync_positions : Co unit :=
  try_except
    (exchange_positions <- call_venue FetchPositions fetch_positions ;;
     sync_loop exchange_positions)
    (fun e => log ERROR "Failed to sync positions").

End Manager.
End PositionManager.

(** ** TradingExecutor ([src/execution/executor.py]) *)

Module TradingExecutor.

Record Config : Type := mkConfig {
  min_confidence : Q;
  symbols : list string
}.

Section Executor.
Context {VS SS : Type} {exchange : ExchangeInterface VS}
        {state_manager : StateManager SS}.
Abbreviation Co := (M VS SS).

(** The four handlers [execute_signal] routes to, taken as given
    coroutines returning [Optional] order objects. *)
Record Handlers : Type := mkHandlers {
  _handle_long_entry : TradingSignal -> Co (option ref);
  _handle_long_exit : TradingSignal -> Co (option ref);
  _handle_short_entry : TradingSignal -> Co (option ref);
  _handle_short_exit : TradingSignal -> Co (option ref)
}.

Definition execute_signal (config : Config) (handlers : Handlers)
    (s : TradingSignal) : Co (option ref) :=
  try_except
    (log INFO "Executing signal" ;;;
     if Qlt_bool (confidence s) (min_confidence config) then
       log INFO "Signal confidence too low" ;;; ret None
     else
       match signal s with
       | LONG_ENTRY => _handle_long_entry handlers s
       | LONG_EXIT => _handle_long_exit handlers s
       | SHORT_ENTRY => _handle_short_entry handlers s
       | SHORT_EXIT => _handle_short_exit handlers s
       | NEUTRAL => log WARNING "Unknown signal type" ;;; ret None
       end)
    (fun e => log ERROR "Failed to execute signal" ;;; ret None).

(** The handler a signal kind is routed to; [NEUTRAL] has none. *)
Definition routed (handlers : Handlers) (kind : Signal)
    : option (TradingSignal -> Co (option ref)) :=
  match kind with
  | LONG_ENTRY => Some (_handle_long_entry handlers)
  | LONG_EXIT => Some (_handle_long_exit handlers)
  | SHORT_ENTRY => Some (_handle_short_entry handlers)
  | SHORT_EXIT => Some (_handle_short_exit handlers)
  | NEUTRAL => None
  end.

(** [self._active_orders[order.id] = order], what a handler does with an
    order it placed. *)
Definition track (r : ref) : Co unit :=
  order <- deref r ;;
  fun w =>
    (Ok tt,
     with_executor_orders (dset (Order.id order) r (executor_orders w)) w).

(** [for order_id in ...: await self.order_manager.cancel_order(order_id)] *)
Fixpoint cancel_each (order_ids : list string) : Co unit :=
  match order_ids with
  | [] => ret tt
  | order_id :: rest =>
      OrderManager.cancel_order order_id ;;; cancel_each rest
  end.

(** [_cancel_symbol_orders]: only the orders of [symbol] that are still
    pending. *)
Definition orders_to_cancel (w : World VS SS) (symbol : string) : list string :=
  PyDict.keys
    (filter
       (fun item =>
          match nth_error (heap w) (snd item) with
          | Some order =>
              String.eqb (Order.symbol order) symbol
              && OrderStatus_eqb (Order.status order) PENDING
          | None => false
          end)
       (executor_orders w)).

Definition _cancel_symbol_orders (symbol : string) : Co unit :=
  fun w => cancel_each (orders_to_cancel w symbol) w.

(** [cancel_all_orders]: every key of [_active_orders]. *)
Definition cancel_all_orders : Co unit :=
  fun w => cancel_each (PyDict.keys (executor_orders w)) w.

(** [OrderBookManager.stop_streaming]: cancel every update task, then
    [self._update_tasks.clear()]. *)
Definition stop_streaming : Co unit :=
  fun w =>
    (Ok tt,
     with_update_tasks []
       (with_trace (rev (map CancelTask (update_tasks w)) ++ trace w) w)).

Definition shutdown : Co unit :=
  stop_streaming ;;;
  cancel_all_orders ;;;
  log INFO "Trading executor shut down".





End Executor.
End TradingExecutor.

(** ** The shutdown path of the bot ([src/main.py]) *)

Module TradingBot.
Section Bot.
Context {VS SS : Type} {exchange : ExchangeInterface VS}
        {state_manager : StateManager SS}.
Abbreviation Co := (M VS SS).


End Bot.
End TradingBot.

(** ** Reading a trace *)

Definition is_create_order (e : event) : bool :=
  match e with CreateOrder _ _ _ _ _ => true | _ => false end.

Definition is_cancel_order (e : event) : bool :=
  match e with CancelOrder _ _ => true | _ => false end.

Definition is_fetch_order (e : event) : bool :=
  match e with FetchOrder _ _ => true | _ => false end.

Definition is_create_task (e : event) : bool :=
  match e with CreateTask _ => true | _ => false end.

Definition is_sleep (e : event) : bool :=
  match e with Sleep _ => true | _ => false end.

Definition count (f : event -> bool) (t : list event) : nat :=
  List.length (filter f t).

(** The status of the order object behind a reference. *)
Definition status_at {VS SS : Type} (w : World VS SS) (r : ref)
    : option OrderStatus :=
  option_map Order.status (nth_error (heap w) r).

(** ** Vocabulary of the properties *)

Section Frames.
Context {VS SS : Type}.

Definition same_identity (o o' : Order.t) : Prop :=
  Order.id o' = Order.id o /\
  Order.symbol o' = Order.symbol o /\
  Order.exchange_order_id o' = Order.exchange_order_id o.

(** [w'] comes after [w] by steps that add only events in [allowed] to the
    trace, leave the registries, the positions and the books alone and
    keep every order object with its identity. *)
Record follows (allowed : event -> bool) (w w' : World VS SS) : Prop := mkFollows {
  f_trace : exists new, trace w' = new ++ trace w /\ forallb allowed new = true;
  f_active : active_orders w' = active_orders w;
  f_tracked : executor_orders w' = executor_orders w;
  f_positions : positions w' = positions w;
  f_books : order_books w' = order_books w;
  f_tasks : update_tasks w' = update_tasks w;
  f_heap : forall r o, nth_error (heap w) r = Some o ->
           exists o', nth_error (heap w') r = Some o' /\ same_identity o o'
}.

(** Every run of [c] is such a step. *)
Definition keeps (allowed : event -> bool) {A : Type} (c : M VS SS A) : Prop :=
  forall w, follows allowed w (snd (c w)).

(** Every local position is still there, unchanged. *)
Definition keeps_local (w w' : World VS SS) : Prop :=
  forall s p, dget s (positions w) = Some p -> dget s (positions w') = Some p.

End Frames.


Definition no_cancel (e : event) : bool := negb (is_cancel_order e).






(** A venue record with the keys [sync_positions] reads. *)
Definition has_fields (ex_pos : dict pyval) (sym : string) (side : pyval)
    (contracts mark_price : Q) : Prop :=
  dget "symbol" ex_pos = Some (PStr sym) /\
  dget "side" ex_pos = Some side /\
  dget "contracts" ex_pos = Some (PNum contracts) /\
  dget "markPrice" ex_pos = Some (PNum mark_price).

(** ** Sample collaborators and worlds for the concrete runs *)

Import Scripted.

Definition three_sources : SignalAggregator.t unit :=
  SignalAggregator.mk (6 # 10) [tt; tt; tt].

Definition one_source : SignalAggregator.t unit :=
  SignalAggregator.mk (6 # 10) [tt].

Definition sample_signals : list TradingSignal :=
  [ mkSignal LONG_ENTRY "X" 100 (8 # 10) 0 (Meta []);
    mkSignal LONG_ENTRY "Y" 50 (9 # 10) 0 (Meta []);
    mkSignal LONG_ENTRY "X" 102 (6 # 10) 0 (Meta []) ].


(** A function that fails at every call. *)
Definition always_fails : M nat unit nat :=
  fun w => (Raise (mkExn TimeoutError "timed out"), with_venue (S (venue w)) w).

Definition bare_world : World nat unit :=
  mkWorld 0%nat tt 0 (fun _ => "") 0 (fun _ => 1 # 2) 0 [] [] [] [] [] []
    [].

Definition long_world : World venue_script store_script :=
  with_positions [("ETH", Position.new "ETH" "long" 100 2 0)]
    (Scripted.world Scripted.quiet_venue Scripted.quiet_store).

Definition short_world : World venue_script store_script :=
  with_positions [("ETH", Position.new "ETH" "short" 100 2 0)]
    (Scripted.world Scripted.quiet_venue Scripted.quiet_store).

(** Handlers for a concrete run: entries place an order, the long exit
    fails, the short exit finds nothing to do. *)
Definition sample_handlers : TradingExecutor.Handlers :=
  TradingExecutor.mkHandlers
    (fun s => OrderManager.place_order (symbol s) "buy" "limit" 1 (Some (price s)))
    (fun s => raise (mkExn AttributeError
                 "'PositionManager' object has no attribute 'get_position'"))
    (fun s => OrderManager.place_order (symbol s) "sell" "limit" 1 (Some (price s)))
    (fun s => ret None).

Definition sample_config : TradingExecutor.Config :=
  TradingExecutor.mkConfig (7 # 10) ["ETH"].

Definition sample_signal (kind : Signal) (conf : Q) : TradingSignal :=
  mkSignal kind "ETH" 2500 conf 0 (Meta []).

Definition sample_run (kind : Signal) (conf : Q) : result (option ref) :=
  fst (TradingExecutor.execute_signal sample_config sample_handlers
         (sample_signal kind conf) (Scripted.world quiet_venue quiet_store)).

(** A venue that rejects every order for lack of funds, with the text
    [BinanceExchange.create_order] raises. *)
Definition insufficient_balance : exn :=
  mkExn InsufficientBalanceError
        "Insufficient balance. Required: 250, Available: 10".

Definition rejecting_venue : venue_script :=
  mkVenue (fun _ => Raise insufficient_balance) 0
          (fun _ => Ok true) 0
          (fun _ => Ok [("status", PStr "open")]) 0
          (Ok []) (Ok [("free", [("USDT", 10)])]) (Ok [("last", 2500)]).

(** A venue on which the order is filled at the first poll. *)
Definition filling_venue : venue_script :=
  mkVenue (fun _ => Ok [("id", PStr "V1")]) 0
          (fun _ => Ok true) 0
          (fun _ => Ok [("status", PStr "closed"); ("filled", PNum 1);
                        ("average", PNum 2500)]) 0
          (Ok []) (Ok [("free", [("USDT", 10000)])]) (Ok [("last", 2500)]).

(** An entry order is placed, tracked by the executor and monitored. *)
Definition placed_and_monitored (v : venue_script) (s : store_script)
  : World venue_script store_script :=
  snd ((r <- OrderManager.place_order "ETH/USDT:USDT" "buy" "limit" 1 (Some 2500) ;;
        match r with
        | Some order =>
            TradingExecutor.track order ;;;
            OrderManager._monitor_order order
        | None => ret tt
        end) (Scripted.world v s)).

(** A store whose first write succeeds and whose later writes fail. *)
Definition failing_store : store_script :=
  mkStore (fun n => if (n =? 0)%nat then Ok tt
                    else Raise (mkExn ConnectionError "Error connecting to Redis"))
          0 (Ok tt) (Ok []) (Ok []).

Definition sample_limits : RiskManager.RiskLimits :=
  RiskManager.mkLimits 1 5 100 (1 # 2) (1 # 10).

(** An open position as [BinanceExchange.fetch_positions] and
    [MockExchange] report it. *)
Definition venue_position : dict pyval :=
  [("symbol", PStr "ETH/USDT:USDT"); ("side", PStr "long");
   ("contracts", PNum 1); ("entry_price", PNum 2400);
   ("mark_price", PNum 2500); ("unrealized_pnl", PNum 100);
   ("margin", PNum 240)].

Definition reporting_venue (p : dict pyval) : venue_script :=
  mkVenue (fun _ => Ok [("id", PStr "V1")]) 0
          (fun _ => Ok true) 0
          (fun _ => Ok [("status", PStr "open")]) 0
          (Ok [p]) (Ok [("free", [("USDT", 10000)])]) (Ok [("last", 2500)]).

(** An executor with one tracked pending order, one order book stream
    and one open long position. *)
Definition tracked_world : World venue_script store_script :=
  snd ((r <- OrderManager.place_order "ETH/USDT:USDT" "buy" "limit" 1 (Some 2400) ;;
        match r with
        | Some order => TradingExecutor.track order
        | None => ret tt
        end) (Scripted.world quiet_venue quiet_store)).

Definition open_long : Position.t :=
  Position.new "ETH/USDT:USDT" "long" 2400 1 0.

Definition shutdown_world : World venue_script store_script :=
  with_update_tasks ["ETH/USDT:USDT"]
    (with_positions [("ETH/USDT:USDT", open_long)] tracked_world).


Definition pending_entry : Order.t :=
  Order.mk "a" "ETH/USDT:USDT" "buy" "limit" 1 (Some 2400) PENDING
           (PStr "V1") (PNum 0) (PNum 0).

Definition book_world : World venue_script store_script :=
  with_order_books
    [("ETH/USDT:USDT",
      mkBook "ETH/USDT:USDT" [mkLevel 2499 1; mkLevel 2498 2]
             [mkLevel 2501 1; mkLevel 2502 2] 0)]
    shutdown_world.

(** * The rest of the execution core

    The functions next to the ones above: the order-book queries the
    executor prices its orders with, the other retry strategies, the
    sizing rule of the risk manager, the signal handlers, the signal
    filters and history, the spread strategy, the mock exchange and the
    books fetched from it, the alert manager and the health monitor. The
    conventions are the ones of the first part. *)

(** [x / y] on floats: a zero divisor raises. *)
Definition py_div (x y : Q) : result Q :=
  if Qeq_bool y 0 then Raise (mkExn ZeroDivisionError "float division by zero")
  else Ok (x / y).

(** [l[i]] for an index that is not negative *)
Definition py_index {A : Type} (l : list A) (i : nat) : result A :=
  match nth_error l i with
  | Some a => Ok a
  | None => Raise (mkExn IndexError "list index out of range")
  end.

(** [d[k]] for a key [k] of a dictionary held as a record: [v] is what
    the dictionary has under it, if anything. *)
Definition item {A : Type} (k : string) (v : option A) : result A :=
  match v with
  | Some a => Ok a
  | None => Raise (mkExn KeyError k)
  end.

(** ** Order books ([src/data/order_book.py]) *)

Module OrderBookMethods.

(** [self.bids[0] if self.bids else None] *)
Definition get_best_bid (self : OrderBook) : option OrderBookLevel :=
  match bids self with
  | [] => None
  | best :: _ => Some best
  end.

Definition get_best_ask (self : OrderBook) : option OrderBookLevel :=
  match asks self with
  | [] => None
  | best :: _ => Some best
  end.

Definition get_mid_price (self : OrderBook) : option Q :=
  match get_best_bid self, get_best_ask self with
  | Some best_bid, Some best_ask =>
      Some ((level_price best_bid + level_price best_ask) / 2)
  | _, _ => None
  end.

Definition get_spread (self : OrderBook) : option Q :=
  match get_best_bid self, get_best_ask self with
  | Some best_bid, Some best_ask =>
      Some (level_price best_ask - level_price best_bid)
  | _, _ => None
  end.

End OrderBookMethods.

Module OrderBookManager.

(** [order_book.asks if side == 'buy' else order_book.bids] *)
Definition levels_for (side : string) (order_book : OrderBook)
    : list OrderBookLevel :=
  if String.eqb side "buy" then asks order_book else bids order_book.

(** The [for level in levels] loop of [get_execution_price]; the value is
    [(total_cost, remaining_amount)] when the loop is left. *)
Fixpoint fill_levels (levels : list OrderBookLevel)
    (remaining_amount total_cost : Q) : Q * Q :=
  match levels with
  | [] => (total_cost, remaining_amount)
  | level :: rest =>
      if Qle_bool remaining_amount 0 then (total_cost, remaining_amount)
      else
        let fill_amount := Qmin remaining_amount (quantity level) in
        fill_levels rest (remaining_amount - fill_amount)
          (total_cost + fill_amount * level_price level)
  end.

(** [get_execution_price], on the cache [self._order_books]. *)
Definition get_execution_price (_order_books : dict OrderBook)
    (symbol side : string) (amount : Q) : result (option Q) :=
  match dget symbol _order_books with
  | None => Ok None
  | Some order_book =>
      let levels := levels_for side order_book in
      let '(total_cost, remaining_amount) := fill_levels levels amount 0 in
      if Qlt_bool 0 remaining_amount then Ok None
      else
        match py_div total_cost amount with
        | Ok execution_price => Ok (Some execution_price)
        | Raise e => Raise e
        end
  end.

Section Manager.
Context {VS SS : Type}.
Abbreviation Co := (M VS SS).

(** [get_order_book] *)
Definition get_order_book (symbol : string) : Co (option OrderBook) :=
  fun w => (Ok (dget symbol (order_books w)), w).

(** One turn of the loop of [start_streaming]: a task is created for a
    symbol that has none. *)
Definition start_one (symbol : string) : Co unit :=
  fun w =>
    if existsb (String.eqb symbol) (update_tasks w) then (Ok tt, w)
    else
      (Ok tt,
       with_update_tasks (update_tasks w ++ [symbol])
         (with_trace (CreateTask symbol :: trace w) w)).

Fixpoint start_streaming (symbols : list string) : Co unit :=
  match symbols with
  | [] => ret tt
  | symbol :: rest => start_one symbol ;;; start_streaming rest
  end.

End Manager.
End OrderBookManager.

(** ** The other retry strategies ([src/utils/retry.py]) *)

(** [RetryStrategies.connection_retry] *)
Definition connection_retry : retry_policy :=
  mkPolicy 10 2 2 60 [ConnectionError; OSError] None.

(** ** Sizing ([src/strategy/risk_manager.py]) *)

Module RiskSizing.
Section Manager.
Context {VS SS : Type} {exchange : ExchangeInterface VS}
        {state_manager : StateManager SS}.
Abbreviation Co := (M VS SS).

(** [RiskManager.calculate_position_size] *)
Definition calculate_position_size (limits : RiskManager.RiskLimits)
    (symbol : string) : Co Q :=
  balance <- call_venue FetchBalance fetch_balance ;;
  free <- lift (getitem balance "free") ;;
  usdt_balance <- lift (getitem free "USDT") ;;
  let position_value := usdt_balance * RiskManager.position_size_pct limits in
  ticker <- call_venue (FetchTicker symbol) (fetch_ticker symbol) ;;
  current_price <- lift (getitem ticker "last") ;;
  position_size <- lift (py_div position_value current_price) ;;
  ret (Qmin position_size (RiskManager.max_position_size limits)).

End Manager.
End RiskSizing.

(** ** The signal handlers of the executor ([src/execution/executor.py]) *)

Module SignalHandlers.

(** An entry of [TradingExecutor._position_targets]. *)
Record PositionTarget : Type := mkTarget {
  target_side : string;
  target_size : Q;
  entry_order_id : string
}.

(** The attributes of a [PositionManager] object: the ones [__init__]
    sets and the methods of the class
    ([src/execution/position_manager.py]). *)
Definition position_manager_attributes : list string :=
  ["exchange"; "state_manager"; "risk_manager"; "logger"; "positions";
   "open_position"; "close_position"; "get_open_positions"; "sync_positions"].

(** [levels[index].price if len(levels) > index else fallback] *)
Definition level_or (levels : list OrderBookLevel) (index : nat)
    (fallback : Q) : Q :=
  match nth_error levels index with
  | Some level => level_price level
  | None => fallback
  end.

Section Handlers.
Context {VS SS : Type} {exchange : ExchangeInterface VS}
        {state_manager : StateManager SS}.
Abbreviation Co := (M VS SS).

(** The handlers call [self.position_manager.get_position], which
    [PositionManager] does not define; they are modelled for an object
    with the attributes [attributes], whose [get_position], if it has
    one, is the coroutine [get_position]. *)
Variable attributes : list string.
Variable get_position : string -> Co (option Position.t).
Variable limits : RiskManager.RiskLimits.

(** [await self.position_manager.get_position(symbol)] *)
Definition position_manager_get_position (symbol : string)
    : Co (option Position.t) :=
  if existsb (String.eqb "get_position") attributes then get_position symbol
  else raise (mkExn AttributeError
                "'PositionManager' object has no attribute 'get_position'").

(** The price taken from the cached book: the level [index] of one side
    when the book has it, the price of the signal otherwise. *)
Definition book_price (side : OrderBook -> list OrderBookLevel) (index : nat)
    (s : TradingSignal) : Co Q :=
  order_book <- OrderBookManager.get_order_book (symbol s) ;;
  match order_book with
  | Some order_book => ret (level_or (side order_book) index (price s))
  | None => ret (price s)
  end.

(** [position and position.status == 'open'] *)
Definition has_open (position : option Position.t) : bool :=
  match position with
  | Some position => String.eqb (Position.status position) "open"
  | None => false
  end.

(** The tail of an entry handler, after [place_order]:
    [if order and order.status != OrderStatus.FAILED] the order is
    tracked and the target recorded. *)
Definition record_entry (s : TradingSignal) (side : string) (position_size : Q)
    (order : option ref) (_position_targets : dict PositionTarget)
    : Co (option ref * dict PositionTarget) :=
  match order with
  | None => ret (None, _position_targets)
  | Some r =>
      o <- deref r ;;
      if negb (OrderStatus_eqb (Order.status o) FAILED) then
        TradingExecutor.track r ;;;
        ret (Some r,
             dset (symbol s) (mkTarget side position_size (Order.id o))
               _position_targets)
      else ret (Some r, _position_targets)
  end.

(** The tail of an exit handler. *)
Definition record_exit (order : option ref) : Co (option ref) :=
  match order with
  | None => ret None
  | Some r =>
      o <- deref r ;;
      if negb (OrderStatus_eqb (Order.status o) FAILED) then
        TradingExecutor.track r ;;; ret (Some r)
      else ret (Some r)
  end.

Definition _handle_long_entry (s : TradingSignal)
    (_position_targets : dict PositionTarget)
    : Co (option ref * dict PositionTarget) :=
  position <- position_manager_get_position (symbol s) ;;
  if has_open position then
    log INFO "Already have open position" ;;; ret (None, _position_targets)
  else
    position_size <- RiskSizing.calculate_position_size limits (symbol s) ;;
    allowed <- RiskManager.can_open_position limits (symbol s) position_size ;;
    if negb allowed then
      log WARNING "Risk limits prevent opening position" ;;;
      ret (None, _position_targets)
    else
      entry_price <- book_price bids 1 s ;;
      order <- OrderManager.place_order (symbol s) "buy" "limit" position_size
                 (Some entry_price) ;;
      record_entry s "long" position_size order _position_targets.

Definition _handle_long_exit (s : TradingSignal) : Co (option ref) :=
  position <- position_manager_get_position (symbol s) ;;
  match position with
  | Some position =>
      if String.eqb (Position.status position) "open"
         && String.eqb (Position.side position) "long"
      then
        TradingExecutor._cancel_symbol_orders (symbol s) ;;;
        exit_price <- book_price asks 2 s ;;
        order <- OrderManager.place_order (symbol s) "sell" "limit"
                   (Position.amount position) (Some exit_price) ;;
        record_exit order
      else log WARNING "No long position to exit" ;;; ret None
  | None => log WARNING "No long position to exit" ;;; ret None
  end.

Definition _handle_short_entry (s : TradingSignal)
    (_position_targets : dict PositionTarget)
    : Co (option ref * dict PositionTarget) :=
  position <- position_manager_get_position (symbol s) ;;
  if has_open position then
    log INFO "Already have open position" ;;; ret (None, _position_targets)
  else
    position_size <- RiskSizing.calculate_position_size limits (symbol s) ;;
    allowed <- RiskManager.can_open_position limits (symbol s) position_size ;;
    if negb allowed then
      log WARNING "Risk limits prevent opening position" ;;;
      ret (None, _position_targets)
    else
      entry_price <- book_price asks 1 s ;;
      order <- OrderManager.place_order (symbol s) "sell" "limit" position_size
                 (Some entry_price) ;;
      record_entry s "short" position_size order _position_targets.

Definition _handle_short_exit (s : TradingSignal) : Co (option ref) :=
  position <- position_manager_get_position (symbol s) ;;
  match position with
  | Some position =>
      if String.eqb (Position.status position) "open"
         && String.eqb (Position.side position) "short"
      then
        TradingExecutor._cancel_symbol_orders (symbol s) ;;;
        exit_price <- book_price bids 2 s ;;
        order <- OrderManager.place_order (symbol s) "buy" "limit"
                   (Position.amount position) (Some exit_price) ;;
        record_exit order
      else log WARNING "No short position to exit" ;;; ret None
  | None => log WARNING "No short position to exit" ;;; ret None
  end.

(** The handlers as [execute_signal] sees them: the order each returns. *)
Definition handlers (_position_targets : dict PositionTarget)
    : TradingExecutor.Handlers :=
  TradingExecutor.mkHandlers
    (fun s => out <- _handle_long_entry s _position_targets ;; ret (fst out))
    _handle_long_exit
    (fun s => out <- _handle_short_entry s _position_targets ;; ret (fst out))
    _handle_short_exit.

End Handlers.

Section Lifecycle.
Context {VS SS : Type} {exchange : ExchangeInterface VS}
        {state_manager : StateManager SS}.
Abbreviation Co := (M VS SS).

(** [TradingExecutor.initialize] *)
Definition initialize (config : TradingExecutor.Config) : Co unit :=
  PositionManager.sync_positions ;;;
  OrderBookManager.start_streaming (TradingExecutor.symbols config) ;;;
  log INFO "Trading executor initialized".

(** [TradingExecutor.get_orders] *)
Definition get_orders : Co (list ref) :=
  fun w => (Ok (PyDict.values (executor_orders w)), w).

End Lifecycle.
End SignalHandlers.

(** ** Signal filters and history ([src/strategy/signals.py]) *)

Module SignalPipeline.
Import SignalAggregator.

(** [SignalFilter]. The condition of [CommonFilters.no_recent_signal] is
    a closure over a dictionary that it updates, so a filter carries the
    cell of its closure next to its code; [call] runs the condition and
    gives the filter with the cell as the call left it. The text of
    [description] is not rendered. *)
Record SignalFilter : Type := mkFilter {
  name : string;
  closure : Type;
  cell : closure;
  condition : TradingSignal -> closure -> bool * closure
}.

Definition call (f : SignalFilter) (s : TradingSignal) : bool * SignalFilter :=
  let (passed, c) := condition f s (cell f) in
  (passed, mkFilter (name f) c (condition f)).

(** [CommonFilters.min_confidence] *)
Definition min_confidence (threshold : Q) : SignalFilter :=
  mkFilter "min_confidence" tt
    (fun s c => (Qle_bool threshold (confidence s), c)).

(** The test of [CommonFilters.time_window] on the hour of the signal. *)
Definition in_window (start_hour end_hour hour : Z) : bool :=
  if (start_hour <=? end_hour)%Z
  then (start_hour <=? hour)%Z && (hour <? end_hour)%Z
  else (start_hour <=? hour)%Z || (hour <? end_hour)%Z.

(** [CommonFilters.time_window]; [local_hour t] is
    [datetime.fromtimestamp(t).hour], which depends on the time zone of
    the process. *)
Definition time_window (local_hour : Q -> Z) (start_hour end_hour : Z)
    : SignalFilter :=
  mkFilter "time_window" tt
    (fun s c => (in_window start_hour end_hour (local_hour (timestamp s)), c)).

(** [CommonFilters.no_recent_signal], with [recent_signals] as found. *)
Definition no_recent_signal_from (minutes : Q)
    (recent_signals : PyDict.dict key Q) : SignalFilter :=
  mkFilter "no_recent_signal" recent_signals
    (fun s recent_signals =>
       let k := key_of s in
       let current_time := timestamp s in
       match PyDict.get key_eqb k recent_signals with
       | Some last_time =>
           if Qlt_bool (current_time - last_time) (minutes * 60)
           then (false, recent_signals)
           else (true, PyDict.set key_eqb k current_time recent_signals)
       | None => (true, PyDict.set key_eqb k current_time recent_signals)
       end).

Definition no_recent_signal (minutes : Q) : SignalFilter :=
  no_recent_signal_from minutes [].

(** The inner loop of [_filter_signals]: the filters in order, up to the
    first whose condition fails. The value is the name of that filter, if
    any, and the filters after the calls. *)
Fixpoint apply_filters (filters : list SignalFilter) (s : TradingSignal)
    : option string * list SignalFilter :=
  match filters with
  | [] => (None, [])
  | f :: rest =>
      let (passed, f) := call f s in
      if passed then
        let (rejected_by, rest) := apply_filters rest s in
        (rejected_by, f :: rest)
      else (Some (name f), f :: rest)
  end.

(** [SignalHistory] *)
Definition Signal_value (s : Signal) : string :=
  match s with
  | LONG_ENTRY => "long_entry"
  | LONG_EXIT => "long_exit"
  | SHORT_ENTRY => "short_entry"
  | SHORT_EXIT => "short_exit"
  | NEUTRAL => "neutral"
  end.

Record SignalRecord : Type := mkRecord {
  record_signal : TradingSignal;
  record_timestamp : Q;
  executed : bool;
  profitable : option bool
}.

Record Stats : Type := mkStats {
  total_signals : nat;
  signals_by_type : dict nat;
  signals_by_symbol : dict nat;
  average_confidence : Q;
  win_rate : Q
}.

Record SignalHistory : Type := mkHistory {
  maxlen : nat;
  signals : list SignalRecord;
  stats : Stats
}.

(** [SignalHistory(max_history)] *)
Definition new_history (max_history : nat) : SignalHistory :=
  mkHistory max_history [] (mkStats 0 [] [] 0 0).

(** [deque.append] on a deque bounded by [maxlen]: the oldest items make
    room. *)
Definition deque_append {A : Type} (maxlen : nat) (d : list A) (x : A)
    : list A :=
  skipn (List.length d + 1 - maxlen) (d ++ [x]).

(** [d[k] = d.get(k, 0) + 1] *)
Definition bump (k : string) (d : dict nat) : dict nat :=
  dset k (match dget k d with Some n => n | None => 0%nat end + 1)%nat d.

(** The locals of [_update_stats]. *)
Record tally : Type := mkTally {
  by_type : dict nat;
  by_symbol : dict nat;
  total_confidence : Q;
  executed_count : nat;
  profitable_count : nat
}.

(** One turn of its loop. *)
Definition tally_record (t : tally) (record : SignalRecord) : tally :=
  let s := record_signal record in
  mkTally (bump (Signal_value (signal s)) (by_type t))
          (bump (symbol s) (by_symbol t))
          (total_confidence t + confidence s)
          (if executed record then S (executed_count t) else executed_count t)
          (if executed record then
             match profitable record with
             | Some true => S (profitable_count t)
             | _ => profitable_count t
             end
           else profitable_count t).

Definition Qnat (n : nat) : Q := inject_Z (Z.of_nat n).

Definition _update_stats (self : SignalHistory) : SignalHistory :=
  match signals self with
  | [] => self
  | _ :: _ =>
      let t := fold_left tally_record (signals self) (mkTally [] [] 0 0 0) in
      mkHistory (maxlen self) (signals self)
        (mkStats (List.length (signals self)) (by_type t) (by_symbol t)
           (total_confidence t / Qlen (signals self))
           (if (0 <? executed_count t)%nat
            then Qnat (profitable_count t) / Qnat (executed_count t)
            else win_rate (stats self)))
  end.

(** [get_signal_frequency] *)
Definition get_signal_frequency (self : SignalHistory) (symbol_ : string)
    (signal_type : Signal) : Q :=
  match signals self with
  | [] => 0
  | oldest :: _ =>
      let newest := last (signals self) oldest in
      let hours := (record_timestamp newest - record_timestamp oldest) / 3600 in
      if Qeq_bool hours 0 then 0
      else
        Qlen (filter (fun record =>
                        String.eqb (symbol (record_signal record)) symbol_
                        && Signal_eqb (signal (record_signal record)) signal_type)
                     (signals self))
        / hours
  end.

Section Pipeline.
Context {VS SS : Type}.
Abbreviation Co := (M VS SS).

(** [_filter_signals]: the signals that pass every filter, in order, and
    the filters after the run. *)
Fixpoint _filter_signals (filters : list SignalFilter)
    (signals : list TradingSignal)
    : Co (list TradingSignal * list SignalFilter) :=
  match signals with
  | [] => ret ([], filters)
  | s :: rest =>
      let (rejected_by, filters) := apply_filters filters s in
      match rejected_by with
      | Some _ =>
          log DEBUG "Signal filtered" ;;; _filter_signals filters rest
      | None =>
          out <- _filter_signals filters rest ;;
          ret (s :: fst out, snd out)
      end
  end.

(** [SignalHistory.add_signal] *)
Definition add_signal (self : SignalHistory) (s : TradingSignal)
    (executed : bool) (profitable : option bool) : Co SignalHistory :=
  now <- utcnow ;;
  ret (_update_stats
         (mkHistory (maxlen self)
            (deque_append (maxlen self) (signals self)
               (mkRecord s now executed profitable))
            (stats self))).

(** [SignalHistory.get_recent_signals] *)
Definition get_recent_signals (self : SignalHistory) (minutes : Q)
    : Co (list SignalRecord) :=
  now <- utcnow ;;
  let cutoff_time := now - minutes * 60 in
  ret (filter (fun record => Qlt_bool cutoff_time (record_timestamp record))
              (signals self)).

(** The aggregator with its filters and its history; a strategy is a
    collaborator that answers [calculate_signals]. *)
Variables Strategy MarketData : Type.
Variable calculate_signals : Strategy -> MarketData -> Co (list TradingSignal).

Record Aggregator : Type := mkAggregator {
  core : SignalAggregator.t Strategy;
  filters : list SignalFilter;
  history : SignalHistory
}.

(** [SignalAggregator.add_filter] *)
Definition add_filter (self : Aggregator) (f : SignalFilter) : Aggregator :=
  mkAggregator (core self) (filters self ++ [f]) (history self).

(** The first loop of [get_signals]: a strategy that raises is logged and
    skipped. *)
Fixpoint collect_signals (strategies : list Strategy) (market_data : MarketData)
    : Co (list TradingSignal) :=
  match strategies with
  | [] => ret []
  | strategy :: rest =>
      signals <- try_except (calculate_signals strategy market_data)
                   (fun e => log ERROR "Error getting signals" ;;; ret []) ;;
      more <- collect_signals rest market_data ;;
      ret (signals ++ more)
  end.

(** Its last loop: [self.history.add_signal(signal)] for each. *)
Fixpoint record_signals (history : SignalHistory)
    (aggregated : list TradingSignal) : Co SignalHistory :=
  match aggregated with
  | [] => ret history
  | s :: rest =>
      history <- add_signal history s false None ;;
      record_signals history rest
  end.

Definition get_signals (self : Aggregator) (market_data : MarketData)
    : Co (list TradingSignal * Aggregator) :=
  all_signals <- collect_signals (strategies (core self)) market_data ;;
  filtered <- _filter_signals (filters self) all_signals ;;
  now <- utcnow ;;
  aggregated <- lift (_aggregate_signals (core self) now (fst filtered)) ;;
  history <- record_signals (history self) aggregated ;;
  ret (aggregated, mkAggregator (core self) (snd filtered) history).

End Pipeline.
End SignalPipeline.

(** ** The spread strategy ([src/strategy/spread_strategy.py]) *)

Module SpreadTradingStrategy.

(** The attributes of a [SpreadTradingStrategy] object: the ones the two
    [__init__] set, the methods of the class and the ones of [Strategy]
    ([src/strategy/base.py]). *)
Definition instance_attributes : list string :=
  ["config"; "prev_pct_diff"; "position_state"; "calculate_signals";
   "_calculate_spread_percentage"; "validate_signal"].

(** [market_data]: the two series under their symbols, each a dictionary
    with its closes, the book with its sides as lists of [[price, size]],
    and the timestamp; a key may be missing. *)
Record MarketData : Type := mkMarketData {
  klines : dict (dict (list Q));
  order_book : option (dict (list (list Q)));
  data_timestamp : option Q
}.

Record t : Type := mk {
  prev_pct_diff : option Q;
  position_state : option string
}.

(** What [__init__] sets on the object. *)
Definition __init__ : t := mk (Some 0) None.

(** [SpreadTradingStrategy(config)]: the class does not define
    [validate_signal], which [Strategy] declares abstract, so the call
    raises before [__init__] is run. *)
Definition init : result t :=
  Raise (mkExn TypeError
           "Can't instantiate abstract class SpreadTradingStrategy with abstract method validate_signal").

(** [((close[-1] - close[-2]) / close[-2]) * 100] *)
Definition pct_change (close : list Q) : result Q :=
  match py_index (rev close) 0 with
  | Raise e => Raise e
  | Ok last =>
      match py_index (rev close) 1 with
      | Raise e => Raise e
      | Ok before =>
          match py_div (last - before) before with
          | Raise e => Raise e
          | Ok change => Ok (change * 100)
          end
      end
  end.

(** A comparison of a value that may be [None] with a float. *)
Definition compare (test : Q -> bool) (x : option Q) : result bool :=
  match x with
  | Some x => Ok (test x)
  | None =>
      Raise (mkExn TypeError
               "not supported between instances of 'NoneType' and 'float'")
  end.

(** The signal of either branch. *)
Definition spread_signal (kind : Signal) (price timestamp : Q)
    (pct_diff : option Q) : TradingSignal :=
  mkSignal kind "ETH/USDT:USDT-240927" price (8 # 10) timestamp
    (Meta [("spread_pct",
            match pct_diff with Some x => PNum x | None => PNone end)]).

Section Strategy.
Context {VS SS : Type}.
Abbreviation Co := (M VS SS).

(** The attributes of the object, and what [_has_long_position] answers
    on an object that has it. *)
Variable attributes : list string.
Variable _has_long_position : t -> Co bool.

(** [self._has_long_position()] *)
Definition self_has_long_position (self : t) : Co bool :=
  if existsb (String.eqb "_has_long_position") attributes
  then _has_long_position self
  else raise (mkExn AttributeError "_has_long_position").

Definition _calculate_spread_percentage (perp_data futures_data : dict (list Q))
    : Co (option Q) :=
  perp_close <- lift (getitem perp_data "close") ;;
  if (1 <? List.length perp_close)%nat then
    futures_close <- lift (getitem futures_data "close") ;;
    if (1 <? List.length futures_close)%nat then
      pct_change1 <- lift (pct_change perp_close) ;;
      pct_change2 <- lift (pct_change futures_close) ;;
      ret (Some (pct_change2 - pct_change1))
    else ret None
  else ret None.

(** [market_data['order_book'][side][i][0]] *)
Definition book_price_at (market_data : MarketData) (side : string) (i : nat)
    : Co Q :=
  book <- lift (item "order_book" (order_book market_data)) ;;
  levels <- lift (getitem book side) ;;
  level <- lift (py_index levels i) ;;
  lift (py_index level 0).

(** [calculate_signals]; the value is the list of signals and the object
    with [prev_pct_diff] as the call leaves it. *)
Definition calculate_signals (self : t) (market_data : MarketData)
    : Co (list TradingSignal * t) :=
  perp_data <- lift (getitem (klines market_data) "ETHUSDT") ;;
  futures_data <- lift (getitem (klines market_data) "ETHUSDT_240927") ;;
  pct_diff <- _calculate_spread_percentage perp_data futures_data ;;
  entry <-
    (was_low <- lift (compare (fun x => Qle_bool x (- (1 # 10)))
                        (prev_pct_diff self)) ;;
     if was_low then
       is_low <- lift (compare (fun x => Qle_bool x (- (6 # 100))) pct_diff) ;;
       if is_low then
         held <- self_has_long_position self ;;
         ret (negb held)
       else ret false
     else ret false) ;;
  signals <-
    (if entry then
       price <- book_price_at market_data "bids" 1 ;;
       timestamp <- lift (item "timestamp" (data_timestamp market_data)) ;;
       ret [spread_signal LONG_ENTRY price timestamp pct_diff]
     else
       leave <-
         (is_high <- lift (compare (fun x => Qle_bool (4 # 100) x) pct_diff) ;;
          if is_high then self_has_long_position self else ret false) ;;
       if leave then
         price <- book_price_at market_data "asks" 3 ;;
         timestamp <- lift (item "timestamp" (data_timestamp market_data)) ;;
         ret [spread_signal LONG_EXIT price timestamp pct_diff]
       else ret []) ;;
  ret (signals, mk pct_diff (position_state self)).

End Strategy.
End SpreadTradingStrategy.

(** ** The mock exchange ([src/exchanges/mock.py])

    The object is the venue of the world: its methods read and write it
    there, and take their identifiers, random draws and time from the
    world like the rest of the code. An order and a position are records
    of the keys of their dictionaries; [o_average] is absent until the
    order is filled. *)

Module MockExchange.

Record MockOrder : Type := mkOrder {
  o_id : string;
  o_symbol : string;
  o_type : string;
  o_side : string;
  o_amount : Q;
  o_price : Q;
  o_status : string;
  o_filled : Q;
  o_remaining : Q;
  o_timestamp : Z;
  o_average : option Q
}.

Record MockPosition : Type := mkPosition {
  p_symbol : string;
  p_side : string;
  p_contracts : Q;
  p_entry_price : Q;
  p_mark_price : Q;
  p_unrealized_pnl : Q;
  p_margin : Q
}.

Record t : Type := mk {
  _connected : bool;
  _balance : dict (dict Q);
  _positions : dict MockPosition;
  _orders : dict MockOrder;
  _last_prices : dict Q
}.

(** [MockExchange(config)] *)
Definition init : t :=
  mk false [("USDT", [("free", 10000); ("used", 0); ("total", 10000)])] [] []
     [("ETH/USDT:USDT", 2500); ("ETH/USDT:USDT-240927", 2505)].

Definition with_connected (x : bool) (s : t) : t :=
  mk x (_balance s) (_positions s) (_orders s) (_last_prices s).

Definition with_positions (x : dict MockPosition) (s : t) : t :=
  mk (_connected s) (_balance s) x (_orders s) (_last_prices s).

Definition with_orders (x : dict MockOrder) (s : t) : t :=
  mk (_connected s) (_balance s) (_positions s) x (_last_prices s).

Definition with_last_prices (x : dict Q) (s : t) : t :=
  mk (_connected s) (_balance s) (_positions s) (_orders s) x.

(** [del d[k]] for a key that is there. *)
Definition ddel {V : Type} (k : string) (d : dict V) : dict V :=
  filter (fun item => negb (String.eqb k (fst item))) d.

(** [int(x)]: towards zero. *)
Definition py_int (x : Q) : Z := Z.quot (Qnum x) (Zpos (Qden x)).

(** [self._last_prices.get(symbol, 2500.0)] *)
Definition last_price (symbol : string) (s : t) : Q :=
  match dget symbol (_last_prices s) with
  | Some price => price
  | None => 2500
  end.

(** [price or self._last_prices.get(symbol, 2500.0)] *)
Definition price_or_last (price : option Q) (symbol : string) (s : t) : Q :=
  match price with
  | Some p => if Qeq_bool p 0 then last_price symbol s else p
  | None => last_price symbol s
  end.

(** The four assignments of [_simulate_order_fill] on the order. *)
Definition fill (order : MockOrder) : MockOrder :=
  mkOrder (o_id order) (o_symbol order) (o_type order) (o_side order)
    (o_amount order) (o_price order) "closed" (o_amount order) 0
    (o_timestamp order) (Some (o_price order)).

Definition with_status (x : string) (order : MockOrder) : MockOrder :=
  mkOrder (o_id order) (o_symbol order) (o_type order) (o_side order)
    (o_amount order) (o_price order) x (o_filled order) (o_remaining order)
    (o_timestamp order) (o_average order).

Definition with_contracts (x : Q) (position : MockPosition) : MockPosition :=
  mkPosition (p_symbol position) (p_side position) x (p_entry_price position)
    (p_mark_price position) (p_unrealized_pnl position) (p_margin position).

(** The position a fill opens. *)
Definition opened_by (order : MockOrder) : MockPosition :=
  mkPosition (o_symbol order)
    (if String.eqb (o_side order) "buy" then "long" else "short")
    (o_amount order) (o_price order) (o_price order) 0
    (o_amount order * o_price order / 10).

(** What [fetch_balance], [fetch_ticker] and [fetch_order_book] return. *)
Record Balance : Type := mkBalance {
  balance_free : dict (dict Q);
  balance_used : dict Q;
  balance_total : dict Q;
  balance_USDT : dict Q
}.

Record Ticker : Type := mkTicker {
  ticker_symbol : string;
  ticker_last : Q;
  ticker_bid : Q;
  ticker_ask : Q;
  ticker_high : Q;
  ticker_low : Q;
  ticker_volume : Q;
  ticker_timestamp : Z
}.

Record RawOrderBook : Type := mkRawBook {
  raw_symbol : string;
  raw_bids : list (list Q);
  raw_asks : list (list Q);
  raw_timestamp : Z;
  raw_datetime : Q
}.

Section Methods.
Context {SS : Type}.
Abbreviation Co := (M t SS).

Definition self : Co t := fun w => (Ok (venue w), w).

Definition update (f : t -> t) : Co unit :=
  fun w => (Ok tt, with_venue (f (venue w)) w).

(** [random.random()] *)
Definition random : Co Q :=
  fun w => (Ok (random_source w (random_count w)),
            with_random_count (S (random_count w)) w).

(** [int(datetime.utcnow().timestamp() * 1000)] *)
Definition timestamp_ms : Co Z :=
  now <- utcnow ;;
  ret (py_int (now * 1000)).

Definition _check_connected : Co unit :=
  s <- self ;;
  if _connected s then ret tt
  else raise (mkExn Exception "Not connected to exchange").

Definition connect : Co unit :=
  sleep (1 # 10) ;;;
  update (with_connected true) ;;;
  log INFO "Connected to mock exchange".

Definition disconnect : Co unit :=
  update (with_connected false) ;;;
  log INFO "Disconnected from mock exchange".

Definition fetch_balance : Co Balance :=
  _check_connected ;;;
  sleep (5 # 100) ;;;
  s <- self ;;
  usdt <- lift (getitem (_balance s) "USDT") ;;
  used <- lift (getitem usdt "used") ;;
  usdt <- lift (getitem (_balance s) "USDT") ;;
  total <- lift (getitem usdt "total") ;;
  usdt <- lift (getitem (_balance s) "USDT") ;;
  ret (mkBalance (_balance s) [("USDT", used)] [("USDT", total)] usdt).

(** The loop of [fetch_order_book], from turn [i] on for [turns] turns. *)
Fixpoint book_levels (base_price : Q) (i turns : nat)
    : Co (list (list Q) * list (list Q)) :=
  match turns with
  | O => ret ([], [])
  | S turns =>
      let spread := 2 # 100 in
      let bid_price :=
        base_price * (1 - spread / 100 - inject_Z (Z.of_nat i) * (1 # 1000)) in
      let ask_price :=
        base_price * (1 + spread / 100 + inject_Z (Z.of_nat i) * (1 # 1000)) in
      bid_size <- random_uniform (1 # 10) 2 ;;
      ask_size <- random_uniform (1 # 10) 2 ;;
      rest <- book_levels base_price (S i) turns ;;
      ret ([bid_price; bid_size] :: fst rest, [ask_price; ask_size] :: snd rest)
  end.

Definition fetch_order_book (symbol : string) (limit : nat) : Co RawOrderBook :=
  _check_connected ;;;
  sleep (5 # 100) ;;;
  s <- self ;;
  let base_price := last_price symbol s in
  levels <- book_levels base_price 0 limit ;;
  timestamp <- timestamp_ms ;;
  now <- utcnow ;;
  ret (mkRawBook symbol (fst levels) (snd levels) timestamp now).

(** [_simulate_order_fill] *)
Definition _simulate_order_fill (order_id : string) : Co unit :=
  s <- self ;;
  match dget order_id (_orders s) with
  | None => ret tt
  | Some order =>
      let order := fill order in
      update (fun s => with_orders (dset order_id order (_orders s)) s) ;;;
      let symbol := o_symbol order in
      s <- self ;;
      match dget symbol (_positions s) with
      | None =>
          update (with_positions (dset symbol (opened_by order) (_positions s)))
      | Some position =>
          let position :=
            if String.eqb (o_side order) "buy"
            then with_contracts (p_contracts position + o_amount order) position
            else with_contracts (p_contracts position - o_amount order) position
          in
          if Qle_bool (p_contracts position) 0
          then update (with_positions (ddel symbol (_positions s)))
          else update (with_positions (dset symbol position (_positions s)))
      end
  end.

(** The object of an order, as it stands in [_orders]. *)
Definition the_order (order_id : string) : Co MockOrder :=
  s <- self ;;
  lift (getitem (_orders s) order_id).

Definition create_order (symbol order_type side : string) (amount : Q)
    (price : option Q) : Co MockOrder :=
  _check_connected ;;;
  sleep (1 # 10) ;;;
  order_id <- uuid4 ;;
  s <- self ;;
  timestamp <- timestamp_ms ;;
  let order :=
    mkOrder order_id symbol order_type side amount
      (price_or_last price symbol s) "open" 0 amount timestamp None in
  update (fun s => with_orders (dset order_id order (_orders s)) s) ;;;
  (if String.eqb order_type "market" then _simulate_order_fill order_id
   else ret tt) ;;;
  the_order order_id.

Definition cancel_order (order_id symbol : string) : Co bool :=
  _check_connected ;;;
  sleep (5 # 100) ;;;
  s <- self ;;
  match dget order_id (_orders s) with
  | Some order =>
      update (with_orders (dset order_id (with_status "cancelled" order)
                             (_orders s))) ;;;
      ret true
  | None => ret false
  end.

Definition fetch_open_orders (symbol : string) : Co (list MockOrder) :=
  _check_connected ;;;
  sleep (5 # 100) ;;;
  s <- self ;;
  ret (filter (fun order => String.eqb (o_symbol order) symbol
                            && String.eqb (o_status order) "open")
              (PyDict.values (_orders s))).

Definition fetch_positions : Co (list MockPosition) :=
  _check_connected ;;;
  sleep (5 # 100) ;;;
  s <- self ;;
  ret (PyDict.values (_positions s)).

Definition fetch_order (order_id symbol : string) : Co MockOrder :=
  _check_connected ;;;
  sleep (5 # 100) ;;;
  s <- self ;;
  match dget order_id (_orders s) with
  | None => raise (mkExn Exception "Order not found")
  | Some order =>
      (if String.eqb (o_status order) "open" && String.eqb (o_type order) "limit"
       then
         draw <- random ;;
         if Qlt_bool (7 # 10) draw then _simulate_order_fill order_id
         else ret tt
       else ret tt) ;;;
      the_order order_id
  end.

Definition fetch_ticker (symbol : string) : Co Ticker :=
  _check_connected ;;;
  sleep (5 # 100) ;;;
  s <- self ;;
  let price := last_price symbol s in
  change <- random_uniform (- (2 # 100)) (2 # 100) ;;
  let new_price := price * (1 + change) in
  update (fun s => with_last_prices (dset symbol new_price (_last_prices s)) s) ;;;
  volume <- random_uniform 1000 5000 ;;
  timestamp <- timestamp_ms ;;
  ret (mkTicker symbol new_price (new_price * (9999 # 10000))
         (new_price * (10001 # 10000)) (new_price * (102 # 100))
         (new_price * (98 # 100)) volume timestamp).

End Methods.
End MockExchange.

(** ** Fetching a book ([OrderBookManager.fetch_order_book],
    [src/data/order_book.py])

    The exchange answers [fetch_order_book] with the dictionary the mock
    one makes; the book is cached in the world. *)

Module OrderBookFetch.
Import MockExchange.

(** [OrderBookLevel(price=entry[0], quantity=entry[1])] *)
Definition level_of (entry : list Q) : result OrderBookLevel :=
  match py_index entry 0 with
  | Raise e => Raise e
  | Ok price =>
      match py_index entry 1 with
      | Raise e => Raise e
      | Ok quantity => Ok (mkLevel price quantity)
      end
  end.

Fixpoint levels_of (entries : list (list Q)) : result (list OrderBookLevel) :=
  match entries with
  | [] => Ok []
  | entry :: rest =>
      match level_of entry with
      | Raise e => Raise e
      | Ok level =>
          match levels_of rest with
          | Raise e => Raise e
          | Ok levels => Ok (level :: levels)
          end
      end
  end.

(** [@retry_async(max_attempts=3, delay=1)] *)
Definition fetch_order_book_policy : retry_policy :=
  mkPolicy 3 1 (backoff retry_defaults) (max_delay retry_defaults)
    (exceptions retry_defaults) (should_retry retry_defaults).

Section Fetch.
Context {VS SS : Type}.
Abbreviation Co := (M VS SS).
Variable exchange_fetch_order_book : string -> nat -> Co RawOrderBook.

(** [self._order_books[symbol] = order_book] *)
Definition cache (symbol : string) (order_book : OrderBook) : Co unit :=
  fun w =>
    (Ok tt, with_order_books (dset symbol order_book (order_books w)) w).

Definition fetch_order_book_body (symbol : string) (limit : nat)
    : Co OrderBook :=
  try_except
    (raw_order_book <- exchange_fetch_order_book symbol limit ;;
     bids <- lift (levels_of (raw_bids raw_order_book)) ;;
     asks <- lift (levels_of (raw_asks raw_order_book)) ;;
     let order_book :=
       mkBook symbol bids asks (inject_Z (raw_timestamp raw_order_book)) in
     cache symbol order_book ;;;
     ret order_book)
    (fun e => log ERROR "Failed to fetch order book" ;;; raise e).

Definition fetch_order_book (symbol : string) (limit : nat)
    : Co (option OrderBook) :=
  retry_async fetch_order_book_policy (fetch_order_book_body symbol limit).

End Fetch.
End OrderBookFetch.

(** ** Alerts ([src/monitoring/alerts.py])

    The manager is passed along: each method gives it back as the call
    leaves it. Its logger is a field, a list of the calls made on it
    (method and text, the newest last), the level of an alert being the
    name of the method called. The session of the webhook is a
    collaborator. *)

Module AlertManager.

Inductive AlertLevel : Type := INFO | WARNING | ERROR | CRITICAL.


Inductive AlertType : Type :=
| POSITION_OPENED
| POSITION_CLOSED
| LARGE_LOSS
| RISK_LIMIT
| CONNECTION_ERROR
| ORDER_FAILED
| STRATEGY_ERROR
| LOW_BALANCE
| HIGH_DRAWDOWN
| SYSTEM_ERROR.




Record Alert : Type := mkAlert {
  alert_id : Q;
  alert_timestamp : Q;
  alert_type : AlertType;
  alert_level : AlertLevel;
  alert_message : string;
  alert_metadata : dict pyval;
  alert_sent : bool
}.


(** A rule: a dictionary that may hold a threshold and a rate limit. *)
Record Rule : Type := mkRule {
  threshold : option Q;
  rate_limit_minutes : option Q
}.

Definition _default_rules : PyDict.dict AlertType Rule :=
  [(LARGE_LOSS, mkRule (Some 50) (Some 30));
   (HIGH_DRAWDOWN, mkRule (Some (5 # 100)) (Some 60));
   (LOW_BALANCE, mkRule (Some 100) (Some 120));
   (RISK_LIMIT, mkRule None (Some 15));
   (CONNECTION_ERROR, mkRule None (Some 5));
   (ORDER_FAILED, mkRule None (Some 5))].

Record t : Type := mk {
  webhook_url : option string;
  alerts_history : list Alert;
  alert_rules : PyDict.dict AlertType Rule;
  _rate_limits : dict Q;
  logger : list (string * string)
}.

(** [AlertManager(config)] *)
Definition init (alert_webhook : option string) : t :=
  mk alert_webhook [] _default_rules [] [].









Section Manager.
Context {VS SS : Type}.
Abbreviation Co := (M VS SS).

(** [session.post(url, json=payload, timeout=...)] gives the status of the
    response, and [response.text()] its text. *)
Variable session_post : string -> Alert -> Co Z.
Variable response_text : Co string.






(** [get_recent_alerts] *)
Definition get_recent_alerts (self : t) (hours : Q) : Co (list Alert) :=
  now <- utcnow ;;
  let cutoff_time := now - hours * 3600 in
  ret (filter (fun alert => Qlt_bool cutoff_time (alert_timestamp alert))
              (alerts_history self)).

End Manager.
End AlertManager.

(** ** Health checks ([src/monitoring/health_check.py])

    The dictionary of the checks made so far is passed along. A check
    function answers a dictionary that may hold a status, a message and
    metadata; [psutil] is a collaborator that hands over its three
    readings or raises. *)

Module HealthMonitor.

Inductive HealthStatus : Type := HEALTHY | DEGRADED | UNHEALTHY.

Definition HealthStatus_value (status : HealthStatus) : string :=
  match status with
  | HEALTHY => "healthy"
  | DEGRADED => "degraded"
  | UNHEALTHY => "unhealthy"
  end.

Definition HealthStatus_eqb (a b : HealthStatus) : bool :=
  String.eqb (HealthStatus_value a) (HealthStatus_value b).

Record HealthCheck : Type := mkCheck {
  check_name : string;
  check_status : HealthStatus;
  check_message : string;
  last_check : Q;
  check_metadata : option (dict Q)
}.

(** What a check function returns. *)
Record CheckResult : Type := mkResult {
  result_status : option HealthStatus;
  result_message : option string;
  result_metadata : option (dict Q)
}.

(** [HealthCheck.to_dict] *)
Record CheckReport : Type := mkReport {
  report_name : string;
  report_status : string;
  report_message : string;
  report_last_check : Q;
  report_metadata : dict Q
}.

Definition to_dict (self : HealthCheck) : CheckReport :=
  mkReport (check_name self) (HealthStatus_value (check_status self))
    (check_message self) (last_check self)
    (match check_metadata self with
     | Some metadata => metadata
     | None => []
     end).

(** What [get_status] returns; the key [timestamp] is absent when no check
    has run. *)
Record Status : Type := mkStatus {
  status : string;
  message : string;
  checks : dict CheckReport;
  timestamp : option Q
}.

Record Readings : Type := mkReadings {
  cpu_percent : Q;
  memory_percent : Q;
  disk_percent : Q
}.

(** The three tests of [_check_system_resources], in order. *)
Definition judge (readings : Readings) : HealthStatus * list string :=
  let status := HEALTHY in
  let messages := [] in
  let (status, messages) :=
    if Qlt_bool 80 (cpu_percent readings)
    then (DEGRADED, messages ++ ["High CPU usage"])
    else (status, messages) in
  let (status, messages) :=
    if Qlt_bool 85 (memory_percent readings)
    then (DEGRADED, messages ++ ["High memory usage"])
    else (status, messages) in
  let (status, messages) :=
    if Qlt_bool 90 (disk_percent readings)
    then (UNHEALTHY, messages ++ ["Low disk space"])
    else (status, messages) in
  (status, messages).

(** [all(s == HEALTHY ...)], [any(s == UNHEALTHY ...)] *)
Definition overall (statuses : list HealthStatus) : HealthStatus :=
  if forallb (fun s => HealthStatus_eqb s HEALTHY) statuses then HEALTHY
  else if existsb (fun s => HealthStatus_eqb s UNHEALTHY) statuses
       then UNHEALTHY
       else DEGRADED.

(** [200 if status['status'] == 'healthy' else 503] in [health_handler] *)
Definition http_status (report : Status) : Z :=
  if String.eqb (status report) "healthy" then 200%Z else 503%Z.

Section Monitor.
Context {VS SS : Type}.
Abbreviation Co := (M VS SS).
Variable psutil : Co Readings.

Definition _run_check (checks : dict HealthCheck) (name : string)
    (check_function : Co CheckResult) : Co (dict HealthCheck) :=
  try_except
    (result <- check_function ;;
     status <- lift (item "status" (result_status result)) ;;
     message <- lift (item "message" (result_message result)) ;;
     now <- utcnow ;;
     let metadata :=
       match result_metadata result with
       | Some metadata => metadata
       | None => []
       end in
     ret (dset name (mkCheck name status message now (Some metadata)) checks))
    (fun e =>
       log ERROR "Health check failed" ;;;
       now <- utcnow ;;
       ret (dset name (mkCheck name UNHEALTHY "Check failed" now None) checks)).

Definition _check_system_resources : Co CheckResult :=
  try_except
    (readings <- psutil ;;
     let (status, messages) := judge readings in
     let message :=
       match messages with
       | [] => "System resources OK"
       | _ :: _ => String.concat "; " messages
       end in
     ret (mkResult (Some status) (Some message)
            (Some [("cpu_percent", cpu_percent readings);
                   ("memory_percent", memory_percent readings);
                   ("disk_percent", disk_percent readings)])))
    (fun e =>
       ret (mkResult (Some UNHEALTHY) (Some "Failed to check system resources")
              None)).

Definition _check_exchange_connection : Co CheckResult :=
  ret (mkResult (Some HEALTHY)
         (Some "Exchange connection check not implemented") None).

Definition _check_redis_connection : Co CheckResult :=
  ret (mkResult (Some HEALTHY)
         (Some "Redis connection check not implemented") None).

Definition _check_strategy_health : Co CheckResult :=
  ret (mkResult (Some HEALTHY)
         (Some "Strategy health check not implemented") None).

(** [_check_functions] after [_register_default_checks] *)
Definition default_checks : list (string * Co CheckResult) :=
  [("system_resources", _check_system_resources);
   ("exchange_connection", _check_exchange_connection);
   ("redis_connection", _check_redis_connection);
   ("strategy_health", _check_strategy_health)].

(** [_run_all_checks]: the checks gathered run to their end one after the
    other, in the order of their registration, as coroutines that never
    wait do. *)
Fixpoint _run_all_checks (checks : dict HealthCheck)
    (check_functions : list (string * Co CheckResult))
    : Co (dict HealthCheck) :=
  match check_functions with
  | [] => ret checks
  | (name, check_function) :: rest =>
      checks <- _run_check checks name check_function ;;
      _run_all_checks checks rest
  end.

Definition get_status (checks : dict HealthCheck) : Co Status :=
  match checks with
  | [] => ret (mkStatus (HealthStatus_value UNHEALTHY)
                 "No health checks have run yet" [] None)
  | _ :: _ =>
      let statuses := map check_status (PyDict.values checks) in
      let overall_status := overall statuses in
      now <- utcnow ;;
      ret (mkStatus (HealthStatus_value overall_status) "checks completed"
             (map (fun entry => (fst entry, to_dict (snd entry))) checks)
             (Some now))
  end.

End Monitor.
End HealthMonitor.

(** ** More vocabulary *)

(** [mark] tells the calls of [func]: every call leaves one marked event
    in the trace, and what the retry wrapper leaves of its own, log
    records and waits, is not marked. *)
Definition counts_calls {VS SS A : Type} (mark : event -> bool)
    (func : M VS SS A) : Prop :=
  (forall level msg, mark (Log level msg) = false) /\
  (forall seconds, mark (Sleep seconds) = false) /\
  forall w0 : World VS SS,
    count mark (trace (snd (func w0))) = S (count mark (trace w0)).

(** A function whose every call fails with an error the policy retries,
    takes no time of its own and does not sleep. *)
Definition always_retried {VS SS A : Type} (p : retry_policy)
    (func : M VS SS A) : Prop :=
  forall w0 : World VS SS, exists e w1,
    func w0 = (Raise e, w1) /\ retried p e /\
    clock w1 == clock w0 /\
    count is_sleep (trace w1) = count is_sleep (trace w0).

(** The seconds asked of [asyncio.sleep] along a trace, added up. *)
Fixpoint slept (t : list event) : Q :=
  match t with
  | [] => 0
  | Sleep seconds :: t => seconds + slept t
  | _ :: t => slept t
  end.

(** A step that asks for no wait and asks the venue for no order. *)
Definition waitless {VS SS A : Type} (c : M VS SS A) : Prop :=
  forall w, slept (trace (snd (c w))) = slept (trace w) /\
            count is_sleep (trace (snd (c w))) = count is_sleep (trace w) /\
            count is_fetch_order (trace (snd (c w)))
            = count is_fetch_order (trace w).

(** The venue accepts every order; the store refuses every write of an
    order. *)
Definition venue_accepts (VS : Type) {exchange : ExchangeInterface VS} : Prop :=
  forall symbol order_type side amount price (v : VS), exists response v' x,
    create_order symbol order_type side amount price v = (Ok response, v') /\
    dget "id" response = Some x.

Definition store_refuses (SS : Type) {state_manager : StateManager SS} : Prop :=
  forall order_id order (s : SS), exists e s',
    save_order order_id order s = (Raise e, s').

Arguments venue_accepts VS {exchange}.
Arguments store_refuses SS {state_manager}.

Definition failed (o : Order.t) : Prop := Order.status o = FAILED.

(** The verdict of a filter on a signal, with its cell as it stands. *)
Definition passes (f : SignalPipeline.SignalFilter) (s : TradingSignal) : bool :=
  fst (SignalPipeline.call f s).

(** A filter whose condition neither reads nor writes its cell. *)
Definition stateless (f : SignalPipeline.SignalFilter) : Prop :=
  forall s c,
    SignalPipeline.condition f s c
    = (fst (SignalPipeline.condition f s (SignalPipeline.cell f)), c).

Definition is_debug (e : event) : bool :=
  match e with Log DEBUG _ => true | _ => false end.

(** Instants at least [d] apart, each from the one before. *)
Fixpoint spaced (d : Q) (instants : list Q) : Prop :=
  match instants with
  | a :: (b :: _) as rest => d <= b - a /\ spaced d rest
  | _ => True
  end.

Definition is_log (e : event) : bool :=
  match e with Log _ _ => true | _ => false end.

Definition is_save_order (e : event) : bool :=
  match e with SaveOrder _ => true | _ => false end.

(** ** Sample functions and policies for the concrete runs *)

(** A function that fails with [e] at every call. *)
Definition failing_with (e : exn) : M nat unit nat :=
  fun w => (Raise e, with_venue (S (venue w)) w).


(** A function that asks the venue for the balance and then fails with
    [e], at every call. *)
Definition is_fetch_balance (e : event) : bool :=
  match e with FetchBalance => true | _ => false end.

Definition asking_then_failing (e : exn) : M nat unit nat :=
  emit FetchBalance ;;; raise e.

(** A policy whose loop is never entered. *)
Definition no_attempts : retry_policy :=
  mkPolicy 0 1 2 60 [Exception] None.

(** A venue that answers [False] to every cancellation, the way
    [BinanceExchange.cancel_order] reports a cancellation that failed;
    and an order placed on it. *)
Definition declining_venue : venue_script :=
  mkVenue (fun _ => Ok [("id", PStr "V1")]) 0
          (fun _ => Ok false) 0
          (fun _ => Ok [("status", PStr "open")]) 0
          (Ok []) (Ok [("free", [("USDT", 10000)])]) (Ok [("last", 2500)]).

Definition declined_world : World venue_script store_script :=
  snd (OrderManager.place_order "ETH/USDT:USDT" "buy" "limit" 1 (Some 2400)
         (Scripted.world declining_venue quiet_store)).



Definition no_bid_world : World venue_script store_script :=
  with_order_books
    [("ETH/USDT:USDT", mkBook "ETH/USDT:USDT" [] [mkLevel 2501 1] 0)]
    shutdown_world.

(** A store that refuses every write of an order. *)
Definition closed_store : store_script :=
  mkStore (fun _ => Raise (mkExn ConnectionError "Error connecting to Redis"))
          0 (Ok tt) (Ok []) (Ok []).

(** Collaborators whose replies do not depend on what happened before: a
    venue that accepts every order and a store that refuses every write
    of an order. *)
Module Steady.

#[export] Instance accepting_venue : ExchangeInterface unit := {
  fetch_balance v := (Ok [("free", [("USDT", 10000)])], v);
  create_order _ _ _ _ _ v := (Ok [("id", PStr "V1")], v);
  cancel_order _ _ v := (Ok true, v);
  fetch_order _ _ v := (Ok [("status", PStr "open")], v);
  fetch_positions v := (Ok [], v);
  fetch_ticker _ v := (Ok [("last", 2500)], v)
}.

#[export] Instance refusing_store : StateManager unit := {
  get_all_positions s := (Ok [], s);
  get_trades_since _ s := (Ok [], s);
  save_order _ _ s :=
    (Raise (mkExn ConnectionError "Error connecting to Redis"), s);
  save_position _ _ s := (Ok tt, s)
}.

Definition world : World unit unit :=
  mkWorld tt tt 0 (fun n => String (ascii_of_nat (97 + n)) "") 0
    (fun _ => 0) 0 [] [] [] [] [] [] [].

End Steady.


(** What the memory of [no_recent_signal] says about a key: the instant
    of the last signal passed for it, if any. *)
Definition remembered (recent : PyDict.dict SignalAggregator.key Q)
    (k : SignalAggregator.key) : list Q :=
  match PyDict.get SignalAggregator.key_eqb k recent with
  | Some last_time => [last_time]
  | None => []
  end.

(** The filters whose condition cannot raise: those made by
    [CommonFilters.min_confidence] and [CommonFilters.no_recent_signal],
    with whatever the latter remembers. The condition of
    [CommonFilters.time_window] is not among them: it raises when
    [datetime.fromtimestamp] refuses the timestamp of the signal. *)
Inductive plain_filter : SignalPipeline.SignalFilter -> Prop :=
| plain_min_confidence threshold :
    plain_filter (SignalPipeline.min_confidence threshold)
| plain_no_recent_signal minutes recent_signals :
    plain_filter (SignalPipeline.no_recent_signal_from minutes recent_signals).

(** Three strategies, of which the first raises and the others give the
    same signal some minutes apart; an aggregator over them with the two
    plain filters. *)
Definition sample_strategy (strategy : nat) (market_data : unit)
    : M nat unit (list TradingSignal) :=
  match strategy with
  | O => raise (mkExn ValueError "no market data")
  | S _ =>
      ret [mkSignal LONG_ENTRY "ETH" 2500 (8 # 10)
             (400 * inject_Z (Z.of_nat strategy)) (Meta [])]
  end.

Definition sample_aggregator : SignalPipeline.Aggregator nat :=
  SignalPipeline.mkAggregator
    (SignalAggregator.mk (6 # 10) [0%nat; 1%nat; 2%nat])
    [SignalPipeline.min_confidence (7 # 10); SignalPipeline.no_recent_signal 5]
    (SignalPipeline.new_history 1000).

(** [datetime.fromtimestamp(t).hour] for a process running in UTC. *)
Definition utc_hour (t : Q) : Z := ((Qfloor t / 3600) mod 24)%Z.

(** The sum of the counts held by a dictionary of counters. *)
Definition total_count (d : dict nat) : nat :=
  fold_right Nat.add 0%nat (PyDict.values d).

Definition is_error (e : event) : bool :=
  match e with Log ERROR _ => true | _ => false end.

(** A strategy that raises whenever it is asked for signals, without
    logging an error of its own. *)
Definition always_raises {VS SS Strategy MarketData : Type}
    (calculate_signals : Strategy -> MarketData -> M VS SS (list TradingSignal))
    (market_data : MarketData) (strategy : Strategy) : Prop :=
  forall w0, exists e w1,
    calculate_signals strategy market_data w0 = (Raise e, w1) /\
    count is_error (trace w1) = count is_error (trace w0).

(** What a risk check may leave in the trace: the read of the stored
    positions and a warning. *)
Definition risk_event (e : event) : bool :=
  match e with
  | GetAllPositions | Log WARNING _ => true
  | _ => false
  end.

(** A local position as the manager makes it: filed under its own symbol;
    open with no exit and no profit yet, or closed with its exit and the
    profit of its side. *)
Definition well_kept (item : string * Position.t) : Prop :=
  let (key, p) := item in
  Position.symbol p = key /\
  ((Position.status p = "open" /\ Position.pnl p = 0 /\
    Position.exit_price p = None /\ Position.exit_time p = None)
   \/
   (Position.status p = "closed" /\
    exists exit_price exit_time,
      Position.exit_price p = Some exit_price /\
      Position.exit_time p = Some exit_time /\
      Position.pnl p
      = if String.eqb (Position.side p) "long"
        then (exit_price - Position.entry_price p) * Position.amount p
        else (Position.entry_price p - exit_price) * Position.amount p)).

Definition well_kept_world {VS SS : Type} (w : World VS SS) : Prop :=
  Forall well_kept (positions w).

(** What every call on a mock exchange that is not connected raises. *)
Definition not_connected : exn :=
  mkExn Exception "Not connected to exchange".

(** A mock exchange after [connect], in a world of its own; the draws of
    [random.random()] are all 0.5 there. *)
Definition mock_world : World MockExchange.t unit :=
  mkWorld (MockExchange.with_connected true MockExchange.init) tt 0
    (fun n => String (ascii_of_nat (97 + n)) "") 0
    (fun _ => 1 # 2) 0 [] [] [] [] [] [] [].

Definition offline_world : World MockExchange.t unit :=
  mkWorld MockExchange.init tt 0
    (fun n => String (ascii_of_nat (97 + n)) "") 0
    (fun _ => 1 # 2) 0 [] [] [] [] [] [] [].

(** The same exchange after a market sale, and after a limit order that
    rests. *)
Definition mock_traded_world : World MockExchange.t unit :=
  snd (MockExchange.create_order "ETH/USDT:USDT" "market" "sell" 1 None
         mock_world).

Definition mock_resting_world : World MockExchange.t unit :=
  snd (MockExchange.create_order "ETH/USDT:USDT" "limit" "buy" 1 (Some 2400)
         mock_world).






(** * Properties *)

(** ** Dictionaries and rationals *)

Section DictFacts.
Variables K V : Type.
Variable eqb : K -> K -> bool.
Hypothesis eqb_spec : forall a b, reflect (a = b) (eqb a b).

Let get := PyDict.get (V:=V) eqb.
Let set := PyDict.set (V:=V) eqb.
Let keys := PyDict.keys (K:=K) (V:=V).

Lemma eqb_refl a : eqb a a = true.
Proof. destruct (eqb_spec a a); congruence. Qed.

Lemma get_set_same k v d : get k (set k v d) = Some v.
Proof.
  unfold get, set.
  induction d as [|[k' v'] d IH]; simpl.
  - now rewrite eqb_refl.
  - destruct (eqb k k') eqn:E; simpl; rewrite E; auto.
Qed.

Lemma get_set_other k k' v d : k' <> k -> get k' (set k v d) = get k' d.
Proof.
  unfold get, set.
  intros Hne. induction d as [|[k0 v0] d IH]; simpl.
  - destruct (eqb_spec k' k); congruence.
  - destruct (eqb_spec k k0) as [->|Hk]; simpl.
    + destruct (eqb_spec k' k0); congruence.
    + destruct (eqb k' k0); auto.
Qed.

Lemma keys_set_present k v d x :
  get k d = Some x -> keys (set k v d) = keys d.
Proof.
  unfold get, set, keys, PyDict.keys.
  induction d as [|[k0 v0] d IH]; simpl; [discriminate|].
  destruct (eqb k k0); simpl; intros H; [reflexivity|].
  now rewrite IH.
Qed.

Lemma keys_set_absent k v d :
  get k d = None -> keys (set k v d) = keys d ++ [k].
Proof.
  unfold get, set, keys, PyDict.keys.
  induction d as [|[k0 v0] d IH]; simpl; [reflexivity|].
  destruct (eqb k k0); simpl; intros H; [discriminate|].
  now rewrite IH.
Qed.

Lemma get_None_not_in k d : get k d = None -> ~ In k (keys d).
Proof.
  unfold get, keys, PyDict.keys.
  induction d as [|[k0 v0] d IH]; simpl; [tauto|].
  destruct (eqb_spec k k0); [discriminate|].
  intros H [E|HIn]; [congruence | now apply IH].
Qed.

Lemma not_in_get_None k d : ~ In k (keys d) -> get k d = None.
Proof.
  unfold get, keys, PyDict.keys.
  induction d as [|[k0 v0] d IH]; simpl; [tauto|].
  destruct (eqb_spec k k0); [intros H; exfalso; apply H; left; congruence|].
  intros H. apply IH. tauto.
Qed.

Lemma get_Some_in k d v : get k d = Some v -> In (k, v) d.
Proof.
  unfold get.
  induction d as [|[k0 v0] d IH]; simpl; [discriminate|].
  destruct (eqb_spec k k0) as [->|]; intros H.
  - left. congruence.
  - right. auto.
Qed.

Lemma in_keys_get k d : In k (keys d) -> exists v, get k d = Some v.
Proof.
  unfold get, keys, PyDict.keys.
  induction d as [|[k0 v0] d IH]; simpl; [tauto|].
  destruct (eqb_spec k k0); [eauto|].
  intros [E|HIn]; [congruence | auto].
Qed.

End DictFacts.

Lemma dget_dset_same (V : Type) k (v : V) d : dget k (dset k v d) = Some v.
Proof. apply (get_set_same _ String.eqb_spec). Qed.

Lemma dget_dset_other (V : Type) k k' (v : V) d :
  k' <> k -> dget k' (dset k v d) = dget k' d.
Proof. apply (get_set_other _ String.eqb_spec). Qed.

Lemma nth_error_list_update A (l : list A) i f j :
  nth_error (list_update l i f) j
  = if Nat.eqb i j then option_map f (nth_error l j) else nth_error l j.
Proof.
  revert i j. induction l as [|x l IH]; intros [|i] [|j]; simpl; auto.
  now destruct (Nat.eqb i j).
Qed.

Lemma nth_error_snoc A (l : list A) x : nth_error (l ++ [x]) (List.length l) = Some x.
Proof. induction l; simpl; auto. Qed.

Lemma Qlt_bool_iff x y : Qlt_bool x y = true <-> x < y.
Proof.
  unfold Qlt_bool. rewrite negb_true_iff. split.
  - intros H. apply Qnot_le_lt. intros Hle.
    apply Qle_bool_iff in Hle. congruence.
  - intros H. destruct (Qle_bool y x) eqn:E; [|reflexivity].
    apply Qle_bool_iff in E. exfalso. now apply (Qlt_not_le x y).
Qed.

Lemma Qlt_bool_false_iff x y : Qlt_bool x y = false <-> y <= x.
Proof.
  unfold Qlt_bool. rewrite negb_false_iff. apply Qle_bool_iff.
Qed.

(** ** Consensus aggregation *)

Lemma Signal_eqb_spec a b : reflect (a = b) (Signal_eqb a b).
Proof. destruct a, b; constructor; congruence. Qed.

Module SignalAggregatorFacts.
Import SignalAggregator.

Lemma key_eqb_spec a b : reflect (a = b) (key_eqb a b).
Proof.
  destruct a as [s1 k1], b as [s2 k2]. unfold key_eqb. simpl.
  destruct (String.eqb_spec s1 s2), (Signal_eqb_spec k1 k2);
    constructor; congruence.
Qed.

Section Facts.
Variable Strategy : Type.
Abbreviation aggregator := (SignalAggregator.t Strategy).

Let get := PyDict.get (V := list TradingSignal) key_eqb.
Let keys := PyDict.keys (K := key) (V := list TradingSignal).

Lemma group_add_get (acc : groups) s k :
  get k (group_add acc s) =
  if key_eqb (key_of s) k
  then Some (match get k acc with Some g => g | None => [] end ++ [s])
  else get k acc.
Proof.
  unfold get, group_add, PyDict.mem.
  destruct (key_eqb_spec (key_of s) k) as [<-|Hne].
  - rewrite (get_set_same _ key_eqb_spec).
    destruct (PyDict.get key_eqb (key_of s) acc) eqn:E.
    + now rewrite E.
    + now rewrite (get_set_same _ key_eqb_spec).
  - rewrite (get_set_other _ key_eqb_spec) by congruence.
    destruct (PyDict.get key_eqb (key_of s) acc) eqn:E; [reflexivity|].
    now rewrite (get_set_other _ key_eqb_spec) by congruence.
Qed.

Lemma group_add_keys_NoDup (acc : groups) s :
  NoDup (keys acc) -> NoDup (keys (group_add acc s)).
Proof.
  intros Hnd. unfold keys, group_add, PyDict.mem.
  destruct (PyDict.get key_eqb (key_of s) acc) eqn:E.
  - rewrite E. now rewrite (keys_set_present _ _ _ _ E).
  - rewrite (get_set_same _ key_eqb_spec).
    rewrite (keys_set_present _ _ _ _ (get_set_same _ key_eqb_spec _ _ _)).
    rewrite (keys_set_absent _ _ _ _ E).
    apply NoDup_app; [assumption | repeat constructor; simpl; tauto |].
    intros x Hx [<-|[]]. now apply (get_None_not_in _ key_eqb_spec) in E.
Qed.

Lemma members_app k l1 l2 : members k (l1 ++ l2) = members k l1 ++ members k l2.
Proof. apply filter_app. Qed.

Lemma fold_group_add signals : forall (acc : groups) pre,
  (forall k, get k acc = group_of k pre) -> NoDup (keys acc) ->
  (forall k, get k (fold_left group_add signals acc) = group_of k (pre ++ signals))
  /\ NoDup (keys (fold_left group_add signals acc)).
Proof.
  induction signals as [|s signals IH]; intros acc pre Hget Hnd; simpl.
  - rewrite app_nil_r. auto.
  - replace (pre ++ s :: signals) with ((pre ++ [s]) ++ signals)
      by (now rewrite <- app_assoc).
    apply IH; [|now apply group_add_keys_NoDup].
    intros k. rewrite group_add_get, Hget. unfold group_of.
    rewrite members_app. simpl.
    destruct (key_eqb (key_of s) k).
    + destruct (members k pre); reflexivity.
    + rewrite app_nil_r. reflexivity.
Qed.

Lemma group_signals_get signals k :
  get k (group_signals signals) = group_of k signals.
Proof. now apply (fold_group_add signals [] []); [|constructor]. Qed.

Lemma group_signals_NoDup signals : NoDup (keys (group_signals signals)).
Proof. now apply (fold_group_add signals [] []); [|constructor]. Qed.

Lemma NoDup_keys_in_get (d : groups) k g :
  NoDup (keys d) -> In (k, g) d -> get k d = Some g.
Proof.
  unfold keys, get, PyDict.keys.
  induction d as [|[k0 g0] d IH]; simpl; [tauto|].
  intros Hnd [E|HIn].
  - inversion E; subst. now rewrite (eqb_refl _ key_eqb_spec).
  - inversion Hnd; subst.
    destruct (key_eqb_spec k k0) as [->|]; [|auto].
    exfalso. apply H1. now apply (in_map fst) in HIn.
Qed.

Lemma group_signals_items signals k g :
  In (k, g) (group_signals signals) <-> (g <> [] /\ g = members k signals).
Proof.
  split.
  - intros HIn.
    apply NoDup_keys_in_get in HIn; [|apply group_signals_NoDup].
    rewrite group_signals_get in HIn. unfold group_of in HIn.
    destruct (members k signals) eqn:E; [discriminate|].
    inversion HIn; subst. split; congruence.
  - intros [Hne ->].
    apply (get_Some_in _ key_eqb_spec). fold get.
    rewrite group_signals_get. unfold group_of.
    destruct (members k signals); congruence.
Qed.

Lemma check_consensus_ok (self : aggregator) now items :
  strategies self <> [] ->
  check_consensus self now items
  = Ok (map (consensus_signal self now) (filter (reaches_consensus self) items)).
Proof.
  intros Hne. induction items as [|[k g] items IH]; simpl; [reflexivity|].
  destruct (strategies self) eqn:E; [congruence|]. rewrite <- E in *.
  unfold reaches_consensus at 1. simpl.
  destruct (Qle_bool _ _); [|exact IH].
  rewrite IH. reflexivity.
Qed.

Lemma NoDup_map_fst_filter (A B : Type) (f : A * B -> bool) (l : list (A * B)) :
  NoDup (map fst l) -> NoDup (map fst (filter f l)).
Proof.
  induction l as [|x l IH]; simpl; intros Hnd; [constructor|].
  inversion Hnd; subst.
  destruct (f x); simpl; [|auto].
  constructor; [|auto].
  intros HIn. apply H1. apply in_map_iff in HIn as [y [Hy HIn]].
  apply filter_In in HIn as [HIn _]. rewrite <- Hy. now apply in_map.
Qed.

Lemma consensus_signal_key (self : aggregator) now item :
  key_of (consensus_signal self now item) = fst item.
Proof. destruct item as [[sym kind] g]. reflexivity. Qed.

Lemma aggregate_many (self : aggregator) now signals :
  (1 < List.length (strategies self))%nat ->
  _aggregate_signals self now signals
  = Ok (map (consensus_signal self now)
         (filter (reaches_consensus self) (group_signals signals))).
Proof.
  intros Hn. unfold _aggregate_signals.
  destruct (Nat.eqb_spec (List.length (strategies self)) 1); [lia|].
  apply check_consensus_ok. destruct (strategies self); simpl in *; [lia|congruence].
Qed.

Lemma emitted_iff (self : aggregator) now signals k :
  (exists s, In s (map (consensus_signal self now)
       (filter (reaches_consensus self) (group_signals signals))) /\ key_of s = k)
  <-> (members k signals <> [] /\
       min_consensus self <= Qlen (members k signals) / Qlen (strategies self)).
Proof.
  split.
  - intros (s & HIn & Hk).
    apply in_map_iff in HIn as ([k' g] & <- & HIn).
    rewrite consensus_signal_key in Hk. simpl in Hk. subst k'.
    apply filter_In in HIn as [HIn Hpass].
    apply group_signals_items in HIn as [Hne ->].
    split; [assumption|]. now apply Qle_bool_iff in Hpass.
  - intros [Hne Hle].
    exists (consensus_signal self now (k, members k signals)).
    split; [|apply consensus_signal_key].
    apply in_map, filter_In. split.
    + now apply group_signals_items.
    + now apply Qle_bool_iff.
Qed.

(** C6: with one registered source [_aggregate_signals] hands its input
    back; with more than one it emits, for each (symbol, kind), one signal
    exactly when the share of sources in that group reaches
    [min_consensus], with confidence = mean member confidence times that
    share and price = mean member price; with three sources and threshold
    0.6 a LONG_ENTRY group of two is emitted and a group of one is not. *)
Theorem aggregate_signals_consensus (self : aggregator) (now : Q)
    (signals : list TradingSignal) :
  (List.length (strategies self) = 1%nat ->
     _aggregate_signals self now signals = Ok signals)
  /\
  ((1 < List.length (strategies self))%nat ->
     exists out, _aggregate_signals self now signals = Ok out /\
       (forall k, (exists s, In s out /\ key_of s = k) <->
          (members k signals <> [] /\
           min_consensus self
             <= Qlen (members k signals) / Qlen (strategies self))) /\
       (forall s, In s out ->
          let g := members (key_of s) signals in
          let consensus := Qlen g / Qlen (strategies self) in
          confidence s = Qsum (map confidence g) / Qlen g * consensus /\
          price s = Qsum (map price g) / Qlen g) /\
       NoDup (map key_of out))
  /\
  (List.length (strategies self) = 3%nat -> min_consensus self == 6 # 10 ->
     exists out, _aggregate_signals self now signals = Ok out /\
       forall sym,
         (List.length (members (sym, LONG_ENTRY) signals) = 2%nat ->
            exists s, In s out /\ key_of s = (sym, LONG_ENTRY)) /\
         (List.length (members (sym, LONG_ENTRY) signals) = 1%nat ->
            ~ exists s, In s out /\ key_of s = (sym, LONG_ENTRY))).
Proof.
  split; [|split].
  - intros H1. unfold _aggregate_signals. now rewrite H1.
  - intros Hn. eexists. split; [now apply aggregate_many|].
    split; [|split].
    + intros k. apply emitted_iff.
    + intros s HIn.
      apply in_map_iff in HIn as ([k g] & <- & HIn).
      apply filter_In in HIn as [HIn _].
      apply group_signals_items in HIn as [_ ->].
      rewrite consensus_signal_key. simpl. split; reflexivity.
    + rewrite map_map.
      rewrite (map_ext _ fst) by (intros; apply consensus_signal_key).
      apply NoDup_map_fst_filter, group_signals_NoDup.
  - intros H3 Hc. eexists. split; [apply aggregate_many; lia|].
    intros sym. split; intros Hlen.
    + apply emitted_iff. split.
      * destruct (members _ signals); [discriminate|congruence].
      * unfold Qlen. rewrite Hlen, H3, Hc. vm_compute. discriminate.
    + intros Hex. apply emitted_iff in Hex as [_ Hle].
      unfold Qlen in Hle. rewrite Hlen, H3, Hc in Hle. vm_compute in Hle.
      now apply Hle.
Qed.

End Facts.

Lemma aggregate_signals_consensus_witness :
  _aggregate_signals one_source 0 sample_signals = Ok sample_signals /\
  (exists out, _aggregate_signals three_sources 0 sample_signals = Ok out /\
     NoDup (map key_of out) /\
     forall s, In s out -> price s = Qsum (map price (members (key_of s) sample_signals))
                                      / Qlen (members (key_of s) sample_signals)) /\
  List.length (strategies three_sources) = 3%nat /\
  min_consensus three_sources == 6 # 10 /\
  List.length (members ("X", LONG_ENTRY) sample_signals) = 2%nat /\
  List.length (members ("Y", LONG_ENTRY) sample_signals) = 1%nat /\
  exists out, _aggregate_signals three_sources 0 sample_signals = Ok out /\
    (exists s, In s out /\ key_of s = ("X", LONG_ENTRY)) /\
    ~ (exists s, In s out /\ key_of s = ("Y", LONG_ENTRY)).
Proof.
  assert (H1 : List.length (strategies one_source) = 1%nat) by reflexivity.
  assert (Hmany : (1 < List.length (strategies three_sources))%nat)
    by (simpl; lia).
  assert (H3 : List.length (strategies three_sources) = 3%nat) by reflexivity.
  assert (Hc : min_consensus three_sources == 6 # 10) by reflexivity.
  assert (HX : List.length (members ("X", LONG_ENTRY) sample_signals) = 2%nat)
    by reflexivity.
  assert (HY : List.length (members ("Y", LONG_ENTRY) sample_signals) = 1%nat)
    by reflexivity.
  split.
  { exact (proj1 (aggregate_signals_consensus one_source 0 sample_signals) H1). }
  destruct (aggregate_signals_consensus three_sources 0 sample_signals)
    as (_ & H2 & H).
  split.
  { destruct (H2 Hmany) as (out & Hout & _ & Hmean & Hnd).
    exists out. split; [exact Hout|]. split; [exact Hnd|].
    intros s HIn. exact (proj2 (Hmean s HIn)). }
  repeat (split; [assumption|]).
  destruct (H H3 Hc) as (out & Hout & Hsym).
  exists out. split; [exact Hout|]. split.
  - exact (proj1 (Hsym "X") HX).
  - exact (proj2 (Hsym "Y") HY).
Defined.

Example aggregate_two_of_three :
  _aggregate_signals three_sources 7 sample_signals
  = Ok [ mkSignal LONG_ENTRY "X"
           ((0 + 100 + 102) / 2)
           ((0 + (8 # 10) + (6 # 10)) / 2 * (2 / 3)) 7
           (MetaConsensus (2 / 3) 2 [Meta []; Meta []]) ].
Proof. reflexivity. Qed.

End SignalAggregatorFacts.

(** ** Retry decorator *)

Section RetryFacts.
Context {VS SS : Type} {A : Type}.
Variable p : retry_policy.
Variable func : M VS SS A.

Lemma final_of_cons (x y : result A) rest :
  final_of (x :: y :: rest) = final_of (y :: rest).
Proof. destruct x; reflexivity. Qed.

Lemma retry_loop_final fuel : forall attempt d w,
  (max_attempts p - attempt <= Z.of_nat fuel)%Z ->
  forall r w' outcomes,
  retry_loop p func fuel attempt d w = (r, w', outcomes) ->
  r = final_of outcomes /\
  (outcomes = [] <-> (max_attempts p <= attempt)%Z) /\
  (Z.of_nat (List.length outcomes) <= Z.max 0 (max_attempts p - attempt))%Z.
Proof.
  induction fuel as [|fuel IH]; intros attempt d w Hfuel r w' outcomes Hrun;
    simpl in Hrun.
  - inversion Hrun; subst. simpl. repeat split; auto; lia.
  - destruct (Z.leb_spec (max_attempts p) attempt) as [Hle|Hlt].
    + inversion Hrun; subst. simpl. repeat split; auto; lia.
    + destruct (func w) as [[a|e] w1].
      * inversion Hrun; subst. simpl.
        repeat split; try discriminate; try lia.
      * destruct (negb (catches p e)).
        { inversion Hrun; subst. simpl.
          repeat split; try discriminate; try lia. }
        destruct (refuses p e).
        { inversion Hrun; subst. simpl.
          repeat split; try discriminate; try lia. }
        destruct (Z.leb_spec (max_attempts p) (attempt + 1)) as [Hle1|Hlt1].
        { inversion Hrun; subst. simpl.
          repeat split; try discriminate; try lia. }
        destruct (retry_loop p func fuel (attempt + 1) _ _)
          as [[r2 w2] outs2] eqn:Hrec.
        inversion Hrun; subst.
        apply IH in Hrec as (Hr & Hnil & Hlen); [|lia].
        destruct outs2 as [|y rest].
        { exfalso. assert ((max_attempts p <= attempt + 1)%Z) by now apply Hnil.
          lia. }
        rewrite final_of_cons. repeat split; try discriminate; try lia; auto.
        change (List.length (Raise e :: y :: rest))
          with (S (List.length (y :: rest))).
        lia.
Qed.

(** A value returned by the retry wrapper is the value of one call of the
    wrapped function, and the world is the one that call left. *)
Lemma retry_loop_returned fuel :
  forall attempt d w a w' outcomes,
  retry_loop p func fuel attempt d w = (Ok (Some a), w', outcomes) ->
  exists w0, func w0 = (Ok a, w').
Proof.
  induction fuel as [|fuel IH]; intros attempt d w a w' outcomes E; simpl in E;
    [discriminate|].
  destruct (max_attempts p <=? attempt)%Z; [discriminate|].
  destruct (func w) as [[a0|e] w1] eqn:Hcall.
  - inversion E; subst. now exists w.
  - destruct (negb (catches p e)); [discriminate|].
    destruct (refuses p e); [discriminate|].
    destruct (max_attempts p <=? attempt + 1)%Z; [discriminate|].
    destruct (retry_loop p func fuel _ _ _) as [[r2 w2] outs2] eqn:Hrec.
    inversion E; subst. eapply IH. exact Hrec.
Qed.

(** The trace only grows through the wrapper when it only grows through
    the function; and when the loop is entered, it grows from the trace
    the first call left. *)
Section Growing.
Hypothesis func_grows :
  forall w0 : World VS SS, exists new, trace (snd (func w0)) = new ++ trace w0.



End Growing.

(** The two runs of the claim, call by call. *)
Section ThreeAttempts.
Hypothesis three : max_attempts p = 3%Z.

Lemma retry_fail_fail_succeed w e1 w1 e2 w2 v w3 :
  retried p e1 -> retried p e2 ->
  func w = (Raise e1, w1) ->
  func (second_call_world p w1) = (Raise e2, w2) ->
  func (third_call_world p w2) = (Ok v, w3) ->
  retry_run p func w = (Ok (Some v), w3, [Raise e1; Raise e2; Ok v]).
Proof.
  intros [C1 R1] [C2 R2] H1 H2 H3.
  unfold retry_run, second_call_world, third_call_world in *.
  rewrite three. change (Z.to_nat 3) with 3%nat.
  cbn [retry_loop]. rewrite three, H1, C1, R1.
  cbn [negb Z.leb Z.compare Z.add Pos.compare Pos.compare_cont Pos.add Pos.succ].
  rewrite H2, C2, R2.
  cbn [negb Z.leb Z.compare Z.add Pos.compare Pos.compare_cont Pos.add Pos.succ].
  rewrite H3. reflexivity.
Qed.

Lemma retry_fail_fail_fail w e1 w1 e2 w2 e3 w3 :
  retried p e1 -> retried p e2 ->
  func w = (Raise e1, w1) ->
  func (second_call_world p w1) = (Raise e2, w2) ->
  func (third_call_world p w2) = (Raise e3, w3) ->
  fst (fst (retry_run p func w)) = Raise e3 /\
  snd (retry_run p func w) = [Raise e1; Raise e2; Raise e3].
Proof.
  intros [C1 R1] [C2 R2] H1 H2 H3.
  unfold retry_run, second_call_world, third_call_world in *.
  rewrite three. change (Z.to_nat 3) with 3%nat.
  cbn [retry_loop]. rewrite three, H1, C1, R1.
  cbn [negb Z.leb Z.compare Z.add Pos.compare Pos.compare_cont Pos.add Pos.succ].
  rewrite H2, C2, R2.
  cbn [negb Z.leb Z.compare Z.add Pos.compare Pos.compare_cont Pos.add Pos.succ].
  rewrite H3.
  destruct (catches p e3); simpl; [|split; reflexivity].
  destruct (refuses p e3); simpl; split; reflexivity.
Qed.

End ThreeAttempts.

End RetryFacts.



(** A function that always fails is called three times, with two waits
    in between, then its last error is raised. *)
Example retry_async_gives_up :
  let run := retry_async retry_defaults always_fails bare_world in
  fst run = Raise (mkExn TimeoutError "timed out") /\
  venue (snd run) = 3%nat /\
  count is_sleep (trace (snd run)) = 2%nat.
Proof. repeat split. Qed.

(** [place_order]'s policy retries every error; [order_retry] would not
    retry a rejection for insufficient balance. *)
Lemma place_order_policy_retries_all e :
  retried OrderManager.place_order_policy e.
Proof. split; reflexivity. Qed.

Lemma order_retry_refuses_rejection :
  refuses order_retry insufficient_balance = true.
Proof. reflexivity. Qed.

(** ** Frames: what a coroutine leaves alone *)

Section Frames.
Context {VS SS : Type}.
Variable allowed : event -> bool.

Lemma follows_refl (w : World VS SS) : follows allowed w w.
Proof.
  constructor; try reflexivity.
  - exists []. split; reflexivity.
  - intros r o H. exists o. repeat split; auto.
Qed.

Lemma follows_trans (w1 w2 w3 : World VS SS) :
  follows allowed w1 w2 -> follows allowed w2 w3 -> follows allowed w1 w3.
Proof.
  intros [(n1 & T1 & A1) a1 e1 p1 b1 t1 h1] [(n2 & T2 & A2) a2 e2 p2 b2 t2 h2].
  constructor; try congruence.
  - exists (n2 ++ n1). split.
    + now rewrite T2, T1, app_assoc.
    + rewrite forallb_app. now rewrite A1, A2.
  - intros r o H. destruct (h1 r o H) as (o1 & H1 & I1 & I2 & I3).
    destruct (h2 r o1 H1) as (o2 & H2 & J1 & J2 & J3).
    exists o2. repeat split; congruence.
Qed.

Lemma keeps_ret A (a : A) : keeps (VS := VS) (SS := SS) allowed (ret a).
Proof. intros w. apply follows_refl. Qed.

Lemma keeps_raise A e : keeps (VS := VS) (SS := SS) allowed (raise (A := A) e).
Proof. intros w. apply follows_refl. Qed.

Lemma keeps_lift A (r : result A) : keeps (VS := VS) (SS := SS) allowed (lift r).
Proof. intros w. apply follows_refl. Qed.

Lemma keeps_utcnow : keeps (VS := VS) (SS := SS) allowed utcnow.
Proof. intros w. apply follows_refl. Qed.

Lemma keeps_deref r : keeps (VS := VS) (SS := SS) allowed (deref r).
Proof.
  intros w. unfold deref. destruct (nth_error (heap w) r); apply follows_refl.
Qed.

Lemma keeps_bind A B (c : M VS SS A) (k : A -> M VS SS B) :
  keeps (VS := VS) (SS := SS) allowed c ->
  (forall a, keeps (VS := VS) (SS := SS) allowed (k a)) ->
  keeps (VS := VS) (SS := SS) allowed (bind c k).
Proof.
  intros Hc Hk w. unfold bind. specialize (Hc w).
  destruct (c w) as [[a|e] w1]; simpl in *; [|assumption].
  eapply follows_trans; [eassumption|apply Hk].
Qed.

Lemma keeps_try_except A (c : M VS SS A) (h : exn -> M VS SS A) :
  keeps (VS := VS) (SS := SS) allowed c ->
  (forall e, keeps (VS := VS) (SS := SS) allowed (h e)) ->
  keeps (VS := VS) (SS := SS) allowed (try_except c h).
Proof.
  intros Hc Hh w. unfold try_except. specialize (Hc w).
  destruct (c w) as [[a|e] w1]; simpl in *; [assumption|].
  eapply follows_trans; [eassumption|apply Hh].
Qed.

Lemma follows_event e (w : World VS SS) :
  allowed e = true -> follows allowed w (with_trace (e :: trace w) w).
Proof.
  intros He. constructor; try reflexivity.
  - exists [e]. split; [reflexivity|]. simpl. now rewrite He.
  - intros r o H. exists o. repeat split; auto.
Qed.

Lemma keeps_emit e : allowed e = true -> keeps (VS := VS) (SS := SS) allowed (emit e).
Proof. intros He w. now apply follows_event. Qed.

Lemma keeps_log level msg :
  allowed (Log level msg) = true ->
  keeps (VS := VS) (SS := SS) allowed (log level msg).
Proof. apply keeps_emit. Qed.

Lemma keeps_sleep d :
  allowed (Sleep d) = true -> keeps (VS := VS) (SS := SS) allowed (sleep d).
Proof.
  intros He w. unfold sleep. simpl.
  destruct (follows_event w He) as [T a e p b t h].
  constructor; assumption.
Qed.

Lemma keeps_call_venue A e (f : VS -> result A * VS) :
  allowed e = true -> keeps (VS := VS) (SS := SS) allowed (call_venue e f).
Proof.
  intros He w. unfold call_venue. destruct (f (venue w)) as [r v]. simpl.
  destruct (follows_event w He) as [T a x p b t h].
  constructor; assumption.
Qed.

Lemma keeps_call_store A e (f : SS -> result A * SS) :
  allowed e = true -> keeps (VS := VS) (SS := SS) allowed (call_store e f).
Proof.
  intros He w. unfold call_store. destruct (f (store w)) as [r s]. simpl.
  destruct (follows_event w He) as [T a x p b t h].
  constructor; assumption.
Qed.

Lemma keeps_modify r f :
  (forall o, same_identity o (f o)) -> keeps (VS := VS) (SS := SS) allowed (modify r f).
Proof.
  intros Hf w. unfold modify. simpl.
  constructor; try reflexivity.
  - exists []. split; reflexivity.
  - intros r' o H. simpl. rewrite nth_error_list_update, H.
    destruct (Nat.eqb r r'); simpl; eauto.
    exists o. repeat split; auto.
Qed.

Lemma same_identity_status s o : same_identity o (Order.with_status s o).
Proof. repeat split. Qed.

Lemma same_identity_filled x o : same_identity o (Order.with_filled_amount x o).
Proof. repeat split. Qed.

Lemma same_identity_average x o : same_identity o (Order.with_average_price x o).
Proof. repeat split. Qed.

(** Events outside [f] do not move the count of [f]. *)
Lemma follows_count f (w w' : World VS SS) :
  (forall e, allowed e = true -> f e = false) ->
  follows allowed w w' -> count f (trace w') = count f (trace w).
Proof.
  intros Hf [(new & -> & Hall) _ _ _ _ _ _]. unfold count.
  rewrite filter_app, length_app.
  replace (filter f new) with (@nil event); [reflexivity|].
  induction new as [|e new IH]; simpl in *; [reflexivity|].
  apply andb_prop in Hall as [He Hnew].
  rewrite (Hf e He). auto.
Qed.

End Frames.

Ltac keeps_step :=
  first
    [ apply keeps_ret | apply keeps_raise | apply keeps_lift
    | apply keeps_utcnow | apply keeps_deref
    | apply keeps_bind; [|intros ?]
    | apply keeps_try_except; [|intros ?]
    | apply keeps_log | apply keeps_emit | apply keeps_sleep
    | apply keeps_call_venue | apply keeps_call_store
    | apply keeps_modify
    | apply same_identity_status | apply same_identity_filled
    | apply same_identity_average
    | match goal with
      | |- keeps _ (if ?b then _ else _) => destruct b
      end ].

Ltac keeps_tac := repeat keeps_step; auto.

(** ** OrderManager *)

Section OrderManagerFrames.
Context {VS SS : Type} {exchange : ExchangeInterface VS}
        {state_manager : StateManager SS}.
Import OrderManager.

Variable allowed : event -> bool.
Hypothesis allowed_error : forall msg, allowed (Log ERROR msg) = true.
Hypothesis allowed_save : forall o, allowed (SaveOrder o) = true.

Lemma keeps_state_save_order r : keeps (VS := VS) (SS := SS) allowed (state_save_order r).
Proof. unfold state_save_order. keeps_tac. Qed.


Lemma keeps_monitor_poll r :
  (forall x s, allowed (FetchOrder x s) = true) ->
  keeps (VS := VS) (SS := SS) allowed (monitor_poll r).
Proof.
  intros Hf. unfold monitor_poll, exchange_fetch_order. keeps_tac.
Qed.

Lemma keeps_monitor_loop fuel : forall attempt r,
  (forall x s, allowed (FetchOrder x s) = true) ->
  (forall d, allowed (Sleep d) = true) ->
  keeps (VS := VS) (SS := SS) allowed (monitor_loop fuel attempt r).
Proof.
  induction fuel as [|fuel IH]; intros attempt r Hf Hs; simpl.
  - apply keeps_ret.
  - keeps_tac.
Qed.

End OrderManagerFrames.

Section OrderManagerFacts.
Context {VS SS : Type} {exchange : ExchangeInterface VS}
        {state_manager : StateManager SS}.

(** The body returns only through its [try] block: the order it returns
    is pending, registered under its id, and its monitor was started. *)
Lemma place_order_body_returned symbol side order_type amount price
    (w w' : World VS SS) r :
  OrderManager.place_order_body symbol side order_type amount price w = (Ok r, w') ->
  status_at w' r = Some PENDING /\
  (exists o, nth_error (heap w') r = Some o /\
             dget (Order.id o) (active_orders w') = Some r /\
             exists rest, trace w' = Log INFO "Order placed"
                                     :: CreateTask (Order.id o) :: rest).
Proof.
  unfold OrderManager.place_order_body, bind, uuid4, alloc, try_except.
  simpl.
  unfold OrderManager.exchange_create_order, call_venue. simpl.
  destruct (create_order _ _ _ _ _ (venue w)) as [[response|e] v]; simpl;
    [|discriminate].
  unfold lift.
  destruct (getitem response "id") as [response_id|e]; simpl; [|discriminate].
  unfold OrderManager.state_save_order, bind, deref. simpl.
  rewrite nth_error_list_update, Nat.eqb_refl, nth_error_snoc. simpl.
  unfold call_store. simpl.
  destruct (save_order _ _ (store w)) as [[[]|e] s]; simpl; [|discriminate].
  intros E. inversion E; subst. unfold status_at. simpl.
  rewrite nth_error_list_update, Nat.eqb_refl, nth_error_snoc. simpl.
  split; [reflexivity|]. eexists. split; [reflexivity|]. simpl.
  split; [apply dget_dset_same|]. eexists. reflexivity.
Qed.

(** So [place_order] never returns an order marked FAILED: a failure
    leaves by the exception. *)
Lemma place_order_returns_pending symbol side order_type amount price
    (w w' : World VS SS) r :
  OrderManager.place_order symbol side order_type amount price w
  = (Ok (Some r), w') ->
  status_at w' r = Some PENDING.
Proof.
  unfold OrderManager.place_order, retry_async, retry_run. intros E.
  destruct (retry_loop _ _ _ _ _ _) as [[res w1] outcomes] eqn:Hrun.
  simpl in E. inversion E; subst.
  destruct (retry_loop_returned _ _ _ _ _ _ Hrun) as (w0 & Hcall).
  now apply place_order_body_returned in Hcall.
Qed.



Lemma status_at_modify (w : World VS SS) r f o :
  nth_error (heap w) r = Some o ->
  nth_error (heap (snd (modify r f w))) r = Some (f o).
Proof.
  intros H. unfold modify. simpl.
  now rewrite nth_error_list_update, Nat.eqb_refl, H.
Qed.

Lemma cancel_order_request (w : World VS SS) order_id r o :
  dget order_id (active_orders w) = Some r ->
  nth_error (heap w) r = Some o ->
  exists new,
    trace (snd (OrderManager.cancel_order order_id w)) = new ++ trace w /\
    In (CancelOrder (Order.exchange_order_id o) (Order.symbol o)) new /\
    count is_cancel_order new = 1%nat.
Proof.
  intros Hget Hnth. unfold OrderManager.cancel_order. rewrite Hget.
  unfold try_except, bind, deref at 1. rewrite Hnth.
  unfold OrderManager.exchange_cancel_order, call_venue.
  destruct (cancel_order _ _ (venue w)) as [[b|e] v].
  - unfold modify, OrderManager.state_save_order, bind, deref. simpl.
    rewrite nth_error_list_update, Nat.eqb_refl, Hnth. simpl.
    unfold call_store. simpl.
    destruct (save_order _ _ (store w)) as [[[]|e] s]; simpl.
    + eexists [_; _]. repeat split. right. now left.
    + eexists [_; _; _]. repeat split. right. right. now left.
  - simpl. eexists [_; _]. repeat split. right. now left.
Qed.


(** A cancellation that the venue does not refuse by raising marks the
    order CANCELLED, whatever its status was and whatever the venue
    answered. *)
Lemma cancel_order_marks_cancelled (w : World VS SS) order_id r o answer v :
  dget order_id (active_orders w) = Some r ->
  nth_error (heap w) r = Some o ->
  cancel_order (Order.exchange_order_id o) (Order.symbol o) (venue w)
  = (Ok answer, v) ->
  status_at (snd (OrderManager.cancel_order order_id w)) r = Some CANCELLED.
Proof.
  intros Hget Hnth Hvenue. unfold OrderManager.cancel_order. rewrite Hget.
  unfold try_except, bind, deref at 1. rewrite Hnth.
  unfold OrderManager.exchange_cancel_order, call_venue. rewrite Hvenue.
  unfold modify, OrderManager.state_save_order, bind, deref. simpl.
  rewrite nth_error_list_update, Nat.eqb_refl, Hnth. simpl.
  unfold call_store. simpl.
  destruct (save_order _ _ (store w)) as [[[]|e] s]; simpl;
    unfold status_at; simpl;
    now rewrite nth_error_list_update, Nat.eqb_refl, Hnth.
Qed.

(** One poll never raises, and it reports a [break] only after it has
    marked the order FILLED or CANCELLED. *)
Lemma monitor_poll_returns (w : World VS SS) r o res w1 :
  nth_error (heap w) r = Some o ->
  OrderManager.monitor_poll r w = (res, w1) ->
  exists left_by_break,
    res = Ok left_by_break /\
    (left_by_break = true ->
     status_at w1 r = Some FILLED \/ status_at w1 r = Some CANCELLED).
Proof.
  intros Hnth E.
  unfold OrderManager.monitor_poll, try_except, bind, deref in E.
  rewrite Hnth in E.
  unfold OrderManager.exchange_fetch_order, call_venue in E.
  destruct (fetch_order _ _ (venue w)) as [[reply|e] v]; simpl in E;
    [|inversion E; exists false; split; [reflexivity|discriminate]].
  unfold lift in E.
  destruct (getitem reply "status") as [status|e]; simpl in E;
    [|inversion E; exists false; split; [reflexivity|discriminate]].
  destruct (pyval_is_str status "closed"); simpl in E.
  - destruct (getitem reply "filled") as [filled|e]; simpl in E;
      [|inversion E; exists false; split; [reflexivity|discriminate]].
    destruct (getitem reply "average") as [average|e]; simpl in E;
      [|inversion E; exists false; split; [reflexivity|discriminate]].
    inversion E; subst. exists true. split; [reflexivity|]. intros _. left.
    unfold status_at. simpl.
    now rewrite !nth_error_list_update, Nat.eqb_refl, Hnth.
  - destruct (pyval_is_str status "cancelled"); simpl in E.
    + inversion E; subst. exists true. split; [reflexivity|]. intros _. right.
      unfold status_at. simpl.
      now rewrite !nth_error_list_update, Nat.eqb_refl, Hnth.
    + inversion E; subst. exists false. split; [reflexivity|discriminate].
Qed.

Lemma no_cancel_monitor_poll r :
  keeps (VS := VS) (SS := SS) no_cancel (OrderManager.monitor_poll r).
Proof. apply keeps_monitor_poll; reflexivity. Qed.

Lemma no_cancel_monitor_loop fuel attempt r :
  keeps (VS := VS) (SS := SS) no_cancel (OrderManager.monitor_loop fuel attempt r).
Proof. apply keeps_monitor_loop; reflexivity. Qed.

(** The polling loop ends; when it leaves the order pending, all ten
    attempts were used. *)
Lemma monitor_loop_exit fuel : forall attempt r (w : World VS SS) o res w',
  nth_error (heap w) r = Some o ->
  (OrderManager.monitor_max_attempts < fuel + attempt)%nat ->
  OrderManager.monitor_loop fuel attempt r w = (res, w') ->
  exists used,
    res = Ok used /\
    (status_at w' r = Some PENDING ->
     used = Nat.max attempt OrderManager.monitor_max_attempts).
Proof.
  unfold OrderManager.monitor_max_attempts.
  induction fuel as [|fuel IH]; intros attempt r w o res w' Hnth Hfuel E;
    simpl in E.
  - inversion E; subst. exists attempt. split; [reflexivity|]. intros _. lia.
  - unfold bind, deref in E. rewrite Hnth in E.
    unfold OrderManager.monitor_max_attempts in E.
    destruct (Nat.ltb_spec attempt 10) as [Hlt|Hge]; simpl in E.
    2: { inversion E; subst. exists attempt. split; [reflexivity|].
         intros _. lia. }
    destruct (OrderStatus_eqb (Order.status o) PENDING) eqn:Hst; simpl in E.
    2: { inversion E; subst. exists attempt. split; [reflexivity|].
         unfold status_at. rewrite Hnth. simpl. intros H. inversion H as [H1].
         rewrite H1 in Hst. discriminate. }
    pose proof (no_cancel_monitor_poll r w) as Hstep.
    destruct (OrderManager.monitor_poll r w) as [res1 w1] eqn:Epoll.
    destruct (monitor_poll_returns w r Hnth Epoll) as (brk & -> & Hbrk).
    simpl in Hstep.
    destruct brk; simpl in E.
    + inversion E; subst. exists attempt. split; [reflexivity|].
      intros H. destruct (Hbrk eq_refl) as [H1|H1]; congruence.
    + destruct (f_heap Hstep r Hnth) as (o1 & Hnth1 & _).
      unfold sleep in E. simpl in E.
      destruct (IH (attempt + 1)%nat r
                  (with_clock (clock w1 + 2) (with_trace (Sleep 2 :: trace w1) w1))
                  o1 res w' Hnth1) as (used & Hused & Hpending);
        [lia|exact E|].
      exists used. split; [exact Hused|].
      intros H. rewrite (Hpending H). lia.
Qed.

(** The monitor leaves an order that is not pending as it is: no poll,
    no cancellation, same status. *)
Lemma monitor_leaves_terminal (w : World VS SS) r o :
  nth_error (heap w) r = Some o ->
  Order.status o <> PENDING ->
  status_at (snd (OrderManager._monitor_order r w)) r = Some (Order.status o) /\
  count is_fetch_order (trace (snd (OrderManager._monitor_order r w)))
  = count is_fetch_order (trace w) /\
  count is_cancel_order (trace (snd (OrderManager._monitor_order r w)))
  = count is_cancel_order (trace w).
Proof.
  intros Hnth Hst.
  assert (Hneq : OrderStatus_eqb (Order.status o) PENDING = false)
    by (destruct (Order.status o); try reflexivity; congruence).
  unfold OrderManager._monitor_order, bind. simpl.
  unfold bind, deref. rewrite Hnth. rewrite Hneq. simpl.
  unfold OrderManager.state_save_order, bind, deref, call_store. rewrite Hnth.
  destruct (save_order _ _ (store w)) as [[[]|e] s]; simpl;
    unfold status_at; simpl; rewrite ?Hnth, ?Hneq; simpl; rewrite ?Hnth;
    repeat split.
Qed.

(** The monitor, end to end. After the polling loop: if the order is
    still pending (all ten attempts used) and the write to the store
    succeeds, exactly one cancellation request is sent; if the write
    raises, none is sent; if the order is in another state, none is
    sent. *)
Lemma monitor_cancel_requests (w : World VS SS) r o res1 w1 :
  nth_error (heap w) r = Some o ->
  dget (Order.id o) (active_orders w) = Some r ->
  OrderManager.monitor_loop (S OrderManager.monitor_max_attempts) 0 r w
  = (res1, w1) ->
  let sent := count is_cancel_order
                (trace (snd (OrderManager._monitor_order r w))) in
  let before := count is_cancel_order (trace w) in
  (status_at w1 r = Some PENDING ->
   res1 = Ok OrderManager.monitor_max_attempts /\
   (fst (OrderManager.state_save_order r w1) = Ok tt -> sent = S before) /\
   (forall e, fst (OrderManager.state_save_order r w1) = Raise e ->
      sent = before)) /\
  (forall s, status_at w1 r = Some s -> s <> PENDING -> sent = before).
Proof.
  intros Hnth Hreg E.
  pose proof (no_cancel_monitor_loop (S OrderManager.monitor_max_attempts) 0 r w)
    as Hstep.
  rewrite E in Hstep. simpl in Hstep.
  assert (Hfuel : (OrderManager.monitor_max_attempts
                   < S OrderManager.monitor_max_attempts + 0)%nat) by lia.
  destruct (monitor_loop_exit _ _ _ _ Hnth Hfuel E) as (used & Hres & Hused).
  subst res1.
  assert (Hcount : count is_cancel_order (trace w1)
                   = count is_cancel_order (trace w)).
  { apply (follows_count (allowed := no_cancel)); [|exact Hstep].
    intros e He. unfold no_cancel in He. now apply negb_true_iff in He. }
  destruct (f_heap Hstep r Hnth) as (o1 & Hnth1 & Hid & _).
  pose proof (f_active Hstep) as Hactive.
  assert (Hm : OrderManager._monitor_order r w
               = (OrderManager.state_save_order r ;;;
                  order <- deref r ;;
                  if OrderStatus_eqb (Order.status order) PENDING
                     && (OrderManager.monitor_max_attempts <=? used)%nat
                  then OrderManager.cancel_order (Order.id order) ;;; ret tt
                  else ret tt) w1).
  { unfold OrderManager._monitor_order. unfold bind at 1. now rewrite E. }
  cbv zeta. rewrite Hm. clear Hm.
  unfold OrderManager.state_save_order, bind, deref, call_store.
  rewrite Hnth1.
  unfold status_at. rewrite Hnth1. simpl.
  destruct (save_order (Order.id o1) o1 (store w1)) as [[[]|e] s1]; simpl;
    rewrite ?Hnth1.
  - destruct (OrderStatus_eqb (Order.status o1) PENDING) eqn:Hst.
    + split.
      * intros Hp.
        assert (Hten : used = OrderManager.monitor_max_attempts).
        { rewrite Hused; [reflexivity|]. unfold status_at. now rewrite Hnth1. }
        subst used. split; [reflexivity|]. split; [|discriminate].
        intros _. simpl.
        match goal with
        | |- context [OrderManager.cancel_order _ ?w2] =>
            destruct (cancel_order_request w2 (Order.id o1) (r := r) (o := o1))
              as (new & T & _ & Hone)
        end.
        { simpl. now rewrite Hactive, Hid. }
        { exact Hnth1. }
        destruct (OrderManager.cancel_order _ _) as [[b|e] w3]; simpl in *;
          rewrite T; unfold count in *;
          rewrite filter_app, length_app, Hone; simpl; now rewrite Hcount.
      * intros st Hs Hne. inversion Hs as [H1]. rewrite H1 in Hst.
        destruct st; try discriminate. congruence.
    + split.
      * intros Hp. inversion Hp as [H1]. rewrite H1 in Hst. discriminate.
      * intros st _ _. simpl. exact Hcount.
  - split.
    + intros Hp.
      assert (Hten : used = OrderManager.monitor_max_attempts).
      { rewrite Hused; [reflexivity|]. unfold status_at. now rewrite Hnth1. }
      subst used. split; [reflexivity|]. split; [discriminate|].
      intros _ _. exact Hcount.
    + intros st _ _. exact Hcount.
Qed.

End OrderManagerFacts.

(** *** Concrete runs of the order life cycle *)

(** C2: a venue that rejects an order for insufficient balance. The
    rejection is not told apart from a transient fault: [place_order]
    submits the order three times, waits twice, and then raises the
    venue's error instead of returning an order marked FAILED; no monitor
    is started. [RetryStrategies.order_retry], which classifies this error
    as not to be retried, is not the policy [place_order] is decorated
    with. *)
Theorem place_order_rejection_retried_then_raised :
  let run :=
    OrderManager.place_order "ETH/USDT:USDT" "buy" "limit" 1 (Some 2500)
      (Scripted.world rejecting_venue quiet_store) in
  fst run = Raise insufficient_balance /\
  count is_create_order (trace (snd run)) = 3%nat /\
  count is_sleep (trace (snd run)) = 2%nat /\
  count is_create_task (trace (snd run)) = 0%nat /\
  active_orders (snd run) = [] /\
  should_retry OrderManager.place_order_policy = None /\
  should_retry_order insufficient_balance = false.
Proof. repeat split. Qed.

(** C3: an order that the monitor has marked FILLED is marked CANCELLED
    by a later [cancel_order] and by [cancel_all_orders] (hence by
    [shutdown]): both cancel whatever the status is, where
    [_cancel_symbol_orders] keeps to the pending orders. *)
Theorem filled_order_becomes_cancelled :
  let w := placed_and_monitored filling_venue quiet_store in
  status_at w 0%nat = Some FILLED /\
  status_at (snd (OrderManager.cancel_order "a" w)) 0%nat = Some CANCELLED /\
  status_at (snd (TradingExecutor.cancel_all_orders w)) 0%nat = Some CANCELLED /\
  status_at (snd (TradingExecutor.shutdown w)) 0%nat = Some CANCELLED /\
  status_at (snd (TradingExecutor._cancel_symbol_orders "ETH/USDT:USDT" w))
    0%nat
  = Some FILLED.
Proof. repeat split. Qed.

(** C8: the venue reports the order as open at each of the ten polls, so
    the budget runs out with the order pending; the write to the store
    that precedes the cancellation fails, the monitor ends with that
    error and no cancellation request is sent. With a store that accepts
    the write, one request is sent. *)
Theorem monitor_skips_cancel_when_save_fails :
  let run v s :=
    (r <- OrderManager.place_order "ETH/USDT:USDT" "buy" "limit" 1 (Some 2500) ;;
     match r with
     | Some order => OrderManager._monitor_order order
     | None => ret tt
     end) (Scripted.world v s) in
  fst (run quiet_venue failing_store)
  = Raise (mkExn ConnectionError "Error connecting to Redis") /\
  count is_fetch_order (trace (snd (run quiet_venue failing_store))) = 10%nat /\
  status_at (snd (run quiet_venue failing_store)) 0%nat = Some PENDING /\
  count is_cancel_order (trace (snd (run quiet_venue failing_store))) = 0%nat /\
  count is_cancel_order (trace (snd (run quiet_venue quiet_store))) = 1%nat.
Proof. repeat split. Qed.

(** ** PositionManager *)

Section PositionFacts.
Context {VS SS : Type} {exchange : ExchangeInterface VS}
        {state_manager : StateManager SS}.
Import PositionManager.

Lemma close_position_open (w : World VS SS) symbol exit_price p :
  dget symbol (positions w) = Some p ->
  Position.status p <> "closed" ->
  let p' := closed p exit_price (clock w) in
  positions (snd (close_position symbol exit_price w))
  = dset symbol p' (positions w) /\
  (forall r, fst (close_position symbol exit_price w) = Ok r -> r = p') /\
  (fst (save_position symbol p' (store w)) = Ok tt ->
   fst (close_position symbol exit_price w) = Ok p').
Proof.
  intros Hget Hst. unfold close_position. rewrite Hget.
  destruct (String.eqb_spec (Position.status p) "closed"); [contradiction|].
  unfold bind, utcnow, set_position, state_save_position, call_store, log,
    emit, ret. simpl.
  destruct (save_position symbol _ (store w)) as [[[]|e] s']; simpl.
  - repeat split; congruence.
  - repeat split; congruence.
Qed.

(** C5: [close_position] fails when the symbol has no open position;
    otherwise it marks the position closed and sets
    pnl = (exit - entry) * amount for a long and (entry - exit) * amount
    for a short; a long 100 -> 110 of size 2 gives 20, and so does a short
    100 -> 90 of size 2. *)
Theorem close_position_pnl (w : World VS SS) (symbol : string) (exit_price : Q) :
  ((dget symbol (positions w) = None \/
    exists p, dget symbol (positions w) = Some p /\ Position.status p = "closed") ->
   exists e, close_position symbol exit_price w = (Raise e, w))
  /\
  (forall p, dget symbol (positions w) = Some p -> Position.status p = "open" ->
     exists p',
       dget symbol (positions (snd (close_position symbol exit_price w))) = Some p' /\
       (forall r, fst (close_position symbol exit_price w) = Ok r -> r = p') /\
       Position.status p' = "closed" /\
       Position.exit_price p' = Some exit_price /\
       (Position.side p = "long" ->
          Position.pnl p'
          = (exit_price - Position.entry_price p) * Position.amount p) /\
       (Position.side p = "short" ->
          Position.pnl p'
          = (Position.entry_price p - exit_price) * Position.amount p) /\
       (Position.side p = "long" -> Position.entry_price p == 100 ->
          Position.amount p == 2 -> exit_price == 110 -> Position.pnl p' == 20) /\
       (Position.side p = "short" -> Position.entry_price p == 100 ->
          Position.amount p == 2 -> exit_price == 90 -> Position.pnl p' == 20)).
Proof.
  split.
  - intros [Hnone | (p & Hget & Hst)]; unfold close_position.
    + rewrite Hnone. eexists. reflexivity.
    + rewrite Hget, Hst. eexists. reflexivity.
  - intros p Hget Hopen.
    assert (Hst : Position.status p <> "closed") by (rewrite Hopen; discriminate).
    destruct (close_position_open w symbol exit_price Hget Hst) as (Hpos & Hret & _).
    exists (closed p exit_price (clock w)).
    rewrite Hpos, dget_dset_same.
    split; [reflexivity|]. split; [exact Hret|].
    unfold closed. simpl.
    split; [reflexivity|]. split; [reflexivity|].
    repeat split.
    + intros ->. reflexivity.
    + intros ->. reflexivity.
    + intros -> He Ha Hx. simpl. rewrite He, Ha, Hx. reflexivity.
    + intros -> He Ha Hx. simpl. rewrite He, Ha, Hx. reflexivity.
Qed.

Lemma sync_one_keeps_local ex_pos (w : World VS SS) :
  keeps_local w (snd (sync_one ex_pos w)).
Proof.
  intros s p Hget. unfold sync_one, bind, lift.
  destruct (getitem ex_pos "symbol") as [sym|e]; simpl; [|exact Hget].
  destruct (py_str sym) as [sym'|e]; simpl; [|exact Hget].
  unfold PyDict.mem.
  destruct (dget sym' (positions w)) eqn:Hsym; simpl; [exact Hget|].
  destruct (getitem ex_pos "contracts") as [c|e]; simpl; [|exact Hget].
  destruct (py_float c) as [contracts|e]; simpl; [|exact Hget].
  destruct (Qlt_bool 0 contracts); simpl; [|exact Hget].
  destruct (getitem ex_pos "side") as [side|e]; simpl; [|exact Hget].
  destruct (getitem ex_pos "markPrice") as [mark|e]; simpl; [|exact Hget].
  destruct (py_float mark) as [entry|e]; simpl; [|exact Hget].
  rewrite dget_dset_other; [exact Hget|]. congruence.
Qed.

Lemma sync_loop_keeps_local exchange_positions : forall w : World VS SS,
  keeps_local w (snd (sync_loop exchange_positions w)).
Proof.
  induction exchange_positions as [|ex_pos rest IH]; intros w s p Hget; simpl;
    [exact Hget|].
  unfold bind. pose proof (sync_one_keeps_local ex_pos w s Hget) as H1.
  destruct (sync_one ex_pos w) as [[[]|e] w1]; simpl in *; [|exact H1].
  now apply IH.
Qed.

(** The part of C9 that holds for every venue reply: [sync_positions]
    neither modifies nor removes a local position. *)
Lemma sync_positions_keeps_local (w : World VS SS) :
  keeps_local w (snd (sync_positions w)).
Proof.
  intros s p Hget. unfold sync_positions, try_except, bind, call_venue.
  destruct (fetch_positions (venue w)) as [[l|e] v]; simpl; [|exact Hget].
  pose proof (sync_loop_keeps_local l
                (with_venue v (with_trace (FetchPositions :: trace w) w)) s Hget)
    as H1.
  destruct (sync_loop l _) as [[[]|e] w1]; simpl in *; exact H1.
Qed.

(** On such a record, for a symbol unknown locally and a positive size,
    one open position is made at the mark price and one warning logged. *)
Lemma sync_one_reconstructs ex_pos sym side contracts mark_price (w : World VS SS) :
  has_fields ex_pos sym side contracts mark_price ->
  dget sym (positions w) = None ->
  0 < contracts ->
  sync_one ex_pos w
  = (Ok tt,
     with_positions
       (dset sym
          (Position.new sym (if pyval_is_str side "long" then "long" else "short")
             mark_price contracts (clock w))
          (positions w))
       (with_trace (Log WARNING ("Found untracked position: " ++ sym) :: trace w) w)).
Proof.
  intros (Hsym & Hside & Hc & Hm) Hnew Hpos.
  apply Qlt_bool_iff in Hpos.
  unfold sync_one, bind, lift, getitem. rewrite Hsym. simpl.
  unfold PyDict.mem. rewrite Hnew. cbv beta iota.
  rewrite Hc. simpl. rewrite Hpos. simpl.
  rewrite Hside, Hm. reflexivity.
Qed.

(** A symbol already known, or a size that is not positive, changes
    nothing. *)
Lemma sync_one_skips ex_pos sym side contracts mark_price (w : World VS SS) :
  has_fields ex_pos sym side contracts mark_price ->
  (dget sym (positions w) <> None \/ contracts <= 0) ->
  sync_one ex_pos w = (Ok tt, w).
Proof.
  intros (Hsym & Hside & Hc & Hm) Hskip.
  unfold sync_one, bind, lift, getitem. rewrite Hsym. simpl.
  unfold PyDict.mem.
  destruct (dget sym (positions w)) eqn:Hknown; [reflexivity|].
  destruct Hskip as [H|H]; [congruence|].
  cbv beta iota. rewrite Hc. simpl. apply Qlt_bool_false_iff in H. now rewrite H.
Qed.

End PositionFacts.

Lemma close_position_pnl_witness :
  (exists p',
     dget "ETH" (positions (snd (PositionManager.close_position "ETH" 110 long_world)))
     = Some p'
     /\ Position.status p' = "closed" /\ Position.pnl p' == 20) /\
  (exists p',
     dget "ETH" (positions (snd (PositionManager.close_position "ETH" 90 short_world)))
     = Some p'
     /\ Position.status p' = "closed" /\ Position.pnl p' == 20) /\
  (exists e, PositionManager.close_position "BTC" 110 long_world = (Raise e, long_world)).
Proof.
  split; [|split].
  - destruct (proj2 (close_position_pnl long_world "ETH" 110) _ eq_refl eq_refl)
      as (p' & Hget & _ & Hst & _ & _ & _ & Hlong & _).
    exists p'. repeat split; try assumption.
    apply Hlong; reflexivity.
  - destruct (proj2 (close_position_pnl short_world "ETH" 90) _ eq_refl eq_refl)
      as (p' & Hget & _ & Hst & _ & _ & _ & _ & Hshort).
    exists p'. repeat split; try assumption.
    apply Hshort; reflexivity.
  - apply (proj1 (close_position_pnl long_world "BTC" 110)). left. reflexivity.
Defined.

Example close_long_returns_20 :
  option_map Position.pnl
    (match fst (PositionManager.close_position "ETH" 110 long_world) with
     | Ok p => Some p | Raise _ => None end) = Some 20.
Proof. reflexivity. Qed.

(** C9: the venue reports one open position and none is known locally.
    [sync_positions] logs the warning, then fails on the key
    ['markPrice'], which the repository's exchanges spell ['mark_price'];
    the error is caught and no position is reconstructed. Had the record
    carried ['markPrice'], the position would have been reconstructed at
    that price. *)
Theorem sync_positions_misses_mark_price :
  let w := Scripted.world (reporting_venue venue_position) quiet_store in
  let w' := snd (PositionManager.sync_positions w) in
  positions w = [] /\
  positions w' = [] /\
  trace w' = [Log ERROR "Failed to sync positions";
              Log WARNING "Found untracked position: ETH/USDT:USDT";
              FetchPositions] /\
  positions
    (snd (PositionManager.sync_positions
            (Scripted.world
               (reporting_venue (("markPrice", PNum 2500) :: venue_position))
               quiet_store)))
  = [("ETH/USDT:USDT", Position.new "ETH/USDT:USDT" "long" 2500 1 0)].
Proof. repeat split. Qed.

(** ** RiskManager: the four checks *)

Section RiskManagerFacts.
Context {VS SS : Type} {exchange : ExchangeInterface VS}
        {state_manager : StateManager SS}.
Import RiskManager.

Variables (limits : RiskLimits) (symbol : string) (amount : Q).
Variable w : World VS SS.
Variables (stored : list (dict pyval)) (s1 : SS) (open_positions : list (dict pyval)).
Hypothesis store_positions : get_all_positions (store w) = (Ok stored, s1).
Hypothesis stored_open : open_only stored = Ok open_positions.

(** First check: the number of open positions. *)
Lemma can_open_position_count_check globals :
  (max_positions limits <= Z.of_nat (List.length open_positions))%Z ->
  can_open_position_in globals limits symbol amount w
  = (Ok false,
     with_trace (Log WARNING "Max positions limit reached"
                 :: GetAllPositions :: trace w) (with_store s1 w)).
Proof.
  intros Hcount. unfold can_open_position_in, bind, call_store, lift.
  rewrite store_positions. simpl. rewrite stored_open.
  destruct (Z.leb_spec (max_positions limits)
              (Z.of_nat (List.length open_positions))); [reflexivity|lia].
Qed.

(** Second check, reached when the first passes: the size. *)
Lemma can_open_position_size_check globals :
  (Z.of_nat (List.length open_positions) < max_positions limits)%Z ->
  max_position_size limits < amount ->
  can_open_position_in globals limits symbol amount w
  = (Ok false,
     with_trace (Log WARNING "Position size exceeds limit"
                 :: GetAllPositions :: trace w) (with_store s1 w)).
Proof.
  intros Hcount Hsize. unfold can_open_position_in, bind, call_store, lift.
  rewrite store_positions. simpl. rewrite stored_open.
  destruct (Z.leb_spec (max_positions limits)
              (Z.of_nat (List.length open_positions))); [lia|].
  apply Qlt_bool_iff in Hsize. rewrite Hsize. reflexivity.
Qed.

(** Third check: as the module stands, every call that passes the first
    two checks stops here with [NameError]. *)
Lemma can_open_position_needs_datetime :
  (Z.of_nat (List.length open_positions) < max_positions limits)%Z ->
  amount <= max_position_size limits ->
  fst (can_open_position limits symbol amount w)
  = Raise (mkExn NameError "datetime").
Proof.
  intros Hcount Hsize.
  unfold can_open_position, can_open_position_in, bind, call_store, lift.
  rewrite store_positions. simpl. rewrite stored_open.
  destruct (Z.leb_spec (max_positions limits)
              (Z.of_nat (List.length open_positions))); [lia|].
  apply Qlt_bool_false_iff in Hsize. rewrite Hsize. reflexivity.
Qed.

(** With [datetime] bound, the claim holds: when the four conditions are
    met the answer is [True]. *)
Lemma can_open_position_in_true globals trades s2 daily_pnl balance v1 free
    usdt_balance ticker v2 last :
  existsb (String.eqb "datetime") globals = true ->
  (Z.of_nat (List.length open_positions) < max_positions limits)%Z ->
  amount <= max_position_size limits ->
  get_trades_since (start_of_day (clock w)) s1 = (Ok trades, s2) ->
  sum_pnl 0 trades = Ok daily_pnl ->
  - max_daily_loss limits <= daily_pnl ->
  fetch_balance (venue w) = (Ok balance, v1) ->
  getitem balance "free" = Ok free ->
  getitem free "USDT" = Ok usdt_balance ->
  fetch_ticker symbol v1 = (Ok ticker, v2) ->
  getitem ticker "last" = Ok last ->
  last * amount / 10 <= usdt_balance * (9 # 10) ->
  fst (can_open_position_in globals limits symbol amount w) = Ok true.
Proof.
  intros Hdt Hcount Hsize Htrades Hsum Hloss Hbal Hfree Husdt Htick Hlast Hmargin.
  unfold can_open_position_in, bind, call_store, lift.
  rewrite store_positions. simpl. rewrite stored_open.
  destruct (Z.leb_spec (max_positions limits)
              (Z.of_nat (List.length open_positions))); [lia|].
  apply Qlt_bool_false_iff in Hsize. rewrite Hsize.
  unfold _calculate_daily_pnl, load_global, bind, utcnow, call_store, lift, ret.
  rewrite Hdt. simpl. rewrite Htrades. simpl. rewrite Hsum.
  apply Qlt_bool_false_iff in Hloss. rewrite Hloss.
  unfold call_venue. simpl. rewrite Hbal. simpl. rewrite Hfree, Husdt.
  unfold _calculate_required_margin, bind, call_venue, lift, ret. simpl.
  rewrite Htick. simpl. rewrite Hlast.
  apply Qlt_bool_false_iff in Hmargin. rewrite Hmargin. reflexivity.
Qed.

End RiskManagerFacts.

(** C1: no position is open, the size is within the limit, nothing was
    lost today and the margin of 125 is far below 0.9 * 10000; yet
    [can_open_position] raises [NameError]: [_calculate_daily_pnl] reads
    [datetime], a name the module never imports. In a module that binds
    the name the same call returns [True]. *)
Theorem can_open_position_raises_name_error :
  let w := Scripted.world quiet_venue quiet_store in
  (1 # 2) <= RiskManager.max_position_size sample_limits /\
  (0 < RiskManager.max_positions sample_limits)%Z /\
  - RiskManager.max_daily_loss sample_limits < 0 /\
  2500 * (1 # 2) / 10 <= (9 # 10) * 10000 /\
  fst (RiskManager.can_open_position sample_limits "ETH/USDT:USDT" (1 # 2) w)
  = Raise (mkExn NameError "datetime") /\
  fst (RiskManager.can_open_position_in ("datetime" :: RiskManager.module_globals)
         sample_limits "ETH/USDT:USDT" (1 # 2) w)
  = Ok true.
Proof. repeat split; try reflexivity; vm_compute; discriminate. Qed.

(** ** TradingExecutor: routing a signal *)

Section ExecuteSignalFacts.
Context {VS SS : Type} {exchange : ExchangeInterface VS}
        {state_manager : StateManager SS}.
Import TradingExecutor.

(** C10: [execute_signal] never raises; it returns [None] when the
    confidence is below [min_confidence], when the kind is NEUTRAL and
    when the routed handler raises, and the handler's own result
    otherwise. *)
Theorem execute_signal_never_raises (config : Config) (handlers : Handlers)
    (s : TradingSignal) (w : World VS SS) :
  let w1 := snd (log INFO "Executing signal" w) in
  exists res,
    fst (execute_signal config handlers s w) = Ok res /\
    (confidence s < min_confidence config -> res = None) /\
    (signal s = NEUTRAL -> res = None) /\
    (forall h, ~ confidence s < min_confidence config ->
       routed handlers (signal s) = Some h ->
       (forall e, fst (h s w1) = Raise e -> res = None) /\
       (forall order, fst (h s w1) = Ok order -> res = order)).
Proof.
  simpl. unfold execute_signal, try_except, bind, log, emit. simpl.
  destruct (Qlt_bool (confidence s) (min_confidence config)) eqn:Hc.
  - apply Qlt_bool_iff in Hc. simpl. exists None.
    repeat split; auto; intros; contradiction.
  - assert (Hge : ~ confidence s < min_confidence config).
    { intros Hlt. apply Qlt_bool_iff in Hlt. congruence. }
    destruct (signal s) eqn:Hk; simpl.
    5: { exists None. split; [reflexivity|]. split; [reflexivity|].
         split; [reflexivity|]. intros h _ Hh. discriminate. }
    all: match goal with
         | |- context [fst (let (_, _) := ?c in _)] =>
             destruct c as [[order|e] w2] eqn:Hrun
         end; simpl;
      [ exists order | exists None ];
      (split; [reflexivity|]);
      (split; [intros; contradiction|]);
      (split; [intros; discriminate|]);
      intros h _ Hh; inversion Hh; subst h; rewrite Hrun; simpl;
      split; intros; congruence.
Qed.

End ExecuteSignalFacts.

Lemma execute_signal_never_raises_witness :
  sample_run LONG_ENTRY (5 # 10) = Ok None /\
  sample_run NEUTRAL (9 # 10) = Ok None /\
  sample_run LONG_EXIT (9 # 10) = Ok None /\
  sample_run LONG_ENTRY (9 # 10) = Ok (Some 0%nat).
Proof.
  unfold sample_run.
  split; [|split; [|split]].
  - destruct (execute_signal_never_raises sample_config sample_handlers
                (sample_signal LONG_ENTRY (5 # 10))
                (Scripted.world quiet_venue quiet_store))
      as (res & Hrun & Hlow & _).
    rewrite Hrun, Hlow; reflexivity.
  - destruct (execute_signal_never_raises sample_config sample_handlers
                (sample_signal NEUTRAL (9 # 10))
                (Scripted.world quiet_venue quiet_store))
      as (res & Hrun & _ & Hn & _).
    rewrite Hrun, Hn; reflexivity.
  - destruct (execute_signal_never_raises sample_config sample_handlers
                (sample_signal LONG_EXIT (9 # 10))
                (Scripted.world quiet_venue quiet_store))
      as (res & Hrun & _ & _ & Hh).
    rewrite Hrun. f_equal.
    refine (proj1 (Hh _ _ eq_refl) _ eq_refl).
    intros Hlt. vm_compute in Hlt. discriminate.
  - destruct (execute_signal_never_raises sample_config sample_handlers
                (sample_signal LONG_ENTRY (9 # 10))
                (Scripted.world quiet_venue quiet_store))
      as (res & Hrun & _ & _ & Hh).
    rewrite Hrun. f_equal.
    refine (proj2 (Hh _ _ eq_refl) _ eq_refl).
    intros Hlt. vm_compute in Hlt. discriminate.
Defined.

(** ** TradingExecutor: shutdown and flattening *)

Section ShutdownFacts.
Context {VS SS : Type} {exchange : ExchangeInterface VS}
        {state_manager : StateManager SS}.
Import TradingExecutor.


Section Allowed.
Variable allowed : event -> bool.
Hypothesis allowed_error : forall msg, allowed (Log ERROR msg) = true.
Hypothesis allowed_save : forall o, allowed (SaveOrder o) = true.
Hypothesis allowed_cancel : forall x s, allowed (CancelOrder x s) = true.


End Allowed.







End ShutdownFacts.





(** * Further properties *)

(** ** Quotients *)

Lemma py_div_ok x y : ~ y == 0 -> py_div x y = Ok (x / y).
Proof.
  intros H. unfold py_div. destruct (Qeq_bool y 0) eqn:E; [|reflexivity].
  apply Qeq_bool_iff in E. contradiction.
Qed.

Lemma py_div_zero x y :
  y == 0 -> py_div x y = Raise (mkExn ZeroDivisionError "float division by zero").
Proof.
  intros H. unfold py_div. apply Qeq_bool_iff in H. now rewrite H.
Qed.

(** ** Order books *)

Module OrderBookFacts.
Import OrderBookMethods OrderBookManager.

Lemma fill_levels_done levels r c :
  r <= 0 -> fill_levels levels r c = (c, r).
Proof.
  intros Hr. destruct levels as [|level rest]; simpl; [reflexivity|].
  apply Qle_bool_iff in Hr. now rewrite Hr.
Qed.

(** [min(a, b)] is [a] itself unless [b] is smaller. *)
Lemma Qmin_first a b : a <= b -> Qmin a b = a.
Proof.
  intros H. unfold Qmin, GenericMinMax.gmin.
  destruct (a ?= b) eqn:E; try reflexivity.
  apply Qgt_alt in E. lra.
Qed.

(** X1: [get_execution_price] answers [None] without a cached book,
    whatever the amount, and with a cached book whose side to walk (the
    asks for a buy, the bids otherwise) is empty, for a positive
    amount. *)
Theorem get_execution_price_no_liquidity (books : dict OrderBook)
    (symbol side : string) (amount : Q) :
  (dget symbol books = None ->
   get_execution_price books symbol side amount = Ok None) /\
  (forall book,
     dget symbol books = Some book ->
     levels_for side book = [] ->
     0 < amount ->
     get_execution_price books symbol side amount = Ok None).
Proof.
  split.
  - intros H. unfold get_execution_price. now rewrite H.
  - intros book Hbook Hlevels Hpos.
    unfold get_execution_price. rewrite Hbook, Hlevels. cbn [fill_levels].
    apply Qlt_bool_iff in Hpos. now rewrite Hpos.
Qed.

Lemma get_execution_price_no_liquidity_witness :
  get_execution_price (order_books shutdown_world) "ETH/USDT:USDT" "buy" 1
  = Ok None /\
  get_execution_price (order_books no_bid_world) "ETH/USDT:USDT" "sell" 1
  = Ok None.
Proof.
  split.
  - apply (proj1 (get_execution_price_no_liquidity (order_books shutdown_world)
                    "ETH/USDT:USDT" "buy" 1)).
    reflexivity.
  - apply (proj2 (get_execution_price_no_liquidity (order_books no_bid_world)
                    "ETH/USDT:USDT" "sell" 1)
             (mkBook "ETH/USDT:USDT" [] [mkLevel 2501 1] 0));
      reflexivity.
Defined.

(** X2: when the best level of the side walked holds a positive amount
    by itself, the loop fills the whole amount there and is left at the
    next level, and the answer is the cost of the amount at the best
    price, divided by the amount, as the code computes it. *)
Theorem get_execution_price_best_level (books : dict OrderBook)
    (symbol side : string) (amount : Q) (book : OrderBook)
    (best : OrderBookLevel) (rest : list OrderBookLevel) :
  dget symbol books = Some book ->
  levels_for side book = best :: rest ->
  0 < amount ->
  amount <= quantity best ->
  fill_levels (levels_for side book) amount 0
  = (0 + amount * level_price best, amount - amount) /\
  get_execution_price books symbol side amount
  = Ok (Some ((0 + amount * level_price best) / amount)).
Proof.
  intros Hbook Hlevels Hpos Hfit.
  assert (Hloop : fill_levels (levels_for side book) amount 0
                  = (0 + amount * level_price best, amount - amount)).
  { rewrite Hlevels. cbn [fill_levels].
    assert (Qle_bool amount 0 = false) as ->.
    { destruct (Qle_bool amount 0) eqn:E; [|reflexivity].
      apply Qle_bool_iff in E. lra. }
    rewrite (Qmin_first Hfit). apply fill_levels_done. lra. }
  split; [exact Hloop|].
  unfold get_execution_price. rewrite Hbook. cbv zeta. rewrite Hloop.
  assert (Qlt_bool 0 (amount - amount) = false) as ->
    by (apply Qlt_bool_false_iff; lra).
  rewrite py_div_ok by lra. reflexivity.
Qed.

Lemma get_execution_price_best_level_witness :
  get_execution_price (order_books book_world) "ETH/USDT:USDT" "buy" 1
  = Ok (Some ((0 + 1 * 2501) / 1)).
Proof.
  assert (Hpos : 0 < 1) by reflexivity.
  assert (Hfit : 1 <= quantity (mkLevel 2501 1)) by (cbn; lra).
  apply (proj2 (@get_execution_price_best_level (order_books book_world)
                  "ETH/USDT:USDT" "buy" 1
                  (mkBook "ETH/USDT:USDT"
                     [mkLevel 2499 1; mkLevel 2498 2]
                     [mkLevel 2501 1; mkLevel 2502 2] 0)
                  (mkLevel 2501 1) [mkLevel 2502 2]
                  eq_refl eq_refl Hpos Hfit)).
Defined.

(** X3: with a cached book an amount of zero makes [get_execution_price]
    raise [ZeroDivisionError], and a negative amount gives the price 0:
    the loop is left at once and the empty cost is divided by the
    amount. *)
Theorem get_execution_price_degenerate_amount (books : dict OrderBook)
    (symbol side : string) (amount : Q) (book : OrderBook) :
  dget symbol books = Some book ->
  (amount == 0 ->
   get_execution_price books symbol side amount
   = Raise (mkExn ZeroDivisionError "float division by zero")) /\
  (amount < 0 ->
   exists p, get_execution_price books symbol side amount = Ok (Some p)
             /\ p == 0).
Proof.
  intros Hbook. unfold get_execution_price. rewrite Hbook. cbv zeta.
  split; intros Ha.
  - rewrite fill_levels_done by lra.
    assert (Qlt_bool 0 amount = false) as -> by (apply Qlt_bool_false_iff; lra).
    now rewrite py_div_zero.
  - rewrite fill_levels_done by lra.
    assert (Qlt_bool 0 amount = false) as -> by (apply Qlt_bool_false_iff; lra).
    rewrite py_div_ok by lra.
    eexists. split; [reflexivity|]. field. lra.
Qed.

Lemma get_execution_price_degenerate_amount_witness :
  get_execution_price (order_books book_world) "ETH/USDT:USDT" "sell" 0
  = Raise (mkExn ZeroDivisionError "float division by zero").
Proof.
  assert (Hbook : exists book,
            dget "ETH/USDT:USDT" (order_books book_world) = Some book)
    by (eexists; reflexivity).
  destruct Hbook as (book & Hget).
  apply (proj1 (get_execution_price_degenerate_amount
                  (order_books book_world) "ETH/USDT:USDT" "sell" 0 Hget)).
  reflexivity.
Defined.

End OrderBookFacts.

(** ** Retry decorator: any number of attempts *)

Section RetryBudget.
Context {VS SS A : Type}.
Variable p : retry_policy.
Variable func : M VS SS A.

(** What the wrapper leaves of its own is not marked, so the marked
    events of a run are the calls it made. *)
Lemma retry_loop_marks (mark : event -> bool) fuel :
  counts_calls mark func ->
  forall attempt d (w : World VS SS),
  count mark (trace (snd (fst (retry_loop p func fuel attempt d w))))
  = (count mark (trace w)
     + List.length (snd (retry_loop p func fuel attempt d w)))%nat.
Proof.
  intros (Hlog & Hsleep & Hcall).
  induction fuel as [|fuel IH]; intros attempt d w; cbn [retry_loop].
  - cbn. lia.
  - destruct (max_attempts p <=? attempt)%Z; [cbn; lia|].
    specialize (Hcall w).
    destruct (func w) as [[a|e] w1]; cbn [fst snd] in *;
      [rewrite Hcall; cbn; lia|].
    destruct (negb (catches p e)); [cbn; rewrite Hcall; lia|].
    destruct (refuses p e); [cbn; rewrite Hcall; lia|].
    destruct (max_attempts p <=? attempt + 1)%Z.
    + cbn. unfold count in *. cbn. rewrite Hlog, Hcall. lia.
    + specialize (IH (attempt + 1)%Z (Qmin (d * backoff p) (max_delay p))
                     (snd (backoff_pause p d w1))).
      destruct (retry_loop p func fuel _ _ _) as [[r w2] outs].
      cbn [fst snd List.length] in *. rewrite IH.
      unfold count in *. cbn. rewrite Hsleep, Hlog, Hcall. lia.
Qed.

(** X4: the wrapper never calls the function more than [max_attempts]
    times, whatever the policy. The calls are counted in the trace, by
    the events that the function leaves and the wrapper does not; they
    are as many as the outcomes the loop went through. With
    [max_attempts] at or below zero the function is not called at all and
    the wrapper returns [None], leaving the world as it was. *)
Theorem retry_async_call_budget (mark : event -> bool) (w : World VS SS) :
  counts_calls mark func ->
  (Z.of_nat (count mark (trace (snd (retry_async p func w))))
   <= Z.of_nat (count mark (trace w)) + Z.max 0 (max_attempts p))%Z /\
  count mark (trace (snd (retry_async p func w)))
  = (count mark (trace w) + List.length (snd (retry_run p func w)))%nat /\
  ((max_attempts p <= 0)%Z ->
   retry_run p func w = (Ok None, w, [])).
Proof.
  intros Hmark.
  pose proof (retry_loop_marks (Z.to_nat (max_attempts p)) Hmark 0
                (delay p) w) as Hcount.
  fold (retry_run p func w) in Hcount.
  unfold retry_async. cbn [snd].
  split; [|split; [exact Hcount|]].
  - rewrite Hcount.
    destruct (retry_run p func w) as [[r w'] outcomes] eqn:Hrun.
    unfold retry_run in Hrun.
    apply retry_loop_final in Hrun as (_ & _ & Hlen); [|lia].
    cbn [snd]. lia.
  - intros Hle. unfold retry_run.
    destruct (Z.to_nat (max_attempts p)) eqn:E; [reflexivity|lia].
Qed.

(** X5: an error that the policy does not catch, or that its
    [should_retry] refuses, ends the wrapper at the first call: the error
    is raised as it is, there is no second call, no log record and no
    wait. *)
Theorem retry_async_gives_up_at_once (w w1 : World VS SS) (e : exn) :
  (0 < max_attempts p)%Z ->
  func w = (Raise e, w1) ->
  catches p e = false \/ refuses p e = true ->
  retry_run p func w = (Raise e, w1, [Raise e]).
Proof.
  intros Hpos Hcall Hwhy. unfold retry_run.
  destruct (Z.to_nat (max_attempts p)) as [|fuel] eqn:E; [lia|].
  cbn [retry_loop].
  destruct (Z.leb_spec (max_attempts p) 0); [lia|].
  rewrite Hcall.
  destruct (catches p e); simpl; [|reflexivity].
  destruct Hwhy as [Hw|Hw]; [discriminate|]. now rewrite Hw.
Qed.

Lemma clock_backoff_pause d (w : World VS SS) :
  0 <= max_delay p ->
  clock (snd (backoff_pause p d w)) <= clock w + max_delay p.
Proof.
  intros Hdelay.
  unfold backoff_pause, bind, random_uniform, log, emit, sleep. simpl.
  pose proof (Q.le_min_r (d + (0 + (d * (1 # 10) - 0)
                                * random_source w (random_count w)))
                         (max_delay p)) as Hmin.
  apply Qplus_le_r. apply Q.max_lub; assumption.
Qed.

Lemma sleeps_backoff_pause d (w : World VS SS) :
  count is_sleep (trace (snd (backoff_pause p d w)))
  = S (count is_sleep (trace w)).
Proof. reflexivity. Qed.

Lemma retry_loop_again fuel attempt d (w w1 : World VS SS) e :
  func w = (Raise e, w1) -> retried p e ->
  (attempt + 1 < max_attempts p)%Z ->
  retry_loop p func (S fuel) attempt d w
  = let '(r, w', outcomes) :=
      retry_loop p func fuel (attempt + 1) (Qmin (d * backoff p) (max_delay p))
        (snd (backoff_pause p d w1)) in
    (r, w', Raise e :: outcomes).
Proof.
  intros Hcall [Hc Hr] Hlt. cbn [retry_loop].
  destruct (Z.leb_spec (max_attempts p) attempt); [lia|].
  rewrite Hcall, Hc, Hr. cbn [negb].
  destruct (Z.leb_spec (max_attempts p) (attempt + 1)); [lia|].
  reflexivity.
Qed.

Lemma retry_loop_exhausts fuel : forall attempt d (w : World VS SS),
  0 <= max_delay p ->
  always_retried p func ->
  (max_attempts p - attempt = Z.of_nat (S fuel))%Z ->
  exists e w' outcomes,
    retry_loop p func (S fuel) attempt d w = (Raise e, w', outcomes) /\
    List.length outcomes = S fuel /\
    clock w' <= clock w + inject_Z (Z.of_nat fuel) * max_delay p /\
    count is_sleep (trace w') = (count is_sleep (trace w) + fuel)%nat.
Proof.
  induction fuel as [|fuel IH]; intros attempt d w Hdelay Hall Hn.
  - cbn [retry_loop].
    destruct (Z.leb_spec (max_attempts p) attempt); [lia|].
    destruct (Hall w) as (e & w1 & Hcall & [Hc Hr] & Hclock & Hsl).
    rewrite Hcall, Hc, Hr. cbn [negb].
    destruct (Z.leb_spec (max_attempts p) (attempt + 1)); [|lia].
    exists e, (snd (log ERROR "Max retry attempts reached" w1)), [Raise e].
    repeat split.
    + simpl. rewrite Hclock. unfold inject_Z. lra.
    + simpl. unfold count in *. simpl. lia.
  - destruct (Hall w) as (e & w1 & Hcall & [Hc Hr] & Hclock & Hsl).
    destruct (IH (attempt + 1)%Z (Qmin (d * backoff p) (max_delay p))
                 (snd (backoff_pause p d w1)) Hdelay Hall ltac:(lia))
      as (e' & w' & outcomes & Hrec & Hlen & Hclk & Hcnt).
    erewrite retry_loop_again; [|eassumption|split; eassumption|lia].
    rewrite Hrec.
    exists e', w', (Raise e :: outcomes).
    repeat split.
    + simpl. now rewrite Hlen.
    + pose proof (clock_backoff_pause d w1 Hdelay) as Hp.
      rewrite Nat2Z.inj_succ. unfold Z.succ. rewrite inject_Z_plus.
      change (inject_Z 1) with 1. lra.
    + rewrite Hcnt, sleeps_backoff_pause, Hsl. lia.
Qed.

(** X6: when every call fails with an error the policy retries, and
    [max_delay] is not negative, the wrapper makes exactly [max_attempts]
    calls, counted in the trace, waits between two calls and never after
    the last, for at most [max_delay] each time, and raises. *)
Theorem retry_async_exhausts (mark : event -> bool) (w : World VS SS) :
  (0 < max_attempts p)%Z ->
  0 <= max_delay p ->
  always_retried p func ->
  counts_calls mark func ->
  exists e w',
    retry_async p func w = (Raise e, w') /\
    Z.of_nat (count mark (trace w'))
    = (Z.of_nat (count mark (trace w)) + max_attempts p)%Z /\
    Z.of_nat (count is_sleep (trace w'))
    = (Z.of_nat (count is_sleep (trace w)) + (max_attempts p - 1))%Z /\
    clock w' <= clock w + inject_Z (max_attempts p - 1) * max_delay p.
Proof.
  intros Hpos Hdelay Hall Hmark.
  pose proof (retry_loop_marks (Z.to_nat (max_attempts p)) Hmark 0
                (delay p) w) as Hcount.
  unfold retry_async, retry_run.
  destruct (Z.to_nat (max_attempts p)) as [|fuel] eqn:E; [lia|].
  destruct (retry_loop_exhausts (fuel := fuel) 0 (delay p) w Hdelay Hall
              ltac:(lia))
    as (e & w' & outcomes & Hrun & Hlen & Hclk & Hcnt).
  rewrite Hrun in *. cbn [fst snd] in *.
  exists e, w'. split; [reflexivity|].
  assert (Hn : max_attempts p = Z.of_nat (S fuel)) by lia.
  repeat split.
  - rewrite Hcount, Hlen. lia.
  - rewrite Hcnt. lia.
  - replace (max_attempts p - 1)%Z with (Z.of_nat fuel) by lia. exact Hclk.
Qed.

End RetryBudget.

Lemma counts_calls_asking e :
  counts_calls is_fetch_balance (asking_then_failing e).
Proof. repeat split. Qed.

Lemma retry_async_call_budget_witness :
  counts_calls is_fetch_balance
    (asking_then_failing (mkExn TimeoutError "timed out")) /\
  (let w' := snd (retry_async retry_defaults
                    (asking_then_failing (mkExn TimeoutError "timed out"))
                    bare_world) in
   (Z.of_nat (count is_fetch_balance (trace w')) <= 0 + 3)%Z /\
   count is_fetch_balance (trace w') = 3%nat) /\
  retry_run no_attempts (asking_then_failing (mkExn TimeoutError "timed out"))
    bare_world
  = (Ok None, bare_world, []).
Proof.
  pose proof (counts_calls_asking (mkExn TimeoutError "timed out")) as Hmark.
  split; [exact Hmark|]. split; [split|].
  - exact (proj1 (retry_async_call_budget retry_defaults bare_world Hmark)).
  - rewrite (proj1 (proj2 (retry_async_call_budget retry_defaults bare_world
                             Hmark))).
    reflexivity.
  - apply (proj2 (proj2 (retry_async_call_budget no_attempts bare_world
                           Hmark))).
    cbn. lia.
Defined.

Lemma retry_async_gives_up_at_once_witness :
  fst (fst (retry_run connection_retry
              (failing_with (mkExn ValueError "bad value")) bare_world))
  = Raise (mkExn ValueError "bad value") /\
  fst (fst (retry_run order_retry (failing_with insufficient_balance) bare_world))
  = Raise insufficient_balance.
Proof.
  split.
  - rewrite (retry_async_gives_up_at_once connection_retry
               (failing_with (mkExn ValueError "bad value"))
               bare_world (e := mkExn ValueError "bad value")
               ltac:(reflexivity) eq_refl (or_introl eq_refl)).
    reflexivity.
  - rewrite (retry_async_gives_up_at_once order_retry
               (failing_with insufficient_balance)
               bare_world (e := insufficient_balance)
               ltac:(reflexivity) eq_refl (or_intror eq_refl)).
    reflexivity.
Defined.

Lemma retry_async_exhausts_witness :
  (0 <= max_delay connection_retry /\
   counts_calls is_fetch_balance
     (asking_then_failing (mkExn ConnectionError "connection reset"))) /\
  exists e w',
    retry_async connection_retry
      (asking_then_failing (mkExn ConnectionError "connection reset"))
      bare_world
    = (Raise e, w') /\
    count is_fetch_balance (trace w') = 10%nat /\
    count is_sleep (trace w') = 9%nat.
Proof.
  pose proof (counts_calls_asking (mkExn ConnectionError "connection reset"))
    as Hmark.
  assert (Hdelay : 0 <= max_delay connection_retry) by (cbn; lra).
  assert (Hall : always_retried connection_retry
                   (asking_then_failing
                      (mkExn ConnectionError "connection reset"))).
  { intros w0. eexists _, _. split; [reflexivity|].
    repeat split; reflexivity. }
  split; [split; [exact Hdelay|exact Hmark]|].
  destruct (retry_async_exhausts (p := connection_retry) bare_world
              ltac:(reflexivity) Hdelay Hall Hmark)
    as (e & w' & Hrun & Hcalls & Hcnt & _).
  exists e, w'. split; [exact Hrun|].
  change (max_attempts connection_retry) with 10%Z in *.
  change (count is_sleep (trace bare_world)) with 0%nat in Hcnt.
  change (count is_fetch_balance (trace bare_world)) with 0%nat in Hcalls.
  split; lia.
Defined.

(** ** RiskManager: sizing *)

Section SizingFacts.
Context {VS SS : Type} {exchange : ExchangeInterface VS}
        {state_manager : StateManager SS}.
Import RiskManager RiskSizing.

(** X7: [calculate_position_size] asks the venue for the balance and then
    for the ticker; with a last price of zero it raises
    [ZeroDivisionError], otherwise it returns the share of the free
    balance divided by the price, capped at [max_position_size], so that
    the size check of [can_open_position] never rejects what it
    returns. *)
Theorem calculate_position_size_capped (limits : RiskLimits) (symbol : string)
    (w : World VS SS) balance v1 free usdt_balance ticker v2 last :
  fetch_balance (venue w) = (Ok balance, v1) ->
  dget "free" balance = Some free ->
  dget "USDT" free = Some usdt_balance ->
  fetch_ticker symbol v1 = (Ok ticker, v2) ->
  dget "last" ticker = Some last ->
  let run := calculate_position_size limits symbol w in
  trace (snd run) = FetchTicker symbol :: FetchBalance :: trace w /\
  (last == 0 ->
   fst run = Raise (mkExn ZeroDivisionError "float division by zero")) /\
  (~ last == 0 ->
   exists size,
     fst run = Ok size /\
     size = Qmin (usdt_balance * position_size_pct limits / last)
                 (max_position_size limits) /\
     size <= max_position_size limits /\
     Qlt_bool (max_position_size limits) size = false).
Proof.
  intros Hbal Hfree Husdt Htick Hlast run. subst run.
  unfold calculate_position_size, bind, call_venue, lift, getitem, ret.
  rewrite Hbal. simpl. rewrite Hfree, Husdt, Htick. simpl. rewrite Hlast.
  split; [|split].
  - destruct (py_div _ last); reflexivity.
  - intros H0. now rewrite (py_div_zero _ H0).
  - intros H0. rewrite (py_div_ok _ H0). simpl.
    eexists. split; [reflexivity|]. split; [reflexivity|].
    pose proof (Q.le_min_r (usdt_balance * position_size_pct limits / last)
                           (max_position_size limits)) as Hcap.
    split; [exact Hcap|]. now apply Qlt_bool_false_iff.
Qed.

End SizingFacts.

Lemma calculate_position_size_capped_witness :
  exists size,
    fst (RiskSizing.calculate_position_size sample_limits "ETH/USDT:USDT"
           (Scripted.world quiet_venue quiet_store)) = Ok size /\
    size <= RiskManager.max_position_size sample_limits.
Proof.
  destruct (calculate_position_size_capped (exchange := Scripted.exchange)
              sample_limits "ETH/USDT:USDT"
              (Scripted.world quiet_venue quiet_store)
              (balance := [("free", [("USDT", 10000)])]) (v1 := quiet_venue)
              (v2 := quiet_venue)
              (free := [("USDT", 10000)]) (usdt_balance := 10000)
              (ticker := [("last", 2500)]) (last := 2500)
              eq_refl eq_refl eq_refl eq_refl eq_refl)
    as (_ & _ & Hsize).
  destruct Hsize as (size & Hrun & _ & Hcap & _); [discriminate|].
  exists size. split; [exact Hrun|exact Hcap].
Defined.

(** ** TradingExecutor: the handlers *)

Section HandlerFacts.
Context {VS SS : Type} {exchange : ExchangeInterface VS}
        {state_manager : StateManager SS}.
Import SignalHandlers.

Variable get_position : string -> M VS SS (option Position.t).
Variable limits : RiskManager.RiskLimits.

Lemma get_position_missing symbol (w : World VS SS) :
  position_manager_get_position position_manager_attributes get_position symbol w
  = (Raise (mkExn AttributeError
              "'PositionManager' object has no attribute 'get_position'"), w).
Proof. reflexivity. Qed.

(** X8: [PositionManager] has no [get_position], and every handler
    starts by calling it. So [execute_signal] returns [None] for every
    signal, whatever its kind and confidence, and leaves nothing behind
    but log records: for a signal that is routed, the record of the
    signal and the record of the failure. *)
Theorem execute_signal_places_nothing (config : TradingExecutor.Config)
    (targets : dict PositionTarget) (s : TradingSignal) (w : World VS SS) :
  exists new,
    TradingExecutor.execute_signal config
      (handlers position_manager_attributes get_position limits targets) s w
    = (Ok None, with_trace (new ++ trace w) w) /\
    forallb is_log new = true /\
    (Qlt_bool (confidence s) (TradingExecutor.min_confidence config) = false ->
     signal s <> NEUTRAL ->
     new = [Log ERROR "Failed to execute signal"; Log INFO "Executing signal"]).
Proof.
  unfold TradingExecutor.execute_signal, try_except, bind, log, emit.
  cbn [fst snd].
  destruct (Qlt_bool (confidence s) (TradingExecutor.min_confidence config)).
  - eexists [_; _]. cbn. repeat split. discriminate.
  - destruct (signal s) eqn:Hkind; cbn;
      unfold _handle_long_entry, _handle_long_exit, _handle_short_entry,
        _handle_short_exit, bind;
      try rewrite get_position_missing; cbn;
      eexists [_; _]; cbn; repeat split; congruence.
Qed.

End HandlerFacts.

Lemma execute_signal_places_nothing_witness :
  let run :=
    TradingExecutor.execute_signal sample_config
      (SignalHandlers.handlers SignalHandlers.position_manager_attributes
         (fun _ => ret None) sample_limits [])
      (sample_signal LONG_ENTRY (9 # 10))
      (Scripted.world quiet_venue quiet_store) in
  fst run = Ok None /\
  trace (snd run)
  = [Log ERROR "Failed to execute signal"; Log INFO "Executing signal"].
Proof.
  destruct (execute_signal_places_nothing (exchange := Scripted.exchange)
              (state_manager := Scripted.state_manager)
              (fun _ => ret None) sample_limits sample_config []
              (sample_signal LONG_ENTRY (9 # 10))
              (Scripted.world quiet_venue quiet_store))
    as (new & Hrun & _ & Hnew).
  cbv zeta. rewrite Hrun. rewrite Hnew; [split; reflexivity|reflexivity|discriminate].
Defined.

(** ** OrderManager: cancelling, resubmitting, monitoring *)

Section OrderLifeFacts.
Context {VS SS : Type} {exchange : ExchangeInterface VS}
        {state_manager : StateManager SS}.

(** X9: the outcomes of [cancel_order]. An unknown id gives [False] and
    nothing is done. When the venue raises, the answer is [False] and the
    order keeps its status. When the venue answers, be it [True] or
    [False], the order is marked CANCELLED whatever its status was; the
    answer is then [True] if the store takes the write and [False] if the
    store raises, the order staying CANCELLED. *)
Theorem cancel_order_outcomes (w : World VS SS) (order_id : string) :
  (dget order_id (active_orders w) = None ->
   OrderManager.cancel_order order_id w = (Ok false, w)) /\
  (forall r o,
     dget order_id (active_orders w) = Some r ->
     nth_error (heap w) r = Some o ->
     let run := OrderManager.cancel_order order_id w in
     let request :=
       cancel_order (Order.exchange_order_id o) (Order.symbol o) (venue w) in
     let write :=
       save_order (Order.id o) (Order.with_status CANCELLED o) (store w) in
     (forall e v, request = (Raise e, v) ->
        fst run = Ok false /\
        status_at (snd run) r = Some (Order.status o) /\
        store (snd run) = store w) /\
     (forall answer v, request = (Ok answer, v) ->
        status_at (snd run) r = Some CANCELLED /\
        (forall s, write = (Ok tt, s) -> fst run = Ok true) /\
        (forall e s, write = (Raise e, s) -> fst run = Ok false))).
Proof.
  split.
  { intros H. unfold OrderManager.cancel_order. now rewrite H. }
  intros r o Hget Hnth. cbv zeta.
  destruct (OrderManager.cancel_order order_id w) as [res w1] eqn:Hrun.
  unfold OrderManager.cancel_order in Hrun. rewrite Hget in Hrun.
  unfold try_except, bind, deref at 1 in Hrun. rewrite Hnth in Hrun.
  unfold OrderManager.exchange_cancel_order, call_venue in Hrun.
  cbn [fst snd].
  split.
  - intros e v Hreq. rewrite Hreq in Hrun. cbn in Hrun.
    inversion Hrun; subst. unfold status_at. cbn. rewrite Hnth.
    repeat split.
  - intros answer v Hreq. rewrite Hreq in Hrun.
    unfold modify, OrderManager.state_save_order, bind, deref in Hrun.
    cbn in Hrun.
    rewrite nth_error_list_update, Nat.eqb_refl, Hnth in Hrun. cbn in Hrun.
    unfold call_store in Hrun. cbn in Hrun.
    destruct (save_order _ _ (store w)) as [[[]|e] s] eqn:Hw; cbn in Hrun;
      inversion Hrun; subst; unfold status_at; cbn;
      rewrite nth_error_list_update, Nat.eqb_refl, Hnth; cbn;
      (split; [reflexivity|split; intros; congruence]).
Qed.

End OrderLifeFacts.

Lemma cancel_order_outcomes_witness :
  let run := OrderManager.cancel_order "a" declined_world in
  nth_error (heap declined_world) 0%nat = Some pending_entry /\
  cancel_order (PStr "V1") "ETH/USDT:USDT" (venue declined_world)
  = (Ok false, venue (snd run)) /\
  fst run = Ok true /\
  status_at (snd run) 0%nat = Some CANCELLED.
Proof.
  assert (Hget : dget "a" (active_orders declined_world) = Some 0%nat)
    by (vm_compute; reflexivity).
  assert (Hnth : nth_error (heap declined_world) 0%nat = Some pending_entry)
    by (vm_compute; reflexivity).
  assert (Hreq : cancel_order (Order.exchange_order_id pending_entry)
                   (Order.symbol pending_entry) (venue declined_world)
                 = (Ok false,
                    venue (snd (OrderManager.cancel_order "a" declined_world))))
    by (vm_compute; reflexivity).
  assert (Hwrite : save_order (Order.id pending_entry)
                     (Order.with_status CANCELLED pending_entry)
                     (store declined_world)
                   = (Ok tt,
                      store (snd (OrderManager.cancel_order "a" declined_world))))
    by (vm_compute; reflexivity).
  destruct (proj2 (cancel_order_outcomes declined_world "a") _ _ Hget Hnth)
    as [_ Hanswer].
  destruct (Hanswer _ _ Hreq) as (Hstatus & Htrue & _).
  cbv zeta.
  exact (conj Hnth (conj Hreq (conj (Htrue _ Hwrite) Hstatus))).
Defined.

Lemma list_update_snoc A (l : list A) x f :
  list_update (l ++ [x]) (List.length l) f = l ++ [f x].
Proof. induction l as [|y l IH]; simpl; [reflexivity|now rewrite IH]. Qed.

Section Resubmission.
Context {VS SS : Type} {exchange : ExchangeInterface VS}
        {state_manager : StateManager SS}.
Variables (symbol side order_type : string) (amount : Q) (price : option Q).

Lemma place_order_body_unsaved (w : World VS SS) :
  venue_accepts VS -> store_refuses SS ->
  exists e w1 o,
    OrderManager.place_order_body symbol side order_type amount price w
    = (Raise e, w1) /\
    heap w1 = heap w ++ [o] /\ failed o /\
    count is_create_order (trace w1) = S (count is_create_order (trace w)) /\
    count is_create_task (trace w1) = count is_create_task (trace w).
Proof.
  intros Hvenue Hstore.
  unfold OrderManager.place_order_body, bind, uuid4, alloc, try_except.
  cbn [fst snd].
  unfold OrderManager.exchange_create_order, call_venue. cbn.
  destruct (Hvenue symbol order_type side amount price (venue w))
    as (response & v' & x & Hcreate & Hid).
  rewrite Hcreate. cbn. unfold lift, getitem. rewrite Hid. cbn.
  unfold OrderManager.state_save_order, bind, deref. cbn.
  rewrite nth_error_list_update, Nat.eqb_refl, nth_error_snoc. cbn.
  unfold call_store. cbn.
  match goal with
  | |- context [save_order ?i ?o (store w)] =>
      destruct (Hstore i o (store w)) as (e & s' & Hsave)
  end.
  rewrite Hsave. cbn.
  eexists _, _, _. split; [reflexivity|]. cbn.
  split; [rewrite !list_update_snoc; reflexivity|].
  repeat split.
Qed.

Lemma backoff_pause_quiet (p : retry_policy) d (w : World VS SS) :
  heap (snd (backoff_pause p d w)) = heap w /\
  count is_create_order (trace (snd (backoff_pause p d w)))
  = count is_create_order (trace w) /\
  count is_create_task (trace (snd (backoff_pause p d w)))
  = count is_create_task (trace w).
Proof. repeat split. Qed.

Lemma retry_loop_unsaved fuel : forall attempt d (w : World VS SS),
  venue_accepts VS -> store_refuses SS ->
  (3 - attempt = Z.of_nat (S fuel))%Z ->
  exists e w' outcomes new,
    retry_loop OrderManager.place_order_policy
      (OrderManager.place_order_body symbol side order_type amount price)
      (S fuel) attempt d w = (Raise e, w', outcomes) /\
    heap w' = heap w ++ new /\ List.length new = S fuel /\ Forall failed new /\
    count is_create_order (trace w')
    = (count is_create_order (trace w) + S fuel)%nat /\
    count is_create_task (trace w') = count is_create_task (trace w).
Proof.
  induction fuel as [|fuel IH]; intros attempt d w Hv Hs Hn;
    destruct (place_order_body_unsaved w Hv Hs)
      as (e & w1 & o & Hcall & Hheap & Hfailed & Hcreate & Htask).
  - cbn [retry_loop].
    change (max_attempts OrderManager.place_order_policy) with 3%Z.
    destruct (Z.leb_spec 3 attempt); [lia|].
    rewrite Hcall. cbn [catches refuses negb].
    change (catches OrderManager.place_order_policy e) with true.
    change (refuses OrderManager.place_order_policy e) with false.
    cbn [negb].
    destruct (Z.leb_spec 3 (attempt + 1)); [|lia].
    eexists _, _, _, [o]. split; [reflexivity|]. cbn.
    repeat split; auto.
    + unfold count in *. cbn. rewrite Hcreate. lia.
  - destruct (IH (attempt + 1)%Z
                (Qmin (d * backoff OrderManager.place_order_policy)
                      (max_delay OrderManager.place_order_policy))
                (snd (backoff_pause OrderManager.place_order_policy d w1))
                Hv Hs ltac:(lia))
      as (e' & w' & outcomes & new & Hrec & Hheap' & Hlen & Hall & Hc & Ht).
    erewrite retry_loop_again;
      [|eassumption|split; reflexivity
       |change (max_attempts OrderManager.place_order_policy) with 3%Z; lia].
    rewrite Hrec.
    destruct (backoff_pause_quiet OrderManager.place_order_policy d w1)
      as (Q1 & Q2 & Q3).
    exists e', w', (Raise e :: outcomes), (o :: new).
    split; [reflexivity|].
    rewrite Hheap', Q1, Hheap, <- app_assoc. cbn [app].
    repeat split; auto.
    + cbn. now rewrite Hlen.
    + rewrite Hc, Q2, Hcreate. lia.
    + now rewrite Ht, Q3, Htask.
Qed.

(** X10: when the venue accepts the order but the store refuses the
    write that follows, [place_order] takes the failure for a failure of
    the submission: it submits the order three times, each time to a
    venue that accepts it, starts no monitor, leaves three order objects
    marked FAILED and raises. *)
Theorem place_order_resubmits_unsaved (w : World VS SS) :
  venue_accepts VS -> store_refuses SS ->
  let run := OrderManager.place_order symbol side order_type amount price w in
  (exists e, fst run = Raise e) /\
  count is_create_order (trace (snd run))
  = (count is_create_order (trace w) + 3)%nat /\
  count is_create_task (trace (snd run)) = count is_create_task (trace w) /\
  exists new, heap (snd run) = heap w ++ new /\
              List.length new = 3%nat /\ Forall failed new.
Proof.
  intros Hv Hs run. subst run.
  unfold OrderManager.place_order, retry_async, retry_run.
  change (Z.to_nat (max_attempts OrderManager.place_order_policy)) with 3%nat.
  destruct (retry_loop_unsaved (fuel := 2) 0
              (delay OrderManager.place_order_policy) w Hv Hs eq_refl)
    as (e & w' & outcomes & new & Hrun & Hheap & Hlen & Hall & Hc & Ht).
  rewrite Hrun. cbn [fst snd].
  split; [now exists e|]. split; [exact Hc|]. split; [exact Ht|].
  now exists new.
Qed.

End Resubmission.

Lemma place_order_resubmits_unsaved_witness :
  let run :=
    OrderManager.place_order (exchange := Steady.accepting_venue)
      (state_manager := Steady.refusing_store)
      "ETH/USDT:USDT" "buy" "limit" 1 (Some 2400) Steady.world in
  (exists e, fst run = Raise e) /\
  count is_create_order (trace (snd run)) = 3%nat.
Proof.
  assert (Hv : venue_accepts unit (exchange := Steady.accepting_venue)).
  { intros s t d a p v. eexists _, _, _. split; reflexivity. }
  assert (Hs : store_refuses unit (state_manager := Steady.refusing_store)).
  { intros i o s. eexists _, _. reflexivity. }
  destruct (place_order_resubmits_unsaved "ETH/USDT:USDT" "buy" "limit" 1
              (Some 2400) Steady.world Hv Hs)
    as (Hraise & Hcount & _).
  exact (conj Hraise Hcount).
Defined.

(** Case analysis on every scrutinee of the goal, innermost first. *)
Ltac case_all :=
  repeat match goal with
  | |- context [match ?x with _ => _ end] =>
      lazymatch x with
      | context [match _ with _ => _ end] => fail
      | _ => destruct x eqn:?; cbn
      end
  end.

Section MonitorBudget.
Context {VS SS : Type} {exchange : ExchangeInterface VS}
        {state_manager : StateManager SS}.
Import OrderManager.

Lemma waitless_state_save_order r :
  waitless (VS := VS) (SS := SS) (state_save_order r).
Proof.
  intros w. unfold state_save_order, bind, deref, call_store.
  case_all; repeat split; reflexivity.
Qed.

Lemma waitless_cancel_order order_id :
  waitless (VS := VS) (SS := SS) (OrderManager.cancel_order order_id).
Proof.
  intros w. unfold OrderManager.cancel_order.
  destruct (dget order_id (active_orders w)); [|repeat split; reflexivity].
  unfold try_except, bind, deref, exchange_cancel_order, call_venue, modify,
    state_save_order, bind, deref, call_store, log, emit, ret.
  case_all; repeat split; reflexivity.
Qed.

Lemma monitor_poll_cost r (w : World VS SS) :
  slept (trace (snd (monitor_poll r w))) = slept (trace w) /\
  count is_sleep (trace (snd (monitor_poll r w))) = count is_sleep (trace w) /\
  (count is_fetch_order (trace (snd (monitor_poll r w)))
   <= S (count is_fetch_order (trace w)))%nat.
Proof.
  unfold monitor_poll, try_except, bind, deref, exchange_fetch_order,
    call_venue, lift, modify, log, emit, ret.
  case_all; repeat split; try reflexivity; unfold count; cbn; lia.
Qed.

Lemma monitor_loop_cost fuel : forall budget attempt r (w : World VS SS),
  (attempt + budget = monitor_max_attempts)%nat ->
  let w' := snd (monitor_loop fuel attempt r w) in
  slept (trace w') <= slept (trace w) + 2 * inject_Z (Z.of_nat budget) /\
  (count is_sleep (trace w') <= count is_sleep (trace w) + budget)%nat /\
  (count is_fetch_order (trace w')
   <= count is_fetch_order (trace w) + budget)%nat.
Proof.
  unfold monitor_max_attempts.
  induction fuel as [|fuel IH]; intros budget attempt r w Hsum; cbv zeta;
    assert (Hnn : 0 <= inject_Z (Z.of_nat budget))
      by (change 0 with (inject_Z 0); rewrite <- Zle_Qle; lia).
  - cbn [monitor_loop ret fst snd]. split; [lra|split; lia].
  - destruct (monitor_loop (S fuel) attempt r w) as [res w'] eqn:E.
    cbn [snd]. cbn [monitor_loop] in E. unfold bind, deref in E.
    destruct (nth_error (heap w) r) as [o|];
      [|inversion E; subst; split; [lra|split; lia]].
    unfold monitor_max_attempts in E.
    destruct (Nat.ltb_spec attempt 10) as [Hlt|Hge]; cbn [andb] in E;
      [|inversion E; subst; split; [lra|split; lia]].
    destruct (OrderStatus_eqb (Order.status o) PENDING);
      [|inversion E; subst; split; [lra|split; lia]].
    destruct (monitor_poll_cost r w) as (Hslept & Hsleeps & Hfetch).
    destruct (monitor_poll r w) as [[[|]|e] w1]; cbn [fst snd ret] in *.
    + inversion E; subst. split; [rewrite Hslept; lra|split; lia].
    + destruct budget as [|budget]; [lia|].
      unfold sleep in E.
      specialize (IH budget (attempt + 1)%nat r
                    (with_clock (clock w1 + Qmax 0 2)
                       (with_trace (Sleep 2 :: trace w1) w1)) ltac:(lia)).
      cbv zeta in IH. rewrite E in IH. destruct IH as (IH0 & IH1 & IH2).
      cbn [fst snd clock trace with_clock with_trace slept] in IH0, IH1, IH2.
      unfold count in IH1 at 2. cbn [filter is_sleep List.length] in IH1.
      fold (count is_sleep (trace w1)) in IH1.
      unfold count in IH2 at 2. cbn [filter is_fetch_order] in IH2.
      fold (count is_fetch_order (trace w1)) in IH2.
      split; [|split].
      * rewrite Nat2Z.inj_succ. unfold Z.succ. rewrite inject_Z_plus.
        change (inject_Z 1) with 1. rewrite Hslept in IH0. lra.
      * lia.
      * lia.
    + inversion E; subst. split; [rewrite Hslept; lra|split; lia].
Qed.

(** X11: [_monitor_order] asks the venue for the order at most ten times
    and asks for a wait of two seconds after each poll that did not end
    the loop, at most ten times: the waits it asks for add up to at most
    twenty seconds, whatever the venue and the store answer. The time the
    calls to the venue and to the store take comes on top. *)
Theorem monitor_order_budget (r : ref) (w : World VS SS) :
  let w' := snd (_monitor_order r w) in
  (count is_fetch_order (trace w') <= count is_fetch_order (trace w) + 10)%nat /\
  (count is_sleep (trace w') <= count is_sleep (trace w) + 10)%nat /\
  slept (trace w') <= slept (trace w) + 20.
Proof.
  cbv zeta.
  pose proof (@monitor_loop_cost (S monitor_max_attempts) 10%nat 0%nat r w
                eq_refl) as (Hslept & Hsleeps & Hfetch).
  cbv zeta in Hslept, Hsleeps, Hfetch.
  change (2 * inject_Z (Z.of_nat 10)) with 20 in Hslept.
  destruct (_monitor_order r w) as [res w'] eqn:E. cbn [snd].
  unfold _monitor_order in E. unfold bind at 1 in E.
  destruct (monitor_loop (S monitor_max_attempts) 0 r w) as [[attempt|e] w1];
    cbn [fst snd] in *; [|inversion E; subst; split; [lia|split; [lia|lra]]].
  unfold bind at 1 in E.
  destruct (waitless_state_save_order r w1) as (S0 & S1 & S2).
  destruct (state_save_order r w1) as [[[]|e] w2]; cbn [fst snd] in *;
    [|inversion E; subst; rewrite S0, S1, S2; split; [lia|split; [lia|lra]]].
  unfold bind at 1, deref in E.
  destruct (nth_error (heap w2) r) as [o|];
    [|inversion E; subst; rewrite S0, S1, S2; split; [lia|split; [lia|lra]]].
  destruct (OrderStatus_eqb (Order.status o) PENDING
            && (monitor_max_attempts <=? attempt)%nat);
    [|inversion E; subst; rewrite S0, S1, S2; split; [lia|split; [lia|lra]]].
  unfold bind in E.
  destruct (waitless_cancel_order (Order.id o) w2) as (C0 & C1 & C2).
  destruct (OrderManager.cancel_order (Order.id o) w2) as [[b|e] w3];
    cbn [fst snd] in *; inversion E; subst; rewrite C0, C1, C2, S0, S1, S2;
    split; [lia|split; [lia|lra]| lia|split; [lia|lra]].
Qed.

End MonitorBudget.

(** ** TradingExecutor: cancelling by symbol, starting up *)

Section ExecutorLifeFacts.
Context {VS SS : Type} {exchange : ExchangeInterface VS}
        {state_manager : StateManager SS}.
Import SignalHandlers.

Lemma filter_none A (f : A -> bool) l :
  (forall x, In x l -> f x = false) -> filter f l = [].
Proof.
  induction l as [|x l IH]; intros H; simpl; [reflexivity|].
  rewrite (H x (or_introl eq_refl)). apply IH. intros y Hy. apply H. now right.
Qed.

(** X12: [_cancel_symbol_orders] touches only the tracked orders of the
    symbol that are still pending: when the executor tracks no such order
    it sends nothing and changes nothing, whatever else it tracks. *)
Theorem cancel_symbol_orders_skips (w : World VS SS) (symbol : string) :
  (forall order_id r o,
     In (order_id, r) (executor_orders w) ->
     nth_error (heap w) r = Some o ->
     Order.symbol o = symbol -> Order.status o <> PENDING) ->
  TradingExecutor._cancel_symbol_orders symbol w = (Ok tt, w).
Proof.
  intros Hnone. unfold TradingExecutor._cancel_symbol_orders,
    TradingExecutor.orders_to_cancel.
  rewrite filter_none; [reflexivity|].
  intros [order_id r] HIn. cbn [snd].
  destruct (nth_error (heap w) r) as [o|] eqn:Hnth; [|reflexivity].
  destruct (String.eqb_spec (Order.symbol o) symbol) as [Hs|Hs];
    [|reflexivity].
  specialize (Hnone order_id r o HIn Hnth Hs).
  destruct (Order.status o); try reflexivity. congruence.
Qed.

End ExecutorLifeFacts.

Lemma cancel_symbol_orders_skips_witness :
  TradingExecutor._cancel_symbol_orders "BTC/USDT:USDT" tracked_world
  = (Ok tt, tracked_world).
Proof.
  apply cancel_symbol_orders_skips.
  intros order_id r o HIn Hnth Hs.
  assert (Hone : executor_orders tracked_world = [("a", 0%nat)])
    by (vm_compute; reflexivity).
  assert (Hheap : heap tracked_world = [pending_entry])
    by (vm_compute; reflexivity).
  rewrite Hone in HIn. destruct HIn as [E|[]]. inversion E; subst.
  rewrite Hheap in Hnth. inversion Hnth; subst. discriminate.
Defined.

(** ** Order book streams *)

Section StreamFacts.
Context {VS SS : Type}.
Import OrderBookManager.

Lemma existsb_eqb_In x l : existsb (String.eqb x) l = true <-> In x l.
Proof.
  rewrite existsb_exists. split.
  - intros (y & HIn & E). apply String.eqb_eq in E. now subst.
  - intros HIn. exists x. split; [exact HIn|apply String.eqb_refl].
Qed.

Lemma start_one_tasks symbol (w : World VS SS) :
  fst (start_one symbol w) = Ok tt /\
  (forall t, In t (update_tasks (snd (start_one symbol w)))
             <-> In t (update_tasks w) \/ t = symbol) /\
  (NoDup (update_tasks w) -> NoDup (update_tasks (snd (start_one symbol w)))) /\
  (In symbol (update_tasks w) -> snd (start_one symbol w) = w).
Proof.
  unfold start_one.
  destruct (existsb (String.eqb symbol) (update_tasks w)) eqn:E; cbn.
  - apply existsb_eqb_In in E. repeat split; auto.
    + intros [H| ->]; auto.
  - assert (Hnot : ~ In symbol (update_tasks w)).
    { intros H. apply existsb_eqb_In in H. congruence. }
    repeat split.
    + intros H. apply in_app_or in H as [H|[H|[]]]; auto.
    + intros [H| ->]; apply in_or_app; [now left|right; now left].
    + intros Hnd. apply NoDup_app; [exact Hnd|repeat constructor; auto|].
      intros t Ht [<-|[]]. contradiction.
    + contradiction.
Qed.

Lemma start_streaming_tasks symbols : forall w : World VS SS,
  fst (start_streaming symbols w) = Ok tt /\
  (forall t, In t (update_tasks (snd (start_streaming symbols w)))
             <-> In t (update_tasks w) \/ In t symbols) /\
  (NoDup (update_tasks w) ->
   NoDup (update_tasks (snd (start_streaming symbols w)))) /\
  ((forall t, In t symbols -> In t (update_tasks w)) ->
   snd (start_streaming symbols w) = w).
Proof.
  induction symbols as [|symbol rest IH]; intros w.
  - cbn. repeat split; auto. intros [H|[]]; auto.
  - cbn [start_streaming]. unfold bind.
    destruct (start_one_tasks symbol w) as (S1 & S2 & S3 & S4).
    destruct (start_one symbol w) as [[[]|e] w1]; cbn [fst snd] in *;
      [|discriminate].
    destruct (IH w1) as (I1 & I2 & I3 & I4).
    split; [exact I1|]. split; [|split].
    + intros t. rewrite I2, S2. cbn [In]. intuition.
    + intros Hnd. apply I3, S3, Hnd.
    + intros Hall. rewrite I4.
      * apply S4, Hall. now left.
      * intros t Ht. apply S2. left. apply Hall. now right.
Qed.

(** X13: [start_streaming] gives every symbol it is passed an update
    task and never a second one: tasks that ran before keep running, the
    tasks stay without duplicates, and starting the same symbols again
    changes nothing. *)
Theorem start_streaming_idempotent (symbols : list string) (w : World VS SS) :
  let w1 := snd (start_streaming symbols w) in
  fst (start_streaming symbols w) = Ok tt /\
  (forall t, In t (update_tasks w1) <-> In t (update_tasks w) \/ In t symbols) /\
  (NoDup (update_tasks w) -> NoDup (update_tasks w1)) /\
  start_streaming symbols w1 = (Ok tt, w1).
Proof.
  cbv zeta.
  destruct (start_streaming_tasks symbols w) as (S1 & S2 & S3 & _).
  split; [exact S1|]. split; [exact S2|]. split; [exact S3|].
  destruct (start_streaming_tasks symbols (snd (start_streaming symbols w)))
    as (T1 & _ & _ & T4).
  specialize (T4 (fun t Ht => proj2 (S2 t) (or_intror Ht))).
  destruct (start_streaming symbols (snd (start_streaming symbols w)))
    as [res w2]. cbn [fst snd] in *. now subst.
Qed.

End StreamFacts.

Lemma start_streaming_idempotent_witness :
  let w1 := snd (OrderBookManager.start_streaming
                   ["ETH/USDT:USDT"; "BTC/USDT:USDT"; "ETH/USDT:USDT"]
                   shutdown_world) in
  NoDup (update_tasks shutdown_world) /\ NoDup (update_tasks w1).
Proof.
  assert (Hnd : NoDup (update_tasks shutdown_world))
    by (repeat constructor; simpl; intuition discriminate).
  split; [exact Hnd|].
  exact (proj1 (proj2 (proj2 (start_streaming_idempotent
                                ["ETH/USDT:USDT"; "BTC/USDT:USDT";
                                 "ETH/USDT:USDT"] shutdown_world))) Hnd).
Defined.

(** ** TradingExecutor: starting up *)

Section InitializeFacts.
Context {VS SS : Type} {exchange : ExchangeInterface VS}
        {state_manager : StateManager SS}.
Import PositionManager SignalHandlers.

Lemma sync_one_tasks ex_pos (w : World VS SS) :
  update_tasks (snd (sync_one ex_pos w)) = update_tasks w.
Proof.
  unfold sync_one, bind, lift.
  destruct (getitem ex_pos "symbol") as [sym|e]; simpl; [|reflexivity].
  destruct (py_str sym) as [sym'|e]; simpl; [|reflexivity].
  destruct (PyDict.mem String.eqb sym' (positions w)); simpl; [reflexivity|].
  destruct (getitem ex_pos "contracts") as [c|e]; simpl; [|reflexivity].
  destruct (py_float c) as [contracts|e]; simpl; [|reflexivity].
  destruct (Qlt_bool 0 contracts); simpl; [|reflexivity].
  destruct (getitem ex_pos "side") as [side|e]; simpl; [|reflexivity].
  destruct (getitem ex_pos "markPrice") as [mark|e]; simpl; [|reflexivity].
  destruct (py_float mark) as [entry|e]; simpl; reflexivity.
Qed.

Lemma sync_loop_tasks exchange_positions : forall w : World VS SS,
  update_tasks (snd (sync_loop exchange_positions w)) = update_tasks w.
Proof.
  induction exchange_positions as [|ex_pos rest IH]; intros w; simpl;
    [reflexivity|].
  unfold bind. pose proof (sync_one_tasks ex_pos w) as H1.
  destruct (sync_one ex_pos w) as [[[]|e] w1]; simpl in *; [|exact H1].
  now rewrite IH.
Qed.

Lemma sync_positions_returns (w : World VS SS) :
  fst (sync_positions w) = Ok tt /\
  update_tasks (snd (sync_positions w)) = update_tasks w.
Proof.
  unfold sync_positions, try_except, bind, call_venue.
  destruct (fetch_positions (venue w)) as [[l|e] v]; simpl;
    [|split; reflexivity].
  pose proof (sync_loop_tasks l
                (with_venue v (with_trace (FetchPositions :: trace w) w)))
    as H1.
  destruct (sync_loop l _) as [[[]|e] w1]; simpl in *; split; auto.
Qed.

(** X14: [initialize] never raises, whatever the venue reports or
    refuses to report: a failed synchronisation is only logged. After it
    every configured symbol has an update task, and no local position
    has been modified or removed. *)
Theorem initialize_never_raises (config : TradingExecutor.Config)
    (w : World VS SS) :
  let run := initialize config w in
  fst run = Ok tt /\
  (forall symbol, In symbol (TradingExecutor.symbols config) ->
     In symbol (update_tasks (snd run))) /\
  (forall t, In t (update_tasks w) -> In t (update_tasks (snd run))) /\
  keeps_local w (snd run).
Proof.
  cbv zeta. destruct (initialize config w) as [out w3] eqn:E. cbn [fst snd].
  unfold initialize, bind in E.
  destruct (sync_positions_returns w) as [R1 R2].
  pose proof (sync_positions_keeps_local w) as R3.
  destruct (sync_positions w) as [res w1]. cbn [fst snd] in *. subst res.
  pose proof (start_streaming_tasks (TradingExecutor.symbols config) w1)
    as (S1 & S2 & _ & _).
  assert (Hpos : positions (snd (OrderBookManager.start_streaming
                                   (TradingExecutor.symbols config) w1))
                 = positions w1).
  { clear. generalize w1. induction (TradingExecutor.symbols config)
      as [|s l IH]; intros w0; [reflexivity|].
    cbn [OrderBookManager.start_streaming]. unfold bind.
    unfold OrderBookManager.start_one at 1.
    destruct (existsb (String.eqb s) (update_tasks w0)); cbn [fst snd];
      rewrite IH; reflexivity. }
  destruct (OrderBookManager.start_streaming _ w1) as [res w2].
  cbn [fst snd] in *. subst res. unfold log, emit in E.
  inversion E; subst out w3. clear E.
  split; [reflexivity|]. split; [|split].
  - intros s Hs. change (In s (update_tasks w2)).
    apply (proj2 (S2 s)). now right.
  - intros t Ht. change (In t (update_tasks w2)).
    apply (proj2 (S2 t)). left. now rewrite R2.
  - intros s p Hget. change (dget s (positions w2) = Some p).
    rewrite Hpos. now apply R3.
Qed.

End InitializeFacts.

(** ** Signal filters *)

Module SignalPipelineFacts.
Import SignalAggregator SignalPipeline.

Lemma call_stateless f s : stateless f -> call f s = (passes f s, f).
Proof.
  intros H. unfold passes, call. rewrite (H s (cell f)).
  destruct f; reflexivity.
Qed.

Lemma apply_filters_stateless filters s :
  Forall stateless filters ->
  apply_filters filters s
  = (if forallb (fun f => passes f s) filters then None
     else option_map name
            (find (fun f => negb (passes f s)) filters),
     filters).
Proof.
  induction 1 as [|f rest Hf _ IH]; [reflexivity|].
  cbn [apply_filters forallb find]. rewrite (call_stateless s Hf).
  destruct (passes f s); cbn [negb andb]; [|reflexivity].
  rewrite IH. reflexivity.
Qed.

Lemma apply_filters_rejects filters s :
  Forall stateless filters ->
  forallb (fun f => passes f s) filters = false ->
  exists n, apply_filters filters s = (Some n, filters).
Proof.
  intros Hall Hrej. rewrite (apply_filters_stateless s Hall), Hrej.
  destruct (find (fun f => negb (passes f s)) filters) as [f|] eqn:Hfind.
  - now exists (name f).
  - exfalso. apply Bool.not_true_iff_false in Hrej. apply Hrej.
    apply forallb_forall. intros f Hf.
    pose proof (find_none _ _ Hfind f Hf) as Hn.
    cbn beta in Hn. destruct (passes f s); [reflexivity|discriminate].
Qed.

Section FilterFacts.
Context {VS SS : Type}.

(** X15: with filters that keep no state, [_filter_signals] returns, in
    their order, exactly the signals that every filter passes, leaves the
    filters as they were and logs one DEBUG record for each signal it
    drops; with no filter at all it returns the signals unchanged. *)
Theorem filter_signals_stateless (filters : list SignalFilter)
    (signals : list TradingSignal) (w : World VS SS) :
  Forall stateless filters ->
  let kept := filter (fun s => forallb (fun f => passes f s) filters) signals in
  let run := _filter_signals filters signals w in
  fst run = Ok (kept, filters) /\
  (count is_debug (trace (snd run))
   = count is_debug (trace w) + (List.length signals - List.length kept))%nat /\
  (List.length kept <= List.length signals)%nat /\
  (filters = [] -> kept = signals).
Proof.
  intros Hall. cbv zeta.
  assert (Hlen : forall l : list TradingSignal,
            (List.length (filter (fun s => forallb (fun f => passes f s) filters) l)
             <= List.length l)%nat).
  { induction l as [|s l IH]; cbn; [lia|].
    destruct (forallb _ filters); cbn; lia. }
  split; [|split; [|split]].
  - revert w. induction signals as [|s rest IH]; intros w; [reflexivity|].
    cbn [_filter_signals filter].
    rewrite (apply_filters_stateless s Hall).
    destruct (forallb (fun f => passes f s) filters) eqn:Hpass.
    + unfold bind. specialize (IH w).
      destruct (_filter_signals filters rest w) as [[out|e] w1];
        cbn [fst snd] in *; [|discriminate].
      inversion IH; subst. reflexivity.
    + destruct (apply_filters_rejects s Hall Hpass) as (n & Hn).
      rewrite (apply_filters_stateless s Hall), Hpass in Hn.
      inversion Hn as [Hname]. rewrite Hname.
      unfold bind, log, emit. cbn [fst snd]. apply IH.
  - revert w. induction signals as [|s rest IH]; intros w; [cbn; lia|].
    cbn [_filter_signals filter].
    rewrite (apply_filters_stateless s Hall).
    destruct (forallb (fun f => passes f s) filters) eqn:Hpass.
    + unfold bind. specialize (IH w).
      destruct (_filter_signals filters rest w) as [[out|e] w1];
        cbn [fst snd ret List.length] in *; rewrite IH; specialize (Hlen rest);
        lia.
    + destruct (apply_filters_rejects s Hall Hpass) as (n & Hn).
      rewrite (apply_filters_stateless s Hall), Hpass in Hn.
      inversion Hn as [Hname]. rewrite Hname.
      unfold bind, log, emit. cbn [fst snd].
      rewrite IH. cbn [trace with_trace].
      change (count is_debug (Log DEBUG "Signal filtered" :: trace w))
        with (S (count is_debug (trace w))).
      specialize (Hlen rest). unfold count. cbn [List.length]. lia.
  - apply Hlen.
  - intros ->. cbn [forallb]. clear. induction signals as [|s l IH]; cbn;
      [reflexivity|now rewrite IH].
Qed.

End FilterFacts.

(** X16: the filters are tried in order and the first that fails ends
    the loop: the filters after it are not called for that signal, so a
    filter with a memory does not remember a signal that an earlier
    filter has dropped. *)
Theorem apply_filters_stops_at_first_failure (before after : list SignalFilter)
    (f : SignalFilter) (s : TradingSignal) :
  forallb (fun g => passes g s) before = true ->
  passes f s = false ->
  apply_filters (before ++ f :: after) s
  = (Some (name f),
     map (fun g => snd (call g s)) before ++ snd (call f s) :: after).
Proof.
  intros Hbefore Hf. induction before as [|g rest IH]; cbn.
  - unfold passes in Hf. destruct (call f s) as [passed f'] eqn:E.
    cbn in *. subst passed. f_equal. f_equal.
    unfold call in E. destruct (condition f s (cell f)). now inversion E.
  - cbn in Hbefore. apply andb_prop in Hbefore as [Hg Hrest].
    unfold passes in Hg. destruct (call g s) as [passed g']. cbn in *.
    subst passed. now rewrite (IH Hrest).
Qed.

Lemma call_no_recent minutes recent s :
  call (no_recent_signal_from minutes recent) s
  = (fst (condition (no_recent_signal_from minutes recent) s recent),
     no_recent_signal_from minutes
       (snd (condition (no_recent_signal_from minutes recent) s recent))).
Proof.
  unfold call. cbn [cell no_recent_signal_from].
  destruct (condition (no_recent_signal_from minutes recent) s recent).
  reflexivity.
Qed.

Section RecentFacts.
Context {VS SS : Type}.

Lemma filter_no_recent minutes signals : forall recent (w : World VS SS),
  exists out recent' w',
    _filter_signals [no_recent_signal_from minutes recent] signals w
    = (Ok (out, [no_recent_signal_from minutes recent']), w') /\
    forall k, spaced (minutes * 60)
                (remembered recent k ++ map timestamp (members k out)).
Proof.
  induction signals as [|s rest IH]; intros recent w.
  - exists [], recent, w. split; [reflexivity|].
    intros k. unfold remembered. cbn. rewrite app_nil_r.
    now destruct (PyDict.get key_eqb k recent).
  - cbn [_filter_signals apply_filters]. rewrite call_no_recent.
    cbn [condition no_recent_signal_from].
    destruct (PyDict.get key_eqb (key_of s) recent) as [last_time|] eqn:Hget.
    + destruct (Qlt_bool (timestamp s - last_time) (minutes * 60)) eqn:Hlt;
        cbn [fst snd].
      * unfold bind, log, emit. cbn [fst snd].
        destruct (IH recent (with_trace (Log DEBUG "Signal filtered" :: trace w) w))
          as (out & recent' & w' & Hrun & Hsp).
        exists out, recent', w'. split; [exact Hrun|exact Hsp].
      * destruct (IH (PyDict.set key_eqb (key_of s) (timestamp s) recent) w)
          as (out & recent' & w' & Hrun & Hsp).
        unfold bind. rewrite Hrun. cbn [fst snd ret].
        exists (s :: out), recent', w'. split; [reflexivity|].
        intros k. specialize (Hsp k). unfold members in *. cbn [filter].
        unfold remembered in *.
        destruct (SignalAggregatorFacts.key_eqb_spec (key_of s) k) as [<-|Hne].
        -- rewrite Hget.
           rewrite (get_set_same _ SignalAggregatorFacts.key_eqb_spec) in Hsp.
           apply Qlt_bool_false_iff in Hlt. cbn in *. split; [lra|exact Hsp].
        -- rewrite (get_set_other _ SignalAggregatorFacts.key_eqb_spec) in Hsp
             by congruence.
           exact Hsp.
    + cbn [fst snd].
      destruct (IH (PyDict.set key_eqb (key_of s) (timestamp s) recent) w)
        as (out & recent' & w' & Hrun & Hsp).
      unfold bind. rewrite Hrun. cbn [fst snd ret].
      exists (s :: out), recent', w'. split; [reflexivity|].
      intros k. specialize (Hsp k). unfold members in *. cbn [filter].
      unfold remembered in *.
      destruct (SignalAggregatorFacts.key_eqb_spec (key_of s) k) as [<-|Hne].
      * rewrite Hget.
        rewrite (get_set_same _ SignalAggregatorFacts.key_eqb_spec) in Hsp.
        exact Hsp.
      * rewrite (get_set_other _ SignalAggregatorFacts.key_eqb_spec) in Hsp
          by congruence.
        exact Hsp.
Qed.

(** X17: behind [no_recent_signal] two signals of the same symbol and
    kind never come out less than [minutes] minutes apart: each signal
    that passes comes at least that long after the one that passed
    before it, whatever was dropped in between. *)
Theorem no_recent_signal_spacing (minutes : Q) (signals : list TradingSignal)
    (w : World VS SS) :
  exists out filters,
    fst (_filter_signals [no_recent_signal minutes] signals w)
    = Ok (out, filters) /\
    forall k, spaced (minutes * 60) (map timestamp (members k out)).
Proof.
  destruct (filter_no_recent minutes signals [] w)
    as (out & recent' & w' & Hrun & Hsp).
  exists out, [no_recent_signal_from minutes recent'].
  unfold no_recent_signal. rewrite Hrun. split; [reflexivity|].
  intros k. exact (Hsp k).
Qed.

End RecentFacts.

(** X18: the time window is half open, [start_hour <= hour < end_hour]:
    the default window (0, 24) lets every signal through, a window whose
    two bounds are equal lets none through, and a window that runs over
    midnight lets through exactly what the window between the same two
    hours, taken the other way round, drops. *)
Theorem time_window_edges (local_hour : Q -> Z) (s : TradingSignal) :
  (0 <= local_hour (timestamp s) < 24)%Z ->
  passes (time_window local_hour 0 24) s = true /\
  (forall h, passes (time_window local_hour h h) s = false) /\
  (forall a b, (a < b)%Z ->
     passes (time_window local_hour b a) s
     = negb (passes (time_window local_hour a b) s)).
Proof.
  intros Hhour. unfold passes, call, time_window, in_window. cbn.
  split; [|split].
  - destruct (Z.leb_spec 0 (local_hour (timestamp s))); [|lia].
    destruct (Z.ltb_spec (local_hour (timestamp s)) 24); [reflexivity|lia].
  - intros h. rewrite Z.leb_refl.
    destruct (Z.leb_spec h (local_hour (timestamp s)));
      destruct (Z.ltb_spec (local_hour (timestamp s)) h); try reflexivity; lia.
  - intros a b Hab.
    destruct (Z.leb_spec b a); [lia|].
    destruct (Z.leb_spec a b); [|lia].
    destruct (Z.leb_spec b (local_hour (timestamp s)));
      destruct (Z.ltb_spec (local_hour (timestamp s)) a);
      destruct (Z.leb_spec a (local_hour (timestamp s)));
      destruct (Z.ltb_spec (local_hour (timestamp s)) b);
      try reflexivity; lia.
Qed.

Lemma time_window_edges_witness :
  passes (time_window utc_hour 0 24) (sample_signal LONG_ENTRY (9 # 10)) = true /\
  passes (time_window utc_hour 9 9) (sample_signal LONG_ENTRY (9 # 10)) = false.
Proof.
  assert (Hhour : (0 <= utc_hour (timestamp (sample_signal LONG_ENTRY (9 # 10)))
                   < 24)%Z) by (vm_compute; split; [discriminate|reflexivity]).
  destruct (time_window_edges utc_hour (sample_signal LONG_ENTRY (9 # 10)) Hhour)
    as (Hall & Hnone & _).
  exact (conj Hall (Hnone 9%Z)).
Defined.

Lemma filter_signals_stateless_witness :
  fst (_filter_signals [min_confidence (7 # 10)] sample_signals bare_world)
  = Ok ([mkSignal LONG_ENTRY "X" 100 (8 # 10) 0 (Meta []);
         mkSignal LONG_ENTRY "Y" 50 (9 # 10) 0 (Meta [])],
        [min_confidence (7 # 10)]).
Proof.
  assert (Hall : Forall stateless [min_confidence (7 # 10)]).
  { repeat constructor. }
  exact (proj1 (filter_signals_stateless sample_signals bare_world Hall)).
Defined.

Lemma apply_filters_stops_at_first_failure_witness :
  apply_filters [min_confidence (7 # 10); no_recent_signal 5]
    (sample_signal LONG_ENTRY (1 # 2))
  = (Some "min_confidence", [min_confidence (7 # 10); no_recent_signal 5]).
Proof.
  exact (apply_filters_stops_at_first_failure [] [no_recent_signal 5]
           (min_confidence (7 # 10)) (sample_signal LONG_ENTRY (1 # 2))
           eq_refl eq_refl).
Defined.

(** *** The history *)

Lemma total_count_dset k v d :
  (total_count (dset k v d)
   + match dget k d with Some n => n | None => 0 end
   = total_count d + v)%nat.
Proof.
  unfold total_count, PyDict.values.
  induction d as [|[k' n] d IH]; cbn.
  - lia.
  - destruct (String.eqb k k') eqn:E; cbn; lia.
Qed.

Lemma total_count_bump k d : total_count (bump k d) = S (total_count d).
Proof.
  unfold bump.
  pose proof (total_count_dset k
                (match dget k d with Some n => n | None => 0 end + 1)%nat d).
  lia.
Qed.

Lemma tally_counts records : forall t,
  let t' := fold_left tally_record records t in
  total_count (by_type t') = (total_count (by_type t) + List.length records)%nat /\
  total_count (by_symbol t')
  = (total_count (by_symbol t) + List.length records)%nat /\
  ((profitable_count t <= executed_count t)%nat ->
   (profitable_count t' <= executed_count t')%nat).
Proof.
  induction records as [|record rest IH]; intros t; cbv zeta; cbn [fold_left].
  - cbn. repeat split; lia.
  - destruct (IH (tally_record t record)) as (I1 & I2 & I3).
    assert (H1 : total_count (by_type (tally_record t record))
                 = S (total_count (by_type t)))
      by (cbn [tally_record by_type]; apply total_count_bump).
    assert (H2 : total_count (by_symbol (tally_record t record))
                 = S (total_count (by_symbol t)))
      by (cbn [tally_record by_symbol]; apply total_count_bump).
    assert (H3 : (profitable_count t <= executed_count t)%nat ->
                 (profitable_count (tally_record t record)
                  <= executed_count (tally_record t record))%nat).
    { intros Hle. cbn [tally_record profitable_count executed_count].
      destruct (executed record); [|exact Hle].
      destruct (profitable record) as [[|]|]; lia. }
    rewrite I1, I2, H1, H2. cbn [List.length].
    split; [lia|]. split; [lia|]. intros Hle. apply I3, H3, Hle.
Qed.

Lemma length_deque_append A maxlen (d : list A) x :
  List.length (deque_append maxlen d x) = Nat.min (List.length d + 1) maxlen.
Proof.
  unfold deque_append. rewrite length_skipn, length_app. cbn. lia.
Qed.

Section HistoryFacts.
Context {VS SS : Type}.

(** X19: after [add_signal] the history holds at most [maxlen] records,
    the newest last, and its statistics describe exactly the records it
    holds: [total_signals] is their number, the counts by type and the
    counts by symbol each add up to it, and the win rate stays between 0
    and 1. A history bounded at zero records nothing and its statistics
    are never updated. *)
Theorem add_signal_statistics (self : SignalHistory) (s : TradingSignal)
    (executed : bool) (profitable : option bool) (w : World VS SS) :
  exists self',
    add_signal self s executed profitable w = (Ok self', w) /\
    maxlen self' = maxlen self /\
    (List.length (signals self') <= maxlen self)%nat /\
    (maxlen self = 0%nat -> signals self' = [] /\ stats self' = stats self) /\
    ((0 < maxlen self)%nat ->
     last (signals self') (mkRecord s (clock w) executed profitable)
     = mkRecord s (clock w) executed profitable /\
     signals self' <> [] /\
     total_signals (stats self') = List.length (signals self') /\
     total_count (signals_by_type (stats self')) = total_signals (stats self') /\
     total_count (signals_by_symbol (stats self')) = total_signals (stats self') /\
     (0 <= win_rate (stats self) /\ win_rate (stats self) <= 1 ->
      0 <= win_rate (stats self') /\ win_rate (stats self') <= 1)).
Proof.
  unfold add_signal, bind, utcnow, ret. cbn [fst snd].
  set (record := mkRecord s (clock w) executed profitable).
  set (kept := deque_append (maxlen self) (signals self) record).
  assert (Hlen : List.length kept = Nat.min (List.length (signals self) + 1)
                                            (maxlen self))
    by apply length_deque_append.
  eexists. split; [reflexivity|].
  unfold _update_stats. cbn [signals maxlen stats].
  destruct kept as [|first more] eqn:Hkept.
  - cbn [maxlen signals stats List.length]. cbn in Hlen.
    split; [reflexivity|]. split; [lia|].
    split; [intros _; split; reflexivity|]. intros Hpos. lia.
  - cbn [maxlen signals stats total_signals signals_by_type signals_by_symbol
         win_rate].
    split; [reflexivity|]. split; [rewrite Hlen; lia|].
    split; [intros H0; rewrite H0 in Hlen; cbn in Hlen; lia|].
    intros Hpos.
    destruct (tally_counts (first :: more) (mkTally [] [] 0 0 0))
      as (T1 & T2 & T3).
    cbv zeta in T1, T2, T3. cbn [by_type by_symbol total_count PyDict.values
                                 map fold_right Nat.add] in T1, T2.
    split; [|split; [discriminate|split; [reflexivity|split; [exact T1|split;
            [exact T2|]]]]].
    + rewrite <- Hkept. unfold kept, deque_append.
      set (n := (List.length (signals self) + 1 - maxlen self)%nat).
      assert (Hn : (n <= List.length (signals self))%nat) by (unfold n; lia).
      rewrite skipn_app.
      replace (n - List.length (signals self))%nat with 0%nat by lia.
      cbn [skipn]. apply last_last.
    + intros [W0 W1].
      destruct (Nat.ltb_spec 0
                  (executed_count
                     (fold_left tally_record (first :: more)
                        (mkTally [] [] 0 0 0)))) as [Hex|Hex];
        [|split; assumption].
      specialize (T3 (Nat.le_refl 0)).
      set (t := fold_left tally_record (first :: more) (mkTally [] [] 0 0 0))
        in *.
      assert (Hq : 0 < Qnat (executed_count t)).
      { unfold Qnat. change 0 with (inject_Z 0). rewrite <- Zlt_Qlt. lia. }
      assert (Hp : 0 <= Qnat (profitable_count t)).
      { unfold Qnat. change 0 with (inject_Z 0). rewrite <- Zle_Qle. lia. }
      assert (Hpe : Qnat (profitable_count t) <= Qnat (executed_count t)).
      { unfold Qnat. rewrite <- Zle_Qle. lia. }
      split.
      * apply Qle_shift_div_l; [exact Hq|lra].
      * apply Qle_shift_div_r; [exact Hq|lra].
Qed.

End HistoryFacts.

Section GetSignalsFacts.
Context {VS SS : Type}.
Variables Strategy MarketData : Type.
Variable calculate_signals :
  Strategy -> MarketData -> M VS SS (list TradingSignal).

Lemma collect_signals_returns strategies market_data : forall w : World VS SS,
  exists out w',
    collect_signals calculate_signals strategies market_data w = (Ok out, w') /\
    (Forall (always_raises calculate_signals market_data) strategies ->
     out = [] /\
     count is_error (trace w')
     = (count is_error (trace w) + List.length strategies)%nat).
Proof.
  induction strategies as [|strategy rest IH]; intros w.
  - exists [], w. split; [reflexivity|]. intros _. cbn. split; [reflexivity|lia].
  - cbn [collect_signals]. unfold bind at 1. unfold try_except.
    destruct (calculate_signals strategy market_data w) as [[signals|e] w1] eqn:E.
    + destruct (IH w1) as (more & w2 & Hrun & Hall).
      unfold bind at 1. rewrite Hrun. unfold ret.
      exists (signals ++ more), w2. split; [reflexivity|].
      intros HF. inversion HF as [|x l Hx Hl]; subst.
      destruct (Hx w) as (e' & w1' & Hraise & _). congruence.
    + unfold bind at 1. unfold log, emit, ret. cbn [fst snd].
      set (w1' := with_trace (Log ERROR "Error getting signals" :: trace w1) w1).
      destruct (IH w1') as (more & w2 & Hrun & Hall).
      unfold bind at 1. rewrite Hrun.
      exists more, w2. split; [reflexivity|].
      intros HF. inversion HF as [|x l Hx Hl]; subst.
      destruct (Hall Hl) as [-> Hcount]. split; [reflexivity|].
      destruct (Hx w) as (e' & w1'' & Hraise & Hquiet).
      rewrite E in Hraise. inversion Hraise; subst.
      rewrite Hcount. unfold w1'. destruct w1''; cbn in *. lia.
Qed.

Lemma apply_filters_length filters s :
  List.length (snd (apply_filters filters s)) = List.length filters.
Proof.
  induction filters as [|f rest IH]; [reflexivity|].
  cbn [apply_filters]. destruct (call f s) as [passed f'].
  destruct passed.
  - destruct (apply_filters rest s) as [r rest']. cbn in *. now rewrite IH.
  - reflexivity.
Qed.

Lemma filter_signals_returns signals : forall filters (w : World VS SS),
  exists out filters' w',
    _filter_signals filters signals w = (Ok (out, filters'), w') /\
    List.length filters' = List.length filters /\
    incl out signals /\
    clock w' = clock w /\
    count is_error (trace w') = count is_error (trace w).
Proof.
  induction signals as [|s rest IH]; intros filters w.
  - exists [], filters, w. repeat split. apply incl_refl.
  - cbn [_filter_signals].
    pose proof (apply_filters_length filters s) as Hlen.
    destruct (apply_filters filters s) as [rejected_by filters1].
    cbn [snd] in Hlen. destruct rejected_by as [by_name|].
    + unfold bind at 1. unfold log, emit. cbn [fst snd].
      set (w1 := with_trace (Log DEBUG "Signal filtered" :: trace w) w).
      destruct (IH filters1 w1) as (out & filters' & w' & Hrun & L & I & C & T).
      exists out, filters', w'. split; [exact Hrun|].
      split; [congruence|]. split; [now apply incl_tl|].
      split; [rewrite C; destruct w; reflexivity|].
      rewrite T. destruct w; reflexivity.
    + destruct (IH filters1 w) as (out & filters' & w' & Hrun & L & I & C & T).
      unfold bind at 1. rewrite Hrun. unfold ret. cbn [fst snd].
      exists (s :: out), filters', w'. split; [reflexivity|].
      split; [congruence|]. split; [|split; assumption].
      intros x [<-|Hx]; [now left|right; now apply I].
Qed.

Lemma add_signal_bounded (self : SignalHistory) s executed profitable
    (w : World VS SS) :
  exists self',
    add_signal self s executed profitable w = (Ok self', w) /\
    maxlen self' = maxlen self /\
    (List.length (signals self') <= maxlen self)%nat.
Proof.
  unfold add_signal, bind, utcnow, ret. cbn [fst snd].
  eexists. split; [reflexivity|].
  pose proof (length_deque_append (maxlen self) (signals self)
                (mkRecord s (clock w) executed profitable)) as Hlen.
  unfold _update_stats. cbn [signals maxlen stats].
  destruct (deque_append _ _ _) as [|first more];
    cbn [maxlen signals] in *; split; try reflexivity; lia.
Qed.

Lemma record_signals_returns aggregated : forall history (w : World VS SS),
  exists history',
    record_signals history aggregated w = (Ok history', w) /\
    maxlen history' = maxlen history /\
    (aggregated = [] -> history' = history) /\
    (aggregated <> [] ->
     (List.length (signals history') <= maxlen history)%nat).
Proof.
  induction aggregated as [|s rest IH]; intros history w.
  - exists history. repeat split. congruence.
  - cbn [record_signals].
    destruct (add_signal_bounded history s false None w) as (h1 & Hrun & M1 & L1).
    unfold bind at 1. rewrite Hrun.
    destruct (IH h1 w) as (h2 & Hrun2 & M2 & E2 & L2).
    exists h2. split; [exact Hrun2|]. split; [congruence|].
    split; [discriminate|]. intros _.
    destruct rest as [|s' rest'].
    + rewrite (E2 eq_refl). exact L1.
    + rewrite <- M1. apply L2. discriminate.
Qed.

Lemma aggregate_signals_returns (self : SignalAggregator.t Strategy) now
    signals :
  (strategies self = [] -> signals = []) ->
  exists out, _aggregate_signals self now signals = Ok out /\
              (signals = [] -> out = []).
Proof.
  intros Hnone. unfold _aggregate_signals.
  destruct (Nat.eqb (List.length (strategies self)) 1).
  - exists signals. split; [reflexivity|auto].
  - destruct (strategies self) as [|strategy rest] eqn:E.
    + rewrite (Hnone eq_refl). exists []. split; reflexivity.
    + rewrite SignalAggregatorFacts.check_consensus_ok by (rewrite E; discriminate).
      eexists. split; [reflexivity|]. intros ->. reflexivity.
Qed.

(** A plain filter is still one after a call, whatever it remembers. *)
Lemma call_plain f s : plain_filter f -> plain_filter (snd (call f s)).
Proof.
  intros [threshold|minutes recent_signals]; unfold call; cbn.
  - apply plain_min_confidence.
  - destruct (PyDict.get key_eqb (key_of s) recent_signals) as [last_time|].
    + destruct (Qlt_bool (timestamp s - last_time) (minutes * 60));
        apply (plain_no_recent_signal minutes).
    + apply (plain_no_recent_signal minutes).
Qed.

Lemma apply_filters_plain filters s :
  Forall plain_filter filters ->
  Forall plain_filter (snd (apply_filters filters s)).
Proof.
  induction 1 as [|f rest Hf Hrest IH]; [constructor|].
  cbn [apply_filters]. pose proof (call_plain s Hf) as Hcall.
  destruct (call f s) as [passed f']. cbn [snd] in Hcall.
  destruct passed.
  - destruct (apply_filters rest s) as [r rest']. cbn [snd] in *.
    now constructor.
  - now constructor.
Qed.

Lemma filter_signals_plain signals : forall filters (w : World VS SS),
  Forall plain_filter filters ->
  forall out filters' w',
  _filter_signals filters signals w = (Ok (out, filters'), w') ->
  Forall plain_filter filters'.
Proof.
  induction signals as [|s rest IH]; intros filters w Hplain out filters' w' E.
  - cbn in E. inversion E; subst. exact Hplain.
  - cbn [_filter_signals] in E.
    pose proof (apply_filters_plain s Hplain) as H1.
    destruct (apply_filters filters s) as [rejected_by filters1].
    cbn [snd] in H1. destruct rejected_by as [by_name|].
    + unfold bind at 1 in E. unfold log, emit in E. cbn [fst snd] in E.
      eapply IH; eassumption.
    + unfold bind at 1 in E.
      destruct (_filter_signals filters1 rest w) as [[[out1 filters2]|e] w1]
        eqn:E1; [|discriminate].
      unfold ret in E. inversion E; subst. cbn [snd].
      eapply IH; eassumption.
Qed.

(** X20: with filters whose condition cannot raise, those of
    [min_confidence] and [no_recent_signal], [get_signals] returns
    whatever the strategies do: a strategy that raises is logged and
    skipped, and the aggregator keeps its strategies, the number of its
    filters, which are still of that kind, and the bound of its history,
    which holds at most [maxlen] records once a signal was returned. When
    every strategy raises, the answer is the empty list, the aggregator
    is as before and one error is logged for each strategy. *)
Theorem get_signals_survives_strategies (self : Aggregator Strategy)
    (market_data : MarketData) (w : World VS SS) :
  Forall plain_filter (filters self) ->
  exists out self' w',
    get_signals calculate_signals self market_data w = (Ok (out, self'), w') /\
    core self' = core self /\
    List.length (filters self') = List.length (filters self) /\
    Forall plain_filter (filters self') /\
    maxlen (history self') = maxlen (history self) /\
    (out <> [] ->
     (List.length (signals (history self')) <= maxlen (history self))%nat) /\
    (Forall (always_raises calculate_signals market_data)
            (strategies (core self)) ->
     out = [] /\ self' = self /\
     count is_error (trace w')
     = (count is_error (trace w) + List.length (strategies (core self)))%nat).
Proof.
  intros Hplain.
  unfold get_signals.
  destruct (collect_signals_returns (strategies (core self)) market_data w)
    as (all_signals & w1 & Hcollect & Hall).
  unfold bind at 1. rewrite Hcollect.
  destruct (filter_signals_returns all_signals (filters self) w1)
    as (out1 & filters' & w2 & Hfilter & L & I & C & T).
  pose proof (filter_signals_plain all_signals w1 Hplain Hfilter) as Hplain'.
  unfold bind at 1. rewrite Hfilter.
  unfold bind at 1. unfold utcnow. cbn [fst snd].
  assert (Hnone : strategies (core self) = [] -> out1 = []).
  { intros E. rewrite E in Hcollect. cbn in Hcollect.
    inversion Hcollect; subst. destruct out1 as [|x l]; [reflexivity|].
    destruct (I x (or_introl eq_refl)). }
  destruct (aggregate_signals_returns (core self) (clock w2) Hnone)
    as (aggregated & Hagg & Hempty).
  unfold bind at 1. unfold lift. rewrite Hagg.
  destruct (record_signals_returns aggregated (history self) w2)
    as (history' & Hrecord & M & E0 & L0).
  unfold bind at 1. rewrite Hrecord. unfold ret.
  exists aggregated, (mkAggregator (core self) filters' history'), w2.
  split; [reflexivity|]. cbn [core filters history].
  split; [reflexivity|]. split; [exact L|]. split; [exact Hplain'|].
  split; [exact M|]. split; [exact L0|].
  intros HF. destruct (Hall HF) as [-> Hcount].
  cbn in Hfilter. inversion Hfilter; subst.
  rewrite (Hempty eq_refl) in *. rewrite (E0 eq_refl).
  split; [reflexivity|]. split; [destruct self; reflexivity|exact Hcount].
Qed.

End GetSignalsFacts.

End SignalPipelineFacts.

Lemma get_signals_survives_strategies_witness :
  Forall plain_filter (SignalPipeline.filters sample_aggregator) /\
  exists out self' w',
    SignalPipeline.get_signals sample_strategy sample_aggregator tt bare_world
    = (Ok (out, self'), w') /\
    SignalPipeline.core self' = SignalPipeline.core sample_aggregator /\
    List.length out = 1%nat /\
    count is_error (trace w') = 1%nat.
Proof.
  assert (Hplain : Forall plain_filter
                     (SignalPipeline.filters sample_aggregator)).
  { repeat constructor. }
  split; [exact Hplain|].
  destruct (SignalPipelineFacts.get_signals_survives_strategies
              sample_strategy sample_aggregator tt bare_world Hplain)
    as (out & self' & w' & Hrun & Hcore & _).
  exists out, self', w'. split; [exact Hrun|]. split; [exact Hcore|].
  assert (Hout : fst (SignalPipeline.get_signals sample_strategy
                        sample_aggregator tt bare_world)
                 = Ok (out, self')) by now rewrite Hrun.
  assert (Hworld : snd (SignalPipeline.get_signals sample_strategy
                          sample_aggregator tt bare_world) = w')
    by now rewrite Hrun.
  subst w'. split; [|vm_compute; reflexivity].
  vm_compute in Hout. inversion Hout. reflexivity.
Defined.

(** ** Opening and keeping positions *)

Section OpenPositionFacts.
Context {VS SS : Type} {exchange : ExchangeInterface VS}
        {state_manager : StateManager SS}.
Import RiskManager PositionManager.

Lemma follows_store_event e s (w : World VS SS) :
  risk_event e = true ->
  follows risk_event w (with_trace (e :: trace w) (with_store s w)).
Proof.
  intros He. destruct (@follows_event VS SS risk_event e w He)
    as [T a x p b t h].
  constructor; assumption.
Qed.

Lemma can_open_position_refuses limits symbol amount (w : World VS SS) :
  follows risk_event w (snd (can_open_position limits symbol amount w)) /\
  fst (can_open_position limits symbol amount w) <> Ok true /\
  (forall stored s1 open_positions,
     get_all_positions (store w) = (Ok stored, s1) ->
     open_only stored = Ok open_positions ->
     fst (can_open_position limits symbol amount w)
     = if (max_positions limits <=? Z.of_nat (List.length open_positions))%Z
          || Qlt_bool (max_position_size limits) amount
       then Ok false
       else Raise (mkExn NameError "datetime")).
Proof.
  unfold can_open_position, can_open_position_in, bind, call_store, lift.
  destruct (get_all_positions (store w)) as [[stored|e] s1] eqn:Hstore;
    cbn [fst snd].
  - destruct (open_only stored) as [open_positions|e] eqn:Hopen; cbn [fst snd].
    + destruct (max_positions limits <=? Z.of_nat (List.length open_positions))%Z
        eqn:Hcount.
      * cbn -[Qlt_bool Z.leb Z.of_nat]. split; [|split; [discriminate|]].
        -- eapply follows_trans;
             [apply (follows_store_event GetAllPositions s1 w eq_refl)|].
           apply (@follows_event VS SS risk_event). reflexivity.
        -- intros stored' s1' open' H1 H2. inversion H1; subst.
           rewrite Hopen in H2. inversion H2; subst. now rewrite Hcount.
      * destruct (Qlt_bool (max_position_size limits) amount) eqn:Hsize.
        -- cbn -[Qlt_bool Z.leb Z.of_nat]. split; [|split; [discriminate|]].
           ++ eapply follows_trans;
                [apply (follows_store_event GetAllPositions s1 w eq_refl)|].
              apply (@follows_event VS SS risk_event). reflexivity.
           ++ intros stored' s1' open' H1 H2. inversion H1; subst.
              rewrite Hopen in H2. inversion H2; subst.
              now rewrite Hcount.
        -- cbn -[Qlt_bool Z.leb Z.of_nat]. split; [|split; [discriminate|]].
           ++ apply (follows_store_event GetAllPositions s1 w eq_refl).
           ++ intros stored' s1' open' H1 H2. inversion H1; subst.
              rewrite Hopen in H2. inversion H2; subst.
              now rewrite Hcount.
    + split; [|split; [discriminate|]].
      * apply (follows_store_event GetAllPositions s1 w eq_refl).
      * intros stored' s1' open' H1 H2. inversion H1; subst. congruence.
  - split; [|split; [discriminate|]].
    + apply (follows_store_event GetAllPositions s1 w eq_refl).
    + intros stored' s1' open' H1. discriminate.
Qed.

(** X21: [open_position] never opens a position. Its risk check answers
    [False] or raises, never [True]: when the count of open positions and
    the size are within the limits it stops with [NameError], the name
    [datetime] not being bound in the module of the risk manager. So every
    call raises, the local positions are as before, and nothing but the
    read of the stored positions and a warning is left in the trace: no
    position is written to the store. *)
Theorem open_position_never_opens (limits : RiskLimits)
    (symbol side : string) (amount entry_price : Q) (w : World VS SS) :
  exists e w',
    open_position limits symbol side amount entry_price w = (Raise e, w') /\
    follows risk_event w w' /\
    (forall stored s1 open_positions,
       get_all_positions (store w) = (Ok stored, s1) ->
       open_only stored = Ok open_positions ->
       e = if (max_positions limits <=? Z.of_nat (List.length open_positions))%Z
              || Qlt_bool (max_position_size limits) amount
           then mkExn Exception "Risk limit exceeded"
           else mkExn NameError "datetime").
Proof.
  destruct (can_open_position_refuses limits symbol amount w)
    as (Hfollows & Hnot & Hcases).
  unfold open_position, bind.
  destruct (can_open_position limits symbol amount w) as [[[|]|e] w1] eqn:Hrun;
    cbn [fst snd] in *.
  - congruence.
  - cbn. exists (mkExn Exception "Risk limit exceeded"), w1.
    split; [reflexivity|]. split; [exact Hfollows|].
    intros stored s1 open_positions H1 H2.
    specialize (Hcases stored s1 open_positions H1 H2).
    destruct (_ || _); [reflexivity|discriminate].
  - exists e, w1. split; [reflexivity|]. split; [exact Hfollows|].
    intros stored s1 open_positions H1 H2.
    specialize (Hcases stored s1 open_positions H1 H2).
    destruct (_ || _); [discriminate|congruence].
Qed.

Lemma open_position_keeps_positions limits symbol side amount entry_price
    (w : World VS SS) :
  positions (snd (open_position limits symbol side amount entry_price w))
  = positions w.
Proof.
  destruct (can_open_position_refuses limits symbol amount w)
    as (Hfollows & Hnot & _).
  unfold open_position, bind.
  destruct (can_open_position limits symbol amount w) as [[[|]|e] w1];
    cbn [fst snd] in *; [congruence| |]; apply Hfollows.
Qed.

Lemma Forall_dset (V : Type) (P : string * V -> Prop) k v (d : dict V) :
  Forall P d -> (forall k', k' = k -> P (k', v)) -> Forall P (dset k v d).
Proof.
  intros Hd Hv. induction d as [|[k' v'] d IH]; cbn.
  - constructor; [now apply Hv|constructor].
  - inversion Hd; subst. destruct (String.eqb_spec k k').
    + constructor; [apply Hv; congruence|assumption].
    + constructor; [assumption|now apply IH].
Qed.

Lemma sync_one_well_kept ex_pos (w : World VS SS) :
  well_kept_world w -> well_kept_world (snd (sync_one ex_pos w)).
Proof.
  intros Hw. unfold sync_one, bind, lift.
  destruct (getitem ex_pos "symbol") as [sym|e]; simpl; [|exact Hw].
  destruct (py_str sym) as [sym'|e]; simpl; [|exact Hw].
  unfold PyDict.mem.
  destruct (dget sym' (positions w)) eqn:Hsym; simpl; [exact Hw|].
  destruct (getitem ex_pos "contracts") as [c|e]; simpl; [|exact Hw].
  destruct (py_float c) as [contracts|e]; simpl; [|exact Hw].
  destruct (Qlt_bool 0 contracts); simpl; [|exact Hw].
  destruct (getitem ex_pos "side") as [side_|e]; simpl; [|exact Hw].
  destruct (getitem ex_pos "markPrice") as [mark|e]; simpl; [|exact Hw].
  destruct (py_float mark) as [entry|e]; simpl; [|exact Hw].
  unfold well_kept_world. cbn. apply Forall_dset; [exact Hw|].
  intros k' ->. cbn. split; [reflexivity|]. left. repeat split.
Qed.

Lemma sync_loop_well_kept exchange_positions : forall w : World VS SS,
  well_kept_world w -> well_kept_world (snd (sync_loop exchange_positions w)).
Proof.
  induction exchange_positions as [|ex_pos rest IH]; intros w Hw; simpl;
    [exact Hw|].
  unfold bind. pose proof (sync_one_well_kept ex_pos Hw) as H1.
  destruct (sync_one ex_pos w) as [[[]|e] w1]; simpl in *; [|exact H1].
  now apply IH.
Qed.

(** X22: the local positions stay well kept through every operation of
    the position manager: each is filed under its own symbol and is
    either open, with no exit and a profit of 0, or closed, with its exit
    price and the profit of its side. So the positions that
    [get_open_positions] reports all carry a profit of 0. *)
Theorem positions_stay_well_kept (w : World VS SS) :
  well_kept_world w ->
  (forall limits symbol side amount entry_price,
     well_kept_world
       (snd (open_position limits symbol side amount entry_price w))) /\
  (forall symbol exit_price,
     well_kept_world (snd (close_position symbol exit_price w))) /\
  well_kept_world (snd (sync_positions w)) /\
  (exists open_positions,
     get_open_positions w = (Ok open_positions, w) /\
     Forall (fun p => Position.pnl p = 0 /\ Position.exit_price p = None)
            open_positions).
Proof.
  intros Hw. split; [|split; [|split]].
  - intros limits symbol side amount entry_price.
    unfold well_kept_world.
    rewrite open_position_keeps_positions. exact Hw.
  - intros symbol exit_price.
    destruct (dget symbol (positions w)) as [p|] eqn:Hget;
      [|unfold close_position; rewrite Hget; exact Hw].
    destruct (String.eqb_spec (Position.status p) "closed") as [Hst|Hst].
    + unfold close_position. rewrite Hget, Hst. exact Hw.
    + destruct (close_position_open w symbol exit_price Hget Hst)
        as (Hpos & _).
      unfold well_kept_world. rewrite Hpos.
      apply Forall_dset; [exact Hw|]. intros k' ->.
      apply (get_Some_in _ String.eqb_spec) in Hget.
      unfold well_kept_world in Hw. rewrite Forall_forall in Hw.
      destruct (Hw _ Hget) as [Hsym [(Hopen & _)|(Hclosed & _)]];
        [|contradiction].
      cbn. split; [exact Hsym|]. right. split; [reflexivity|].
      exists exit_price, (clock w). repeat split.
  - unfold sync_positions, try_except, bind, call_venue.
    destruct (fetch_positions (venue w)) as [[l|e] v]; simpl; [|exact Hw].
    assert (H0 : well_kept_world
                   (with_venue v (with_trace (FetchPositions :: trace w) w)))
      by exact Hw.
    pose proof (sync_loop_well_kept l H0) as H1.
    destruct (sync_loop l _) as [[[]|e] w1]; simpl in *; exact H1.
  - eexists. split; [reflexivity|].
    unfold well_kept_world in Hw. unfold PyDict.values.
    induction (positions w) as [|[k p] d IH]; cbn; [constructor|].
    inversion Hw as [|x l Hp Hd]; subst.
    destruct (String.eqb_spec (Position.status p) "open") as [Hopen|Hopen].
    + constructor; [|now apply IH].
      destruct Hp as [_ [(_ & Hpnl & Hexit & _)|(Hclosed & _)]];
        [split; assumption|congruence].
    + now apply IH.
Qed.

End OpenPositionFacts.

Lemma positions_stay_well_kept_witness :
  well_kept_world long_world /\
  well_kept_world
    (snd (PositionManager.close_position "ETH" 110 long_world)).
Proof.
  assert (H : well_kept_world long_world).
  { unfold well_kept_world. vm_compute positions.
    constructor; [|constructor]. cbn. split; [reflexivity|].
    left. repeat split. }
  split; [exact H|].
  exact (proj1 (proj2 (positions_stay_well_kept
                         (exchange := Scripted.exchange) H)) _ _).
Defined.

(** ** The spread strategy *)

Section SpreadFacts.
Context {VS SS : Type}.
Import SpreadTradingStrategy.
Variable _has_long_position : t -> M VS SS bool.

Lemma has_long_position_missing self (w : World VS SS) :
  self_has_long_position instance_attributes _has_long_position self w
  = (Raise (mkExn AttributeError "_has_long_position"), w).
Proof. reflexivity. Qed.

Lemma spread_percentage_pure perp_data futures_data (w : World VS SS) :
  snd (_calculate_spread_percentage perp_data futures_data w) = w.
Proof.
  unfold _calculate_spread_percentage, bind, lift, ret.
  destruct (getitem perp_data "close") as [perp_close|e]; cbn [fst snd];
    [|reflexivity].
  destruct (1 <? List.length perp_close)%nat; [|reflexivity].
  destruct (getitem futures_data "close") as [futures_close|e]; cbn [fst snd];
    [|reflexivity].
  destruct (1 <? List.length futures_close)%nat; [|reflexivity].
  destruct (pct_change perp_close); cbn [fst snd]; [|reflexivity].
  destruct (pct_change futures_close); reflexivity.
Qed.

(** X23: [calculate_signals] never gives a signal. The object has no
    [_has_long_position], so the call stops with [AttributeError] as soon
    as a threshold is crossed: the spread at -0.06 or below after a
    previous one at -0.1 or below, or the spread at 0.04 or above. In the
    other cases it answers the empty list and remembers the spread; when
    it raises it remembers nothing. *)
Theorem calculate_signals_never_signals (self : t) (market_data : MarketData)
    (w : World VS SS) :
  snd (calculate_signals instance_attributes _has_long_position self
         market_data w) = w /\
  (forall signals self',
     fst (calculate_signals instance_attributes _has_long_position self
            market_data w) = Ok (signals, self') ->
     signals = []) /\
  (forall perp_data futures_data previous pct_diff,
     dget "ETHUSDT" (klines market_data) = Some perp_data ->
     dget "ETHUSDT_240927" (klines market_data) = Some futures_data ->
     fst (_calculate_spread_percentage perp_data futures_data w)
     = Ok (Some pct_diff) ->
     prev_pct_diff self = Some previous ->
     fst (calculate_signals instance_attributes _has_long_position self
            market_data w)
     = if (Qle_bool previous (- (1 # 10)) && Qle_bool pct_diff (- (6 # 100)))
          || Qle_bool (4 # 100) pct_diff
       then Raise (mkExn AttributeError "_has_long_position")
       else Ok ([], mk (Some pct_diff) (position_state self))).
Proof.
  unfold calculate_signals, bind, lift, getitem.
  destruct (dget "ETHUSDT" (klines market_data)) as [perp|] eqn:Hp;
    cbn [fst snd];
    [|split; [reflexivity|split; [intros ? ? H; cbn in H; congruence
                                 |intros; congruence]]].
  destruct (dget "ETHUSDT_240927" (klines market_data)) as [futures|] eqn:Hf;
    cbn [fst snd];
    [|split; [reflexivity|split; [intros ? ? H; cbn in H; congruence
                                 |intros; congruence]]].
  pose proof (spread_percentage_pure perp futures w) as Hpure.
  destruct (_calculate_spread_percentage perp futures w) as [[pct|e] w1] eqn:Hs;
    cbn [fst snd] in Hpure; subst w1; cbn [fst snd].
  2: { split; [reflexivity|]. split; [intros ? ? H; cbn in H; congruence|].
       intros ? ? ? ? H1 H2 H3. inversion H1; inversion H2; subst.
       rewrite Hs in H3. discriminate. }
  assert (Hspread : forall perp_data futures_data pct_diff,
            Some perp = Some perp_data -> Some futures = Some futures_data ->
            fst (_calculate_spread_percentage perp_data futures_data w)
            = Ok (Some pct_diff) -> pct = Some pct_diff).
  { intros ? ? ? H1 H2 H3. inversion H1; inversion H2; subst.
    rewrite Hs in H3. cbn in H3. congruence. }
  clear Hs.
  unfold compare, ret.
  destruct (prev_pct_diff self) as [previous|]; cbn [fst snd];
    [|split; [reflexivity|split; [intros ? ? H; cbn in H; congruence|intros; congruence]]].
  destruct pct as [x|].
  - destruct (Qle_bool previous (- (1 # 10))) eqn:Hprev; cbn [fst snd].
    + destruct (Qle_bool x (- (6 # 100))) eqn:Hlow; cbn [fst snd].
      * rewrite has_long_position_missing. cbn [fst snd].
        split; [reflexivity|]. split; [intros ? ? H; cbn in H; congruence|].
        intros ? ? ? ? H1 H2 H3 H4. inversion H4; subst.
        pose proof (Hspread _ _ _ H1 H2 H3) as Hx. inversion Hx; subst.
        rewrite Hprev, Hlow. reflexivity.
      * destruct (Qle_bool (4 # 100) x) eqn:Hhigh; cbn [fst snd].
        -- rewrite has_long_position_missing. cbn [fst snd].
           split; [reflexivity|]. split; [intros ? ? H; cbn in H; congruence|].
           intros ? ? ? ? H1 H2 H3 H4. inversion H4; subst.
           pose proof (Hspread _ _ _ H1 H2 H3) as Hx. inversion Hx; subst.
           rewrite Hprev, Hlow, Hhigh. reflexivity.
        -- split; [reflexivity|]. split; [intros ? ? H; now inversion H|].
           intros ? ? ? ? H1 H2 H3 H4. inversion H4; subst.
           pose proof (Hspread _ _ _ H1 H2 H3) as Hx. inversion Hx; subst.
           rewrite Hprev, Hlow, Hhigh. reflexivity.
    + destruct (Qle_bool (4 # 100) x) eqn:Hhigh; cbn [fst snd].
      * rewrite has_long_position_missing. cbn [fst snd].
        split; [reflexivity|]. split; [intros ? ? H; cbn in H; congruence|].
        intros ? ? ? ? H1 H2 H3 H4. inversion H4; subst.
        pose proof (Hspread _ _ _ H1 H2 H3) as Hx. inversion Hx; subst.
        rewrite Hprev, Hhigh. reflexivity.
      * split; [reflexivity|]. split; [intros ? ? H; now inversion H|].
        intros ? ? ? ? H1 H2 H3 H4. inversion H4; subst.
        pose proof (Hspread _ _ _ H1 H2 H3) as Hx. inversion Hx; subst.
        rewrite Hprev, Hhigh. reflexivity.
  - assert (Hnone : forall perp_data futures_data previous0 pct_diff,
              Some perp = Some perp_data -> Some futures = Some futures_data ->
              fst (_calculate_spread_percentage perp_data futures_data w)
              = Ok (Some pct_diff) -> Some previous = Some previous0 -> False).
    { intros ? ? ? ? H1 H2 H3 _. pose proof (Hspread _ _ _ H1 H2 H3).
      discriminate. }
    destruct (Qle_bool previous (- (1 # 10))); cbn [fst snd];
      (split; [reflexivity|split; [intros ? ? H; cbn in H; congruence|]];
       intros ? ? ? ? H1 H2 H3 H4; destruct (Hnone _ _ _ _ H1 H2 H3 H4)).
Qed.

End SpreadFacts.

(** ** The mock exchange *)

Section MockFacts.
Context {SS : Type}.
Import MockExchange.

Ltac offline H :=
  unfold fetch_balance, fetch_order_book, create_order, cancel_order,
    fetch_open_orders, fetch_positions, fetch_order, fetch_ticker,
    _check_connected, self, bind;
  cbn [fst snd]; rewrite H; reflexivity.

(** X24: a mock exchange that is not connected refuses every call: each
    raises "Not connected to exchange" and changes nothing, not even the
    clock. [connect] opens it after a tenth of a second, and [disconnect]
    closes it again, keeping the orders and the positions it holds. *)
Theorem mock_needs_connection (w : World MockExchange.t SS) :
  _connected (venue w) = false ->
  fetch_balance w = (Raise not_connected, w) /\
  (forall symbol limit,
     fetch_order_book symbol limit w = (Raise not_connected, w)) /\
  (forall symbol order_type side amount price,
     create_order symbol order_type side amount price w
     = (Raise not_connected, w)) /\
  (forall order_id symbol,
     cancel_order order_id symbol w = (Raise not_connected, w)) /\
  (forall symbol, fetch_open_orders symbol w = (Raise not_connected, w)) /\
  fetch_positions w = (Raise not_connected, w) /\
  (forall order_id symbol,
     fetch_order order_id symbol w = (Raise not_connected, w)) /\
  (forall symbol, fetch_ticker symbol w = (Raise not_connected, w)) /\
  (let w1 := snd (connect w) in
   fst (connect w) = Ok tt /\
   venue w1 = with_connected true (venue w) /\
   clock w1 = clock w + (1 # 10) /\
   (exists positions w2, fetch_positions w1 = (Ok positions, w2)) /\
   venue (snd (disconnect w1)) = venue w).
Proof.
  intros H.
  split; [offline H|]. split; [intros; offline H|].
  split; [intros; offline H|]. split; [intros; offline H|].
  split; [intros; offline H|]. split; [offline H|].
  split; [intros; offline H|]. split; [intros; offline H|].
  cbn. split; [reflexivity|]. split; [reflexivity|]. split; [reflexivity|].
  split; [eexists; eexists; reflexivity|].
  destruct w as [v s c us uc rs rc t h a p e o u]. cbn in *.
  destruct v as [conn bal pos ord last]. cbn in *. subst conn. reflexivity.
Qed.

End MockFacts.

Lemma mock_needs_connection_witness :
  MockExchange._connected (venue offline_world) = false /\
  MockExchange.fetch_positions offline_world
  = (Raise not_connected, offline_world).
Proof.
  assert (H : MockExchange._connected (venue offline_world) = false)
    by reflexivity.
  split; [exact H|].
  exact (proj1 (proj2 (proj2 (proj2 (proj2 (proj2
           (@mock_needs_connection unit offline_world H))))))).
Defined.

Lemma dget_ddel_same (V : Type) k (d : dict V) :
  dget k (MockExchange.ddel k d) = None.
Proof.
  unfold MockExchange.ddel.
  induction d as [|[k' v] d IH]; cbn; [reflexivity|].
  destruct (String.eqb_spec k k') as [->|Hne]; cbn; [exact IH|].
  destruct (String.eqb_spec k k'); [contradiction|exact IH].
Qed.

Lemma dget_ddel_other (V : Type) k k' (d : dict V) :
  k' <> k -> dget k' (MockExchange.ddel k d) = dget k' d.
Proof.
  intros Hne. unfold MockExchange.ddel.
  induction d as [|[k0 v] d IH]; cbn; [reflexivity|].
  destruct (String.eqb_spec k k0) as [->|Hk]; cbn.
  - destruct (String.eqb_spec k' k0); [contradiction|exact IH].
  - destruct (String.eqb_spec k' k0); [reflexivity|exact IH].
Qed.

Section MockOrderFacts.
Context {SS : Type}.
Import MockExchange.

Lemma simulate_order_fill_known order_id order (w : World MockExchange.t SS) :
  dget order_id (_orders (venue w)) = Some order ->
  _simulate_order_fill order_id w
  = (Ok tt,
     with_venue
       (let s := with_orders (dset order_id (fill order) (_orders (venue w)))
                   (venue w) in
        match dget (o_symbol order) (_positions (venue w)) with
        | None =>
            with_positions
              (dset (o_symbol order) (opened_by order) (_positions (venue w))) s
        | Some position =>
            let contracts :=
              if String.eqb (o_side order) "buy"
              then p_contracts position + o_amount order
              else p_contracts position - o_amount order in
            if Qle_bool contracts 0
            then with_positions (ddel (o_symbol order) (_positions (venue w))) s
            else with_positions
                   (dset (o_symbol order) (with_contracts contracts position)
                      (_positions (venue w))) s
        end) w).
Proof.
  intros H. unfold _simulate_order_fill, self, bind. cbn [fst snd].
  rewrite H. unfold update. cbn [fst snd venue with_venue fill o_symbol
    _positions with_orders].
  destruct (dget (o_symbol order) (_positions (venue w))) as [position|].
  - cbn -[Qle_bool Qplus Qminus PyDict.set PyDict.get ddel String.eqb].
    destruct (String.eqb (o_side order) "buy");
      cbn -[Qle_bool Qplus Qminus PyDict.set PyDict.get ddel String.eqb];
      destruct (Qle_bool _ 0); reflexivity.
  - reflexivity.
Qed.

#[local] Arguments _simulate_order_fill : simpl never.

(** X25: on a connected mock exchange a market order is filled at once,
    whole and at its own price, and it moves the position of its symbol: it
    opens one of its size when there is none, long for a buy and short for
    any other side; it adds its size to the one there for a buy and takes
    it off for any other side, whatever the side of the position, which is
    dropped when nothing positive is left. So a buy makes a short position
    larger. The positions of the other symbols stay as they are. *)
Theorem market_order_moves_position (symbol side : string) (amount : Q)
    (price : option Q) (w : World MockExchange.t SS) :
  _connected (venue w) = true ->
  exists order w',
    create_order symbol "market" side amount price w = (Ok order, w') /\
    o_symbol order = symbol /\ o_side order = side /\
    o_status order = "closed" /\
    o_filled order = amount /\ o_remaining order = 0 /\
    o_price order = price_or_last price symbol (venue w) /\
    o_average order = Some (o_price order) /\
    dget (o_id order) (_orders (venue w')) = Some order /\
    match dget symbol (_positions (venue w)) with
    | None =>
        dget symbol (_positions (venue w'))
        = Some (mkPosition symbol
                  (if String.eqb side "buy" then "long" else "short")
                  amount (o_price order) (o_price order) 0
                  (amount * o_price order / 10))
    | Some position =>
        let contracts :=
          if String.eqb side "buy" then p_contracts position + amount
          else p_contracts position - amount in
        dget symbol (_positions (venue w'))
        = if Qle_bool contracts 0 then None
          else Some (with_contracts contracts position)
    end /\
    (forall other, other <> symbol ->
       dget other (_positions (venue w')) = dget other (_positions (venue w))).
Proof.
  intros H.
  destruct w as [v s c us uc rs rc t h a p e o u]. cbn [venue] in *.
  unfold create_order, _check_connected, self, bind, sleep, uuid4,
    timestamp_ms, utcnow, update, ret, bind.
  cbn -[Qplus Qmult PyDict.set PyDict.get _simulate_order_fill py_int
        price_or_last String.eqb the_order].
  rewrite H.
  cbn -[Qplus Qmult PyDict.set PyDict.get _simulate_order_fill py_int
        price_or_last the_order].
  set (order_id := us uc).
  set (order := mkOrder order_id symbol "market" side amount
                  (price_or_last price symbol v) "open" 0 amount
                  (py_int ((c + (1 # 10)) * 1000)) None).
  set (w1 := with_venue _ _).
  assert (Hknown : dget order_id (_orders (venue w1)) = Some order)
    by (unfold w1; cbn; apply dget_dset_same).
  destruct (_simulate_order_fill order_id w1) as [r w2] eqn:E.
  rewrite (@simulate_order_fill_known order_id order w1 Hknown) in E.
  inversion E; subst r w2; clear E.
  unfold the_order, self, bind, lift, getitem.
  cbn -[Qplus Qminus Qmult Qdiv Qle_bool PyDict.set PyDict.get ddel py_int
        price_or_last String.eqb].
  destruct (dget symbol (_positions v)) as [position|] eqn:Hpos.
  - destruct (Qle_bool (if (side =? "buy")%string
                        then p_contracts position + amount
                        else p_contracts position - amount) 0) eqn:Hle;
      cbn -[Qplus Qminus Qmult Qdiv Qle_bool PyDict.set PyDict.get ddel
            py_int price_or_last String.eqb];
      rewrite dget_dset_same;
      eexists; eexists; (split; [reflexivity|]);
      cbn -[Qplus Qminus Qmult Qdiv Qle_bool PyDict.set PyDict.get ddel
            py_int price_or_last String.eqb];
      rewrite dget_dset_same; repeat (split; [reflexivity|]).
    + split; [apply dget_ddel_same|]. intros other Hne.
      now apply dget_ddel_other.
    + split; [apply dget_dset_same|]. intros other Hne.
      now apply dget_dset_other.
  - cbn -[Qplus Qminus Qmult Qdiv Qle_bool PyDict.set PyDict.get ddel
          py_int price_or_last String.eqb].
    rewrite dget_dset_same.
    eexists; eexists; (split; [reflexivity|]).
    cbn -[Qplus Qminus Qmult Qdiv Qle_bool PyDict.set PyDict.get ddel
          py_int price_or_last String.eqb].
    rewrite dget_dset_same. repeat (split; [reflexivity|]).
    split; [apply dget_dset_same|]. intros other Hne.
    now apply dget_dset_other.
Qed.

(** X26: [cancel_order] on a connected mock exchange looks at the
    identifier only: an order it knows is marked cancelled whatever its
    status, a filled one too, which keeps its fill and leaves the
    positions as they are; the other orders are not touched, and the
    symbol given is not compared with the one of the order. After that
    [fetch_order] reports it cancelled and draws no random number, so it is
    never filled. For an identifier it does not know the answer is [False]
    and nothing changes. *)
Theorem mock_cancel_ignores_status (order_id symbol : string)
    (w : World MockExchange.t SS) :
  _connected (venue w) = true ->
  match dget order_id (_orders (venue w)) with
  | Some order =>
      exists w',
        cancel_order order_id symbol w = (Ok true, w') /\
        dget order_id (_orders (venue w'))
        = Some (with_status "cancelled" order) /\
        o_filled (with_status "cancelled" order) = o_filled order /\
        (forall other, other <> order_id ->
           dget other (_orders (venue w')) = dget other (_orders (venue w))) /\
        _positions (venue w') = _positions (venue w) /\
        (forall symbol', exists w'',
           fetch_order order_id symbol' w'
           = (Ok (with_status "cancelled" order), w'') /\
           venue w'' = venue w' /\ random_count w'' = random_count w')
  | None =>
      exists w', cancel_order order_id symbol w = (Ok false, w') /\
                 venue w' = venue w
  end.
Proof.
  intros H.
  destruct w as [v s c us uc rs rc t h a p e o u]. cbn [venue] in *.
  unfold cancel_order, _check_connected, self, bind, sleep, update, ret.
  cbn -[Qplus PyDict.set PyDict.get String.eqb fetch_order]. rewrite H.
  cbn -[Qplus PyDict.set PyDict.get String.eqb fetch_order].
  destruct (dget order_id (_orders v)) as [order|] eqn:Hget;
    cbn -[Qplus PyDict.set PyDict.get String.eqb fetch_order].
  - eexists. split; [reflexivity|].
    cbn -[Qplus PyDict.set PyDict.get String.eqb fetch_order].
    split; [apply dget_dset_same|]. split; [reflexivity|].
    split; [intros other Hne; now apply dget_dset_other|].
    split; [reflexivity|]. intros symbol'.
    unfold fetch_order, _check_connected, self, bind, sleep, ret, the_order,
      lift, getitem.
    cbn -[Qplus PyDict.set PyDict.get String.eqb]. rewrite H.
    cbn -[Qplus PyDict.set PyDict.get String.eqb].
    rewrite dget_dset_same.
    cbn -[Qplus PyDict.set PyDict.get].
    rewrite dget_dset_same.
    eexists. split; [reflexivity|]. split; reflexivity.
  - eexists. split; reflexivity.
Qed.

(** X27: [fetch_order] on a connected mock exchange raises for an
    identifier it does not know. It draws a random number only for a limit
    order that is open, and fills the order when the draw is above 0.7: the
    order comes back closed, filled whole at its price. Every other order,
    and a limit order whose draw is 0.7 or less, comes back as it is and
    the exchange is as before. *)
Theorem fetch_order_fill_chance (order_id symbol : string)
    (w : World MockExchange.t SS) :
  _connected (venue w) = true ->
  match dget order_id (_orders (venue w)) with
  | None =>
      exists w',
        fetch_order order_id symbol w
        = (Raise (mkExn Exception "Order not found"), w') /\
        venue w' = venue w /\ random_count w' = random_count w
  | Some order =>
      exists answer w',
        fetch_order order_id symbol w = (Ok answer, w') /\
        dget order_id (_orders (venue w')) = Some answer /\
        if String.eqb (o_status order) "open"
           && String.eqb (o_type order) "limit"
        then
          random_count w' = S (random_count w) /\
          if Qlt_bool (7 # 10) (random_source w (random_count w))
          then answer = fill order
          else answer = order /\ venue w' = venue w
        else
          answer = order /\ venue w' = venue w /\
          random_count w' = random_count w
  end.
Proof.
  intros H.
  destruct w as [v s c us uc rs rc t h a p e o u]. cbn [venue] in *.
  unfold fetch_order, _check_connected, self, bind, sleep, ret, raise.
  cbn -[Qplus PyDict.set PyDict.get String.eqb Qlt_bool the_order random
        _simulate_order_fill]. rewrite H.
  cbn -[Qplus PyDict.set PyDict.get String.eqb Qlt_bool the_order random
        _simulate_order_fill].
  destruct (dget order_id (_orders v)) as [order|] eqn:Hget;
    cbn -[Qplus PyDict.set PyDict.get String.eqb Qlt_bool the_order random
          _simulate_order_fill];
    [|eexists; split; [reflexivity|split; reflexivity]].
  destruct (String.eqb (o_status order) "open"
            && String.eqb (o_type order) "limit");
    cbn -[Qplus PyDict.set PyDict.get String.eqb Qlt_bool the_order
          _simulate_order_fill].
  - destruct (Qlt_bool (7 # 10) (rs rc)).
    + set (w1 := with_random_count _ _).
      assert (Hknown : dget order_id (_orders (venue w1)) = Some order)
        by exact Hget.
      destruct (_simulate_order_fill order_id w1) as [r w2] eqn:E.
      rewrite (@simulate_order_fill_known order_id order w1 Hknown) in E.
      inversion E; subst r w2; clear E. subst w1.
      unfold the_order, self, bind, lift, getitem.
      cbn -[Qplus Qminus Qle_bool PyDict.set PyDict.get ddel String.eqb].
      assert (Hafter :
        dget order_id
          (_orders
             match dget (o_symbol order) (_positions v) with
             | Some position =>
                 if Qle_bool
                      (if (o_side order =? "buy")%string
                       then p_contracts position + o_amount order
                       else p_contracts position - o_amount order) 0
                 then with_positions (ddel (o_symbol order) (_positions v))
                        (with_orders (dset order_id (fill order) (_orders v)) v)
                 else with_positions
                        (dset (o_symbol order)
                           (with_contracts
                              (if (o_side order =? "buy")%string
                               then p_contracts position + o_amount order
                               else p_contracts position - o_amount order)
                              position)
                           (_positions v))
                        (with_orders (dset order_id (fill order) (_orders v)) v)
             | None =>
                 with_positions
                   (dset (o_symbol order) (opened_by order) (_positions v))
                   (with_orders (dset order_id (fill order) (_orders v)) v)
             end) = Some (fill order)).
      { destruct (dget (o_symbol order) (_positions v)) as [position|];
          [destruct (Qle_bool _ 0)|]; cbn; apply dget_dset_same. }
      rewrite Hafter. eexists. eexists. split; [reflexivity|].
      cbn -[Qplus Qminus Qle_bool PyDict.set PyDict.get ddel String.eqb].
      split; [exact Hafter|]. split; reflexivity.
    + unfold the_order, self, bind, lift, getitem.
      cbn -[Qplus PyDict.set PyDict.get]. rewrite Hget.
      eexists. eexists. split; [reflexivity|]. cbn. rewrite Hget.
      repeat split; reflexivity.
  - unfold the_order, self, bind, lift, getitem.
    cbn -[Qplus PyDict.set PyDict.get]. rewrite Hget.
    eexists. eexists. split; [reflexivity|]. cbn. rewrite Hget.
    repeat split; reflexivity.
Qed.

End MockOrderFacts.

Lemma market_order_moves_position_witness :
  MockExchange._connected (venue mock_world) = true /\
  exists order w',
    MockExchange.create_order "ETH/USDT:USDT" "market" "sell" 1 None mock_world
    = (Ok order, w') /\
    MockExchange.o_status order = "closed".
Proof.
  assert (H : MockExchange._connected (venue mock_world) = true)
    by reflexivity.
  split; [exact H|].
  destruct (@market_order_moves_position unit "ETH/USDT:USDT" "sell" 1 None
              mock_world H) as (order & w' & Hrun & _ & _ & Hstatus & _).
  exists order, w'. split; assumption.
Defined.

Lemma mock_cancel_ignores_status_witness :
  MockExchange._connected (venue mock_traded_world) = true /\
  exists w',
    MockExchange.cancel_order "a" "BTC/USDT:USDT" mock_traded_world
    = (Ok true, w').
Proof.
  assert (H : MockExchange._connected (venue mock_traded_world) = true)
    by reflexivity.
  split; [exact H|].
  pose proof (@mock_cancel_ignores_status unit "a" "BTC/USDT:USDT"
                mock_traded_world H) as T.
  destruct (dget "a" (MockExchange._orders (venue mock_traded_world)))
    as [order|] eqn:E.
  - destruct T as (w' & Hrun & _). exists w'. exact Hrun.
  - vm_compute in E. discriminate E.
Defined.

Lemma fetch_order_fill_chance_witness :
  MockExchange._connected (venue mock_resting_world) = true /\
  exists answer w',
    MockExchange.fetch_order "a" "ETH/USDT:USDT" mock_resting_world
    = (Ok answer, w').
Proof.
  assert (H : MockExchange._connected (venue mock_resting_world) = true)
    by reflexivity.
  split; [exact H|].
  pose proof (@fetch_order_fill_chance unit "a" "ETH/USDT:USDT"
                mock_resting_world H) as T.
  destruct (dget "a" (MockExchange._orders (venue mock_resting_world)))
    as [order|] eqn:E.
  - destruct T as (answer & w' & Hrun & _). exists answer, w'. exact Hrun.
  - vm_compute in E. discriminate E.
Defined.

(** ** Books fetched from the mock exchange *)

Section MockBookFacts.
Context {SS : Type}.
Import MockExchange OrderBookFetch OrderBookMethods.

Lemma levels_of_entries (levels : list OrderBookLevel) :
  levels_of (map (fun level => [level_price level; quantity level]) levels)
  = Ok levels.
Proof.
  induction levels as [|[price quantity] levels IH]; [reflexivity|].
  cbn. cbn in IH. rewrite IH. reflexivity.
Qed.

Lemma book_levels_spec base_price turns :
  forall i (w : World MockExchange.t SS),
  exists bid_levels ask_levels w',
    book_levels base_price i turns w
    = (Ok (map (fun level => [level_price level; quantity level]) bid_levels,
           map (fun level => [level_price level; quantity level]) ask_levels),
       w') /\
    List.length bid_levels = turns /\ List.length ask_levels = turns /\
    venue w' = venue w /\ clock w' = clock w /\ trace w' = trace w /\
    order_books w' = order_books w /\
    random_count w' = (random_count w + 2 * turns)%nat /\
    (forall k bid, nth_error bid_levels k = Some bid ->
       level_price bid
       = base_price
         * (1 - (2 # 100) / 100 - inject_Z (Z.of_nat (i + k)) * (1 # 1000))) /\
    (forall k ask, nth_error ask_levels k = Some ask ->
       level_price ask
       = base_price
         * (1 + (2 # 100) / 100 + inject_Z (Z.of_nat (i + k)) * (1 # 1000))).
Proof.
  induction turns as [|turns IH]; intros i w.
  - exists [], [], w. cbn. repeat split; try lia;
      intros [|k] level H; discriminate H.
  - cbn [book_levels]. unfold bind at 1. unfold random_uniform at 1.
    cbn [fst snd]. unfold bind at 1. unfold random_uniform at 1.
    cbn [fst snd].
    set (w2 := with_random_count _ (with_random_count _ w)).
    destruct (IH (S i) w2) as (bids & asks & w' & Hrun & Lb & La & V & C & T
                               & O & R & Hbids & Hasks).
    unfold bind at 1. rewrite Hrun. unfold ret. cbn [fst snd].
    exists (mkLevel
              (base_price
               * (1 - (2 # 100) / 100 - inject_Z (Z.of_nat i) * (1 # 1000)))
              ((1 # 10) + (2 - (1 # 10)) * random_source w (random_count w))
            :: bids),
           (mkLevel
              (base_price
               * (1 + (2 # 100) / 100 + inject_Z (Z.of_nat i) * (1 # 1000)))
              ((1 # 10)
               + (2 - (1 # 10)) * random_source w (S (random_count w)))
            :: asks), w'.
    split; [reflexivity|]. cbn [List.length].
    split; [lia|]. split; [lia|].
    split; [rewrite V; reflexivity|]. split; [rewrite C; reflexivity|].
    split; [rewrite T; reflexivity|]. split; [rewrite O; reflexivity|].
    split; [rewrite R; unfold w2; cbn; lia|].
    split; intros [|k] level Hnth; cbn [nth_error] in Hnth.
    + injection Hnth as <-. rewrite Nat.add_0_r. reflexivity.
    + rewrite Nat.add_succ_r. exact (Hbids k level Hnth).
    + injection Hnth as <-. rewrite Nat.add_0_r. reflexivity.
    + rewrite Nat.add_succ_r. exact (Hasks k level Hnth).
Qed.

(** X28: the book that [OrderBookManager.fetch_order_book] builds from a
    connected mock exchange holds as many levels on each side as were
    asked for, priced as the mock computes them from the last price of
    the symbol: the bid of rank [i], from 0, at
    [base_price * (1 - spread/100 - i * 0.001)] and the ask at
    [base_price * (1 + spread/100 + i * 0.001)], with a spread of 0.02.
    The book is cached under its symbol; the first call succeeds, so the
    retry decorator makes no second one: there is one wait, and two
    random numbers are drawn for each level. *)
Theorem mock_book_levels (symbol : string) (limit : nat)
    (w : World MockExchange.t SS) :
  _connected (venue w) = true ->
  exists order_book w',
    OrderBookFetch.fetch_order_book MockExchange.fetch_order_book symbol limit w
    = (Ok (Some order_book), w') /\
    dget symbol (order_books w') = Some order_book /\
    List.length (bids order_book) = limit /\
    List.length (asks order_book) = limit /\
    random_count w' = (random_count w + 2 * limit)%nat /\
    count is_sleep (trace w') = S (count is_sleep (trace w)) /\
    (forall i bid, nth_error (bids order_book) i = Some bid ->
       level_price bid
       = last_price symbol (venue w)
         * (1 - (2 # 100) / 100 - inject_Z (Z.of_nat i) * (1 # 1000))) /\
    (forall i ask, nth_error (asks order_book) i = Some ask ->
       level_price ask
       = last_price symbol (venue w)
         * (1 + (2 # 100) / 100 + inject_Z (Z.of_nat i) * (1 # 1000))).
Proof.
  intros H.
  unfold OrderBookFetch.fetch_order_book, retry_async, retry_run.
  cbn [max_attempts fetch_order_book_policy Z.to_nat Pos.to_nat
       Pos.iter_op Nat.add retry_loop Z.leb Z.compare].
  assert (Hbody : exists order_book w',
    fetch_order_book_body MockExchange.fetch_order_book symbol limit w
    = (Ok order_book, w') /\
    dget symbol (order_books w') = Some order_book /\
    List.length (bids order_book) = limit /\
    List.length (asks order_book) = limit /\
    random_count w' = (random_count w + 2 * limit)%nat /\
    count is_sleep (trace w') = S (count is_sleep (trace w)) /\
    (forall i bid, nth_error (bids order_book) i = Some bid ->
       level_price bid
       = last_price symbol (venue w)
         * (1 - (2 # 100) / 100 - inject_Z (Z.of_nat i) * (1 # 1000))) /\
    (forall i ask, nth_error (asks order_book) i = Some ask ->
       level_price ask
       = last_price symbol (venue w)
         * (1 + (2 # 100) / 100 + inject_Z (Z.of_nat i) * (1 # 1000)))).
  { unfold fetch_order_book_body, try_except, MockExchange.fetch_order_book.
    unfold bind at 1. unfold bind at 1. unfold _check_connected, self.
    unfold bind at 1. cbn [fst snd]. rewrite H. unfold ret at 1.
    cbn [fst snd]. unfold bind at 1. unfold sleep at 1. cbn [fst snd].
    unfold bind at 1. cbn [fst snd].
    set (w1 := with_clock _ _).
    destruct (book_levels_spec (last_price symbol (venue w1)) limit 0 w1)
      as (bid_levels & ask_levels & w2 & Hrun & Lb & La & V & C & T & O & R
          & Hbid & Hask).
    unfold bind at 1. rewrite Hrun.
    unfold timestamp_ms, utcnow, bind, ret, lift, cache. cbn [fst snd].
    cbn [raw_bids raw_asks raw_timestamp].
    rewrite !levels_of_entries. cbn [fst snd].
    eexists. eexists. split; [reflexivity|].
    cbn [order_books with_order_books bids asks random_count trace].
    split; [apply dget_dset_same|]. split; [exact Lb|]. split; [exact La|].
    split; [rewrite R; reflexivity|].
    split; [rewrite T; reflexivity|].
    split; intros i level Hnth.
    - exact (Hbid i level Hnth).
    - exact (Hask i level Hnth). }
  destruct Hbody as (order_book & w' & Hrun & Hrest).
  exists order_book, w'. split; [|exact Hrest].
  change (Pos.to_nat 3) with 3%nat.
  cbn [retry_loop max_attempts fetch_order_book_policy Z.leb Z.compare].
  rewrite Hrun. reflexivity.
Qed.

End MockBookFacts.

Lemma mock_book_levels_witness :
  MockExchange._connected (venue mock_world) = true /\
  exists order_book w',
    OrderBookFetch.fetch_order_book MockExchange.fetch_order_book
      "ETH/USDT:USDT" 10 mock_world
    = (Ok (Some order_book), w') /\
    List.length (bids order_book) = 10%nat /\
    option_map level_price (OrderBookMethods.get_best_bid order_book)
    = Some (2500 * (1 - (2 # 100) / 100 - 0 * (1 # 1000))).
Proof.
  assert (H : MockExchange._connected (venue mock_world) = true)
    by reflexivity.
  split; [exact H|].
  destruct (@mock_book_levels unit "ETH/USDT:USDT" 10 mock_world H)
    as (order_book & w' & Hrun & _ & Hbids & _ & _ & _ & Hbid & _).
  exists order_book, w'. split; [exact Hrun|]. split; [exact Hbids|].
  unfold OrderBookMethods.get_best_bid.
  destruct (bids order_book) as [|bid rest]; [discriminate Hbids|].
  cbn [option_map]. f_equal. exact (Hbid 0%nat bid eq_refl).
Defined.

(** ** Alerts *)

Module AlertFacts.
Import AlertManager.










Section SendFacts.
Context {VS SS : Type}.
Variable session_post : string -> Alert -> M VS SS Z.
Variable response_text : M VS SS string.




End SendFacts.
End AlertFacts.


(** ** Health checks *)

Module HealthFacts.
Import HealthMonitor.

Lemma judge_healthy readings :
  fst (judge readings) = HEALTHY <->
  cpu_percent readings <= 80 /\ memory_percent readings <= 85 /\
  disk_percent readings <= 90.
Proof.
  unfold judge.
  destruct (Qlt_bool 80 (cpu_percent readings)) eqn:Hc;
    destruct (Qlt_bool 85 (memory_percent readings)) eqn:Hm;
    destruct (Qlt_bool 90 (disk_percent readings)) eqn:Hd; cbn;
    rewrite ?Qlt_bool_iff, ?Qlt_bool_false_iff in *;
    (split; [intros H; try discriminate H; repeat split; assumption
            |intros (H1 & H2 & H3); try reflexivity; lra]).
Qed.

Lemma judge_unhealthy readings :
  fst (judge readings) = UNHEALTHY <-> 90 < disk_percent readings.
Proof.
  unfold judge.
  destruct (Qlt_bool 80 (cpu_percent readings)) eqn:Hc;
    destruct (Qlt_bool 85 (memory_percent readings)) eqn:Hm;
    destruct (Qlt_bool 90 (disk_percent readings)) eqn:Hd; cbn;
    rewrite ?Qlt_bool_iff, ?Qlt_bool_false_iff in *;
    (split; [intros H; try discriminate H; assumption
            |intros H; try reflexivity; lra]).
Qed.

Section Facts.
Context {VS SS : Type}.
Variable psutil : M VS SS Readings.

(** X30: after the default checks have run, the status that the health
    endpoint reports follows the readings of the system alone: it is
    healthy, and the answer 200, exactly when the processor is at 80 % or
    less, the memory at 85 % or less and the disk at 90 % or less; it is
    unhealthy exactly when the disk is above 90 % or the readings could
    not be taken; the checks of the exchange, of Redis and of the strategy
    always pass. Before any check has run the status is unhealthy and the
    answer 503. *)
Theorem default_checks_status (w : World VS SS) :
  (exists report,
     get_status [] w = (Ok report, w) /\
     status report = "unhealthy" /\ http_status report = 503%Z) /\
  exists checks w1 report,
    _run_all_checks [] (default_checks psutil) w = (Ok checks, w1) /\
    get_status checks w1 = (Ok report, w1) /\
    PyDict.keys checks
    = ["system_resources"; "exchange_connection"; "redis_connection";
       "strategy_health"] /\
    (status report = "healthy" <->
     exists readings w',
       psutil w = (Ok readings, w') /\
       cpu_percent readings <= 80 /\ memory_percent readings <= 85 /\
       disk_percent readings <= 90) /\
    (status report = "unhealthy" <->
     (exists e w', psutil w = (Raise e, w')) \/
     (exists readings w',
        psutil w = (Ok readings, w') /\ 90 < disk_percent readings)) /\
    (http_status report = 200%Z <-> status report = "healthy").
Proof.
  split; [eexists; split; [reflexivity|split; reflexivity]|].
  cbn [default_checks _run_all_checks].
  unfold _run_check at 1. unfold try_except at 1. unfold bind at 1.
  unfold _check_system_resources, try_except, bind.
  destruct (psutil w) as [[readings|e] w'] eqn:Hps.
  - pose proof (judge_healthy readings) as Hh.
    pose proof (judge_unhealthy readings) as Hu.
    destruct (judge readings) as [st messages]. cbn [fst] in Hh, Hu.
    cbn. eexists. eexists. eexists. split; [reflexivity|].
    split; [reflexivity|]. split; [reflexivity|].
    destruct st; cbn.
    + split; [|split].
      * split; [intros _; exists readings, w'; split; [reflexivity|];
                now apply Hh
               |reflexivity].
      * split; [discriminate|].
        intros [(e & w2 & H)|(r & w2 & H & Hd)]; [discriminate|].
        inversion H; subst. apply Hu in Hd. discriminate.
      * split; reflexivity.
    + split; [|split].
      * split; [discriminate|].
        intros (r & w2 & H & Hr). inversion H; subst.
        apply Hh in Hr. discriminate.
      * split; [discriminate|].
        intros [(e & w2 & H)|(r & w2 & H & Hd)]; [discriminate|].
        inversion H; subst. apply Hu in Hd. discriminate.
      * split; discriminate.
    + split; [|split].
      * split; [discriminate|].
        intros (r & w2 & H & Hr). inversion H; subst.
        apply Hh in Hr. discriminate.
      * split; [|reflexivity]. intros _. right.
        exists readings, w'. split; [reflexivity|]. now apply Hu.
      * split; discriminate.
  - cbn. eexists. eexists. eexists. split; [reflexivity|].
    split; [reflexivity|]. split; [reflexivity|]. cbn.
    split; [|split].
    + split; [discriminate|]. intros (r & w2 & H & _). discriminate.
    + split; [|reflexivity]. intros _. left. now exists e, w'.
    + split; discriminate.
Qed.

End Facts.
End HealthFacts.
